(** * Group moderation bot: a shallow embedding of [bot.py]

    The development follows the parts of the bot that carry its state:
    the [BotStorage] configuration store, the group message filter
    ([filter_message]), the recurring-message wizard
    ([handle_text_input], [handle_media_input], [confirm_save_message])
    and the scheduler job ([send_recurring_messages]).

    Conventions of the embedding.
    - Python [str] values are [string]s; the text is taken in the ASCII
      range, where [str.lower], [str.strip], [int] and the
      regular-expression class [\w] are the functions written below.
    - A Python [dict] is an association list in insertion order
      ([d[k] = v] overwrites in place or appends).
    - Timestamps are epoch seconds in [Z]; message and user identifiers
      are [Z].
    - Calls to the Telegram API are recorded as events, in order. Where
      the code catches what a call raises, or where the claims speak of
      it, whether the call raises is read from an environment record; the
      prompts of the wizard are taken to be delivered.
    - [save_data] replaces the content of the file by the document. *)

From Stdlib Require Import String Ascii List ZArith Bool Lia Arith.
From Stdlib Require Import Numbers.DecimalString Numbers.DecimalPos.
Import ListNotations.

Open Scope string_scope.
Open Scope list_scope.

(** ** Python strings *)

Module PyStr.

Definition in_range (lo hi : nat) (c : ascii) : bool :=
  let n := nat_of_ascii c in (lo <=? n)%nat && (n <=? hi)%nat.

Definition is_upper (c : ascii) : bool := in_range 65 90 c.
Definition is_lower (c : ascii) : bool := in_range 97 122 c.
Definition is_digit (c : ascii) : bool := in_range 48 57 c.

(** [str.lower] on one character. *)
Definition lower_char (c : ascii) : ascii :=
  if is_upper c then ascii_of_nat (nat_of_ascii c + 32) else c.

(** [s.lower()] *)
Fixpoint lower (s : string) : string :=
  match s with
  | EmptyString => EmptyString
  | String c r => String (lower_char c) (lower r)
  end.

(** [s.startswith(p)] *)
Fixpoint starts_with (p s : string) : bool :=
  match p, s with
  | EmptyString, _ => true
  | String _ _, EmptyString => false
  | String a p', String b s' => Ascii.eqb a b && starts_with p' s'
  end.

(** [p in s] *)
Fixpoint contains (p s : string) : bool :=
  starts_with p s
  || match s with
     | EmptyString => false
     | String _ s' => contains p s'
     end.

(** The characters removed by [str.strip()]: tab, line feed, vertical
    tab, form feed, carriage return, the four separators 28..31 and the
    space. *)
Definition is_space (c : ascii) : bool :=
  in_range 9 13 c || in_range 28 32 c.

Fixpoint lstrip (s : string) : string :=
  match s with
  | EmptyString => EmptyString
  | String c r => if is_space c then lstrip r else s
  end.

Fixpoint rstrip (s : string) : string :=
  match s with
  | EmptyString => EmptyString
  | String c r =>
      match rstrip r with
      | EmptyString => if is_space c then EmptyString else String c EmptyString
      | r' => String c r'
      end
  end.

(** [s.strip()] *)
Definition strip (s : string) : string := rstrip (lstrip s).

(** [s.split(sep)] for a one-character separator: the result is never
    empty, and an empty input gives one empty field. *)
Fixpoint split (sep : ascii) (s : string) : list string :=
  match s with
  | EmptyString => [EmptyString]
  | String c r =>
      if Ascii.eqb c sep then EmptyString :: split sep r
      else match split sep r with
           | [] => [String c EmptyString]
           | f :: fs => String c f :: fs
           end
  end.

(** [s.split(sep, 1)] when [sep in s]: the text before the first
    separator and the text after it; [None] when there is no separator. *)
Fixpoint split_once (sep : ascii) (s : string) : option (string * string) :=
  match s with
  | EmptyString => None
  | String c r =>
      if Ascii.eqb c sep then Some (EmptyString, r)
      else match split_once sep r with
           | Some (a, b) => Some (String c a, b)
           | None => None
           end
  end.

(** [sep in s] for a one-character separator. *)
Fixpoint has_char (sep : ascii) (s : string) : bool :=
  match s with
  | EmptyString => false
  | String c r => Ascii.eqb c sep || has_char sep r
  end.

(** Truth value of a [str]: the empty string is false. *)
Definition truthy (s : string) : bool :=
  match s with EmptyString => false | String _ _ => true end.

(** Truth value of [Optional[str]]: [None] and [""] are false. *)
Definition otruthy (o : option string) : bool :=
  match o with Some s => truthy s | None => false end.

(** [str(n)] for an [int]. *)
Definition of_Z (n : Z) : string := NilZero.string_of_int (Z.to_int n).

Fixpoint digits_value (acc : Z) (s : string) : option Z :=
  match s with
  | EmptyString => Some acc
  | String c r =>
      if is_digit c
      then digits_value (10 * acc + Z.of_nat (nat_of_ascii c - 48)) r
      else if Ascii.eqb c "_"
           then match r with
                | String d _ => if is_digit d then digits_value acc r else None
                | EmptyString => None
                end
           else None
  end.

Definition unsigned_value (s : string) : option Z :=
  match s with
  | String c _ => if is_digit c then digits_value 0 s else None
  | EmptyString => None
  end.

(** The white space that [int()] skips around the digits: tab, line
    feed, vertical tab, form feed, carriage return and the space. The
    separators 28..31, which [str.strip()] removes, are not skipped. *)
Definition is_int_space (c : ascii) : bool :=
  in_range 9 13 c || Ascii.eqb c " ".

Fixpoint int_lstrip (s : string) : string :=
  match s with
  | EmptyString => EmptyString
  | String c r => if is_int_space c then int_lstrip r else s
  end.

Fixpoint int_rstrip (s : string) : string :=
  match s with
  | EmptyString => EmptyString
  | String c r =>
      match int_rstrip r with
      | EmptyString => if is_int_space c then EmptyString else String c EmptyString
      | r' => String c r'
      end
  end.

(** [int(s)]: the white space of [is_int_space] around the number is
    ignored, one sign is allowed, the digits may be grouped by single
    underscores; [None] stands for [ValueError]. *)
Definition to_int (s : string) : option Z :=
  match int_rstrip (int_lstrip s) with
  | String "-" r => option_map Z.opp (unsigned_value r)
  | String "+" r => unsigned_value r
  | t => unsigned_value t
  end.

End PyStr.

(** ** Python dictionaries *)

Class KeyEq (K : Type) := { keqb : K -> K -> bool }.

#[export] Instance KeyEq_string : KeyEq string := {| keqb := String.eqb |}.

#[export] Instance KeyEq_Z : KeyEq Z := {| keqb := Z.eqb |}.

(** Keys that may be [None]: the wizard stores a recurring message under
    [msg_data['chat_id']], which is [None] until the chat step has passed. *)
Definition option_eqb {K} `{KeyEq K} (a b : option K) : bool :=
  match a, b with
  | Some x, Some y => keqb x y
  | None, None => true
  | Some _, None => false
  | None, Some _ => false
  end.

#[export] Instance KeyEq_option {K} `{KeyEq K} : KeyEq (option K) :=
  {| keqb := option_eqb |}.

Module Dict.
Section Ops.
Context {K V : Type} `{KeyEq K}.

(** [d.get(k)] *)
Fixpoint get (k : K) (d : list (K * V)) : option V :=
  match d with
  | [] => None
  | (k', v) :: r => if keqb k k' then Some v else get k r
  end.

(** [k in d] *)
Definition mem (k : K) (d : list (K * V)) : bool :=
  match get k d with Some _ => true | None => false end.

(** [d.get(k, dflt)] *)
Definition get_default (k : K) (dflt : V) (d : list (K * V)) : V :=
  match get k d with Some v => v | None => dflt end.

(** [d[k] = v]: an existing key keeps its place, a new key goes last. *)
Fixpoint set (k : K) (v : V) (d : list (K * V)) : list (K * V) :=
  match d with
  | [] => [(k, v)]
  | (k', v') :: r => if keqb k k' then (k', v) :: r else (k', v') :: set k v r
  end.

(** [d.pop(k, None)] and [del d[k]] for a present key: no binding of
    the key is left. *)
Fixpoint remove (k : K) (d : list (K * V)) : list (K * V) :=
  match d with
  | [] => []
  | (k', v') :: r => if keqb k k' then remove k r else (k', v') :: remove k r
  end.
End Ops.
End Dict.

Abbreviation dict K V := (list (K * V)) (only parsing).

(** ** Data model *)

(** The three values stored under ['media_type']. *)
Inductive MediaType := photo | video | animation.

(** One inline button, [{'text': ..., 'url': ...}]. *)
Record Button := { btn_text : string; btn_url : string }.

(** One recurring message as stored under ["recurring_messages"].
    ['interval'] is [None] only when a session was saved before its
    interval step. *)
Record RecurringItem := {
  rm_text : option string;
  rm_media : option string;
  rm_media_type : option MediaType;
  rm_buttons : list Button;
  rm_interval : option Z;
  rm_delete_previous : bool;
  rm_pin_message : bool;
  rm_last_sent : Z;
  rm_last_message_id : option Z
}.

(** One entry of [storage.temp_messages], the message being built by a
    user in the wizard. *)
Record Session := {
  tm_text : option string;
  tm_media : option string;
  tm_media_type : option MediaType;
  tm_buttons : list Button;
  tm_interval : option Z;
  tm_chat_id : option string;
  tm_delete_previous : bool;
  tm_pin_message : bool
}.

(** [BotStorage.data]: five dictionaries keyed by the chat identifier. *)
Record Data := {
  recurring_messages : dict (option string) (list RecurringItem);
  banned_words : dict string (list string);
  block_links : dict string bool;
  block_mentions : dict string bool;
  auto_replies : dict string (dict string string)
}.

(** The storage object: the configuration, the wizard sessions and the
    content of [bot_data.json] ([None] while the file does not exist). *)
Record BotStorage := {
  data : Data;
  temp_messages : dict Z Session;
  file : option Data
}.

Definition empty_data : Data :=
  {| recurring_messages := []; banned_words := []; block_links := [];
     block_mentions := []; auto_replies := [] |}.

(** [BotStorage()] when [bot_data.json] is absent. *)
Definition new_storage : BotStorage :=
  {| data := empty_data; temp_messages := []; file := None |}.

Definition with_data (st : BotStorage) (d : Data) : BotStorage :=
  {| data := d; temp_messages := temp_messages st; file := file st |}.

Definition with_temp (st : BotStorage) (t : dict Z Session) : BotStorage :=
  {| data := data st; temp_messages := t; file := file st |}.

Definition set_recurring (d : Data) (r : dict (option string) (list RecurringItem)) : Data :=
  {| recurring_messages := r; banned_words := banned_words d;
     block_links := block_links d; block_mentions := block_mentions d;
     auto_replies := auto_replies d |}.

Definition set_banned (d : Data) (b : dict string (list string)) : Data :=
  {| recurring_messages := recurring_messages d; banned_words := b;
     block_links := block_links d; block_mentions := block_mentions d;
     auto_replies := auto_replies d |}.

Definition set_links (d : Data) (b : dict string bool) : Data :=
  {| recurring_messages := recurring_messages d; banned_words := banned_words d;
     block_links := b; block_mentions := block_mentions d;
     auto_replies := auto_replies d |}.

Definition set_mentions (d : Data) (b : dict string bool) : Data :=
  {| recurring_messages := recurring_messages d; banned_words := banned_words d;
     block_links := block_links d; block_mentions := b;
     auto_replies := auto_replies d |}.

Definition set_replies (d : Data) (a : dict string (dict string string)) : Data :=
  {| recurring_messages := recurring_messages d; banned_words := banned_words d;
     block_links := block_links d; block_mentions := block_mentions d;
     auto_replies := a |}.

(** ** [BotStorage] methods *)

(** [save_data]: the whole document replaces the file. *)
Definition save_data (st : BotStorage) : BotStorage :=
  {| data := data st; temp_messages := temp_messages st; file := Some (data st) |}.

Definition get_recurring_messages (st : BotStorage) (chat_id : string) : list RecurringItem :=
  Dict.get_default (Some chat_id) [] (recurring_messages (data st)).

Definition add_recurring_message (st : BotStorage) (chat_id : option string)
    (message_data : RecurringItem) : BotStorage :=
  let r := recurring_messages (data st) in
  let r1 := if Dict.mem chat_id r then r else Dict.set chat_id [] r in
  let r2 := Dict.set chat_id (Dict.get_default chat_id [] r1 ++ [message_data]) r1 in
  save_data (with_data st (set_recurring (data st) r2)).

(** [list.pop(index)] for [0 <= index < len]. *)
Fixpoint list_pop {A} (i : nat) (l : list A) : list A :=
  match l, i with
  | [], _ => []
  | _ :: r, O => r
  | x :: r, S j => x :: list_pop j r
  end.

Definition remove_recurring_message (st : BotStorage) (chat_id : string) (index : Z)
    : BotStorage :=
  let r := recurring_messages (data st) in
  match Dict.get (Some chat_id) r with
  | Some msgs =>
      if ((0 <=? index) && (index <? Z.of_nat (List.length msgs)))%Z
      then save_data (with_data st (set_recurring (data st)
             (Dict.set (Some chat_id) (list_pop (Z.to_nat index) msgs) r)))
      else st
  | None => st
  end.

Definition get_banned_words (st : BotStorage) (chat_id : string) : list string :=
  Dict.get_default chat_id [] (banned_words (data st)).

(** [x in l] for a list of strings. *)
Definition str_in (x : string) (l : list string) : bool :=
  existsb (String.eqb x) l.

Definition add_banned_word (st : BotStorage) (chat_id word : string) : BotStorage :=
  let b := banned_words (data st) in
  let b1 := if Dict.mem chat_id b then b else Dict.set chat_id [] b in
  let ws := Dict.get_default chat_id [] b1 in
  if negb (str_in (PyStr.lower word) (map PyStr.lower ws))
  then save_data (with_data st (set_banned (data st)
         (Dict.set chat_id (ws ++ [PyStr.lower word]) b1)))
  else with_data st (set_banned (data st) b1).

Definition remove_banned_word (st : BotStorage) (chat_id word : string) : BotStorage :=
  let b := banned_words (data st) in
  match Dict.get chat_id b with
  | Some ws =>
      save_data (with_data st (set_banned (data st)
        (Dict.set chat_id
           (filter (fun w => negb (String.eqb (PyStr.lower w) (PyStr.lower word))) ws)
           b)))
  | None => st
  end.

Definition set_block_links (st : BotStorage) (chat_id : string) (enabled : bool) : BotStorage :=
  save_data (with_data st (set_links (data st) (Dict.set chat_id enabled (block_links (data st))))).

Definition get_block_links (st : BotStorage) (chat_id : string) : bool :=
  Dict.get_default chat_id false (block_links (data st)).

Definition set_block_mentions (st : BotStorage) (chat_id : string) (enabled : bool) : BotStorage :=
  save_data (with_data st (set_mentions (data st) (Dict.set chat_id enabled (block_mentions (data st))))).

Definition get_block_mentions (st : BotStorage) (chat_id : string) : bool :=
  Dict.get_default chat_id false (block_mentions (data st)).

Definition add_auto_reply (st : BotStorage) (chat_id trigger reply : string) : BotStorage :=
  let a := auto_replies (data st) in
  let a1 := if Dict.mem chat_id a then a else Dict.set chat_id [] a in
  let m := Dict.get_default chat_id [] a1 in
  save_data (with_data st (set_replies (data st)
    (Dict.set chat_id (Dict.set (PyStr.lower trigger) reply m) a1))).

Definition remove_auto_reply (st : BotStorage) (chat_id trigger : string) : BotStorage :=
  let a := auto_replies (data st) in
  match Dict.get chat_id a with
  | Some m =>
      save_data (with_data st (set_replies (data st)
        (Dict.set chat_id (Dict.remove (PyStr.lower trigger) m) a)))
  | None => st
  end.

Definition get_auto_replies (st : BotStorage) (chat_id : string) : dict string string :=
  Dict.get_default chat_id [] (auto_replies (data st)).

(** ** Regular expressions ([re.search]) *)

Module Re.

Inductive re :=
| Emp
| Eps
| Chr (p : ascii -> bool)
| Cat (r1 r2 : re)
| Alt (r1 r2 : re)
| Star (r : re).

Definition Plus (r : re) : re := Cat r (Star r).
Definition Opt (r : re) : re := Alt r Eps.

Fixpoint nullable (r : re) : bool :=
  match r with
  | Emp => false
  | Eps => true
  | Chr _ => false
  | Cat r1 r2 => nullable r1 && nullable r2
  | Alt r1 r2 => nullable r1 || nullable r2
  | Star _ => true
  end.

(** The expression that matches [w] exactly when [r] matches [c] followed
    by [w]. *)
Fixpoint deriv (c : ascii) (r : re) : re :=
  match r with
  | Emp => Emp
  | Eps => Emp
  | Chr p => if p c then Eps else Emp
  | Cat r1 r2 =>
      if nullable r1
      then Alt (Cat (deriv c r1) r2) (deriv c r2)
      else Cat (deriv c r1) r2
  | Alt r1 r2 => Alt (deriv c r1) (deriv c r2)
  | Star r1 => Cat (deriv c r1) (Star r1)
  end.

(** [re.match(r, s) is not None]: some prefix of [s] matches. *)
Fixpoint match_prefix (r : re) (s : string) : bool :=
  nullable r
  || match s with
     | EmptyString => false
     | String c t => match_prefix (deriv c r) t
     end.

(** [re.search(r, s) is not None]: a match starts somewhere in [s]. *)
Fixpoint search (r : re) (s : string) : bool :=
  match_prefix r s
  || match s with
     | EmptyString => false
     | String _ t => search r t
     end.

(** The words of an expression. *)
Inductive Matches : re -> string -> Prop :=
| MEps : Matches Eps EmptyString
| MChr p c : p c = true -> Matches (Chr p) (String c EmptyString)
| MCat r1 r2 w1 w2 : Matches r1 w1 -> Matches r2 w2 -> Matches (Cat r1 r2) (w1 ++ w2)
| MAltL r1 r2 w : Matches r1 w -> Matches (Alt r1 r2) w
| MAltR r1 r2 w : Matches r2 w -> Matches (Alt r1 r2) w
| MStar0 r : Matches (Star r) EmptyString
| MStarS r w1 w2 : Matches r w1 -> Matches (Star r) w2 -> Matches (Star r) (w1 ++ w2).

Definition upper_char (c : ascii) : ascii :=
  if PyStr.is_lower c then ascii_of_nat (nat_of_ascii c - 32) else c.

(** A character class under [re.IGNORECASE]: a character is in the class
    when it or one of its case variants is. *)
Definition ci (p : ascii -> bool) : ascii -> bool :=
  fun c => p c || p (PyStr.lower_char c) || p (upper_char c).

Definition one (a : ascii) : ascii -> bool := fun c => Ascii.eqb c a.

Definition range (lo hi : ascii) : ascii -> bool :=
  PyStr.in_range (nat_of_ascii lo) (nat_of_ascii hi).

Definition union (p q : ascii -> bool) : ascii -> bool := fun c => p c || q c.

(** A literal text, each character through [f] (identity, or [ci]). *)
Fixpoint lit (f : (ascii -> bool) -> ascii -> bool) (s : string) : re :=
  match s with
  | EmptyString => Eps
  | String a r => Cat (Chr (f (one a))) (lit f r)
  end.

(** [\w] on ASCII text: letters, digits and the underscore. *)
Definition word_char : ascii -> bool :=
  union (range "a" "z") (union (range "A" "Z") (union (range "0" "9") (one "_"))).

End Re.

(** ** The group message filter *)

(** [r'http[s]?://(?:[a-zA-Z]|[0-9]|[$-_@.&+]|[!*\\(\\),]|(?:%[0-9a-fA-F][0-9a-fA-F]))+']
    compiled with [re.IGNORECASE]. *)
Definition url_pattern : Re.re :=
  let cls p := Re.Chr (Re.ci p) in
  let hex := Re.union (Re.range "0" "9") (Re.union (Re.range "a" "f") (Re.range "A" "F")) in
  Re.Cat (Re.lit Re.ci "http")
   (Re.Cat (Re.Opt (cls (Re.one "s")))
     (Re.Cat (Re.lit Re.ci "://")
       (Re.Plus
         (Re.Alt (cls (Re.union (Re.range "a" "z") (Re.range "A" "Z")))
         (Re.Alt (cls (Re.range "0" "9"))
         (Re.Alt (cls (Re.union (Re.range "$" "_")
                        (Re.union (Re.one "@") (Re.union (Re.one ".")
                          (Re.union (Re.one "&") (Re.one "+"))))))
         (Re.Alt (cls (Re.union (Re.one "!") (Re.union (Re.one "*")
                        (Re.union (Re.one "\") (Re.union (Re.one "(")
                          (Re.union (Re.one "\") (Re.union (Re.one ")") (Re.one ","))))))))
                 (Re.Cat (cls (Re.one "%")) (Re.Cat (cls hex) (cls hex)))))))))).

(** [r't\.me/|telegram\.me/|telegram\.dog/'] compiled with [re.IGNORECASE]. *)
Definition tg_pattern : Re.re :=
  Re.Alt (Re.lit Re.ci "t.me/")
    (Re.Alt (Re.lit Re.ci "telegram.me/") (Re.lit Re.ci "telegram.dog/")).

(** [r'@\w+'] *)
Definition mention_pattern : Re.re :=
  Re.Cat (Re.Chr (Re.one "@")) (Re.Plus (Re.Chr Re.word_char)).

(** The three reasons shown in the warning: "links", "mentions" and
    "banned word". *)
Inductive Reason := links | mentions | banned_word.

Inductive MemberStatus := creator | administrator | member | restricted | left | kicked.

(** The parts of a Telegram message the handlers read. *)
Record Message := {
  chat_private : bool;
  msg_text : option string;
  msg_caption : option string;
  msg_photo : list string;
  msg_video : option string;
  msg_animation : option string
}.

Record Update := {
  upd_message : option Message;
  effective_chat : Z;
  effective_user : Z
}.

(** What the Telegram API answers during one run of [filter_message];
    [None] and [false] stand for a raised exception. *)
Record FilterEnv := {
  fe_chat_member : option MemberStatus;
  fe_reply_markdown_ok : bool;
  fe_reply_plain_ok : bool;
  fe_delete_ok : bool;
  fe_warning_ok : bool
}.

Inductive FilterEvent :=
| FReply (markdown : bool) (reply : string)
| FDeleteMessage
| FWarning (chat_id : string) (reason : Reason)
| FSleep (seconds : Z)
| FDeleteWarning
| FPrintError.

(** [message.text or message.caption or ""] *)
Definition message_body (m : Message) : string :=
  if PyStr.otruthy (msg_text m) then match msg_text m with Some s => s | None => "" end
  else if PyStr.otruthy (msg_caption m) then match msg_caption m with Some s => s | None => "" end
  else "".

(** The loop over [auto_replies.items()]: the reply of the first trigger
    found in the lower-cased text. *)
Fixpoint first_auto_reply (replies : dict string string) (text_lower : string) : option string :=
  match replies with
  | [] => None
  | (trigger, reply) :: rest =>
      if PyStr.contains trigger text_lower then Some reply
      else first_auto_reply rest text_lower
  end.

(** The loop over [banned_words]: stops at the first word found. *)
Fixpoint first_banned_word (words : list string) (text_lower : string) : option string :=
  match words with
  | [] => None
  | word :: rest =>
      if PyStr.contains word text_lower then Some word
      else first_banned_word rest text_lower
  end.

(** [should_delete] and [reason] after the three checks. *)
Definition deletion_check (st : BotStorage) (chat_id text : string) : option Reason :=
  let text_lower := PyStr.lower text in
  let r1 :=
    if get_block_links st chat_id
    then if Re.search url_pattern text || Re.search tg_pattern text
         then Some links else None
    else None in
  let r2 :=
    if get_block_mentions st chat_id && negb (match r1 with Some _ => true | None => false end)
    then if Re.search mention_pattern text then Some mentions else r1
    else r1 in
  match r2 with
  | Some _ => r2
  | None =>
      match first_banned_word (get_banned_words st chat_id) text_lower with
      | Some _ => Some banned_word
      | None => None
      end
  end.

Definition is_admin_status (s : MemberStatus) : bool :=
  match s with creator | administrator => true | _ => false end.

(** The deletion with its temporary warning; a failure to delete the
    warning afterwards is passed over. *)
Definition delete_with_warning (env : FilterEnv) (chat_id : string) (reason : Reason)
    : list FilterEvent :=
  if fe_delete_ok env
  then if fe_warning_ok env
       then [FDeleteMessage; FWarning chat_id reason; FSleep 3; FDeleteWarning]
       else [FDeleteMessage; FWarning chat_id reason; FPrintError]
  else [FDeleteMessage; FPrintError].

(** [member.status in ['creator', 'administrator']], and [False] when
    [get_chat_member] raises. *)
Definition is_admin_user (env : FilterEnv) : bool :=
  match fe_chat_member env with
  | Some s => is_admin_status s
  | None => false
  end.

(** The auto-reply loop: the reply is sent with Markdown and, when that
    raises, once more without; the flag tells that the second call raised
    as well. *)
Definition auto_reply_step (env : FilterEnv) (replies : dict string string)
    (text_lower : string) : list FilterEvent * bool :=
  match first_auto_reply replies text_lower with
  | Some reply =>
      if fe_reply_markdown_ok env then ([FReply true reply], false)
      else ([FReply true reply; FReply false reply], negb (fe_reply_plain_ok env))
  | None => ([], false)
  end.

(** [filter_message]: the calls made, in order, and whether an exception
    left the handler. The storage is only read. *)
Definition filter_message (st : BotStorage) (env : FilterEnv) (update : Update)
    : list FilterEvent * bool :=
  match upd_message update with
  | None => ([], false)
  | Some message =>
      if chat_private message then ([], false)
      else
        let chat_id := PyStr.of_Z (effective_chat update) in
        let text := message_body message in
        let text_lower := PyStr.lower text in
        let '(replied, reply_raised) :=
          auto_reply_step env (get_auto_replies st chat_id) text_lower in
        if reply_raised then (replied, true)
        else if is_admin_user env then (replied, false)
        else
          match deletion_check st chat_id text with
          | Some reason => (replied ++ delete_with_warning env chat_id reason, false)
          | None => (replied, false)
          end
  end.

Definition is_reply (e : FilterEvent) : bool :=
  match e with FReply _ _ => true | _ => false end.

(** ** The recurring-message wizard *)

(** The values of [context.user_data['state']]. The preview is shown
    while the state is still [waiting_interval]. *)
Inductive WizardState :=
| waiting_chatid | waiting_text | waiting_media | waiting_buttons
| waiting_delete_option | waiting_interval.

(** The bot in a private chat: the storage and, per user, the wizard
    state ([None] when the key is absent or holds [None]). *)
Record Bot := {
  storage : BotStorage;
  user_state : dict Z WizardState
}.

(** What the handlers send back; the wording of the prompts is left out. *)
Inductive Reply :=
| SayCancelled
| SayNotAdmin
| SayInvalidChatId
| AskText
| AskMedia
| AskButtons
| AskDeletePrevious
| AskPin
| AskInterval
| AskChatId
| SayIntervalTooSmall
| SayInvalidNumber
| SayUnsupportedMedia
| ShowPreview (s : Session)
| AnswerNoMessage
| AnswerNoMessageToSave
| AnswerSaved
| SaySaved (chat_id : option string) (item : RecurringItem)
| ShowRecurringMenu.

Definition get_state (b : Bot) (user_id : Z) : option WizardState :=
  Dict.get user_id (user_state b).

(** [context.user_data['state'] = s] *)
Definition set_state (b : Bot) (user_id : Z) (s : option WizardState) : Bot :=
  {| storage := storage b;
     user_state := match s with
                   | Some w => Dict.set user_id w (user_state b)
                   | None => Dict.remove user_id (user_state b)
                   end |}.

Definition with_storage (b : Bot) (st : BotStorage) : Bot :=
  {| storage := st; user_state := user_state b |}.

Definition get_session (b : Bot) (user_id : Z) : option Session :=
  Dict.get user_id (temp_messages (storage b)).

(** [storage.temp_messages[user_id][key] = value] for a present user. *)
Definition update_session (b : Bot) (user_id : Z) (f : Session -> Session) : Bot :=
  match get_session b user_id with
  | Some s => with_storage b (with_temp (storage b)
                (Dict.set user_id (f s) (temp_messages (storage b))))
  | None => b
  end.

(** [del storage.temp_messages[user_id]] *)
Definition delete_session (b : Bot) (user_id : Z) : Bot :=
  with_storage b (with_temp (storage b) (Dict.remove user_id (temp_messages (storage b)))).

Definition set_tm_text (v : option string) (s : Session) : Session :=
  {| tm_text := v; tm_media := tm_media s; tm_media_type := tm_media_type s;
     tm_buttons := tm_buttons s; tm_interval := tm_interval s;
     tm_chat_id := tm_chat_id s; tm_delete_previous := tm_delete_previous s;
     tm_pin_message := tm_pin_message s |}.

Definition set_tm_media (v : option string) (ty : option MediaType) (s : Session) : Session :=
  {| tm_text := tm_text s; tm_media := v; tm_media_type := ty;
     tm_buttons := tm_buttons s; tm_interval := tm_interval s;
     tm_chat_id := tm_chat_id s; tm_delete_previous := tm_delete_previous s;
     tm_pin_message := tm_pin_message s |}.

Definition set_tm_buttons (v : list Button) (s : Session) : Session :=
  {| tm_text := tm_text s; tm_media := tm_media s; tm_media_type := tm_media_type s;
     tm_buttons := v; tm_interval := tm_interval s;
     tm_chat_id := tm_chat_id s; tm_delete_previous := tm_delete_previous s;
     tm_pin_message := tm_pin_message s |}.

Definition set_tm_interval (v : option Z) (s : Session) : Session :=
  {| tm_text := tm_text s; tm_media := tm_media s; tm_media_type := tm_media_type s;
     tm_buttons := tm_buttons s; tm_interval := v;
     tm_chat_id := tm_chat_id s; tm_delete_previous := tm_delete_previous s;
     tm_pin_message := tm_pin_message s |}.

Definition set_tm_chat_id (v : option string) (s : Session) : Session :=
  {| tm_text := tm_text s; tm_media := tm_media s; tm_media_type := tm_media_type s;
     tm_buttons := tm_buttons s; tm_interval := tm_interval s;
     tm_chat_id := v; tm_delete_previous := tm_delete_previous s;
     tm_pin_message := tm_pin_message s |}.

Definition set_tm_delete_previous (v : bool) (s : Session) : Session :=
  {| tm_text := tm_text s; tm_media := tm_media s; tm_media_type := tm_media_type s;
     tm_buttons := tm_buttons s; tm_interval := tm_interval s;
     tm_chat_id := tm_chat_id s; tm_delete_previous := v;
     tm_pin_message := tm_pin_message s |}.

Definition set_tm_pin_message (v : bool) (s : Session) : Session :=
  {| tm_text := tm_text s; tm_media := tm_media s; tm_media_type := tm_media_type s;
     tm_buttons := tm_buttons s; tm_interval := tm_interval s;
     tm_chat_id := tm_chat_id s; tm_delete_previous := tm_delete_previous s;
     tm_pin_message := v |}.

(** The session created by the "recurring_add" action. *)
Definition fresh_session : Session :=
  {| tm_text := None; tm_media := None; tm_media_type := None; tm_buttons := [];
     tm_interval := None; tm_chat_id := None; tm_delete_previous := false;
     tm_pin_message := false |}.

(** [handle_recurring_action] for ["recurring_add"]: a session of the
    same user is overwritten. *)
Definition recurring_add (b : Bot) (user_id : Z) : Bot * list Reply :=
  let b1 := with_storage b (with_temp (storage b)
              (Dict.set user_id fresh_session (temp_messages (storage b)))) in
  (set_state b1 user_id (Some waiting_chatid), [AskChatId]).

(** [show_recurring_menu], which is also what every "Cancel" button of
    the wizard calls: it only draws the menu. *)
Definition show_recurring_menu (b : Bot) : Bot * list Reply :=
  (b, [ShowRecurringMenu]).

Definition handle_delete_option (b : Bot) (user_id : Z) (delete : bool) : Bot * list Reply :=
  match get_session b user_id with
  | None => (b, [AnswerNoMessage])
  | Some _ => (update_session b user_id (set_tm_delete_previous delete), [AskPin])
  end.

Definition handle_pin_option (b : Bot) (user_id : Z) (pin : bool) : Bot * list Reply :=
  match get_session b user_id with
  | None => (b, [AnswerNoMessage])
  | Some _ =>
      (set_state (update_session b user_id (set_tm_pin_message pin)) user_id
         (Some waiting_interval),
       [AskInterval])
  end.

Definition newline : ascii := ascii_of_nat 10.

(** The loop over the lines of the buttons text: a line with a ['|']
    gives one button, split at the first ['|'], both sides stripped. *)
Definition parse_buttons (text : string) : list Button :=
  flat_map
    (fun line =>
       if PyStr.has_char "|" line
       then match PyStr.split_once "|" line with
            | Some (btn_text, btn_url) =>
                [{| btn_text := PyStr.strip btn_text; btn_url := PyStr.strip btn_url |}]
            | None => []
            end
       else [])
    (PyStr.split newline (PyStr.strip text)).

(** [handle_text_input]. [is_admin chat_id] is the answer of
    [is_group_admin] for the sender. *)
Definition handle_text_input (is_admin : Z -> bool) (b : Bot)
    (private : bool) (user_id : Z) (text : string) : Bot * list Reply :=
  if negb private then (b, [])
  else
    match get_state b user_id, get_session b user_id with
    | None, _ => (b, [])
    | Some _, None => (b, [])
    | Some state, Some _ =>
        if String.eqb text "/cancel"
        then (set_state (delete_session b user_id) user_id None, [SayCancelled])
        else
          match state with
          | waiting_chatid =>
              match PyStr.to_int text with
              | Some chat_id =>
                  if is_admin chat_id
                  then (set_state
                          (update_session b user_id (set_tm_chat_id (Some (PyStr.of_Z chat_id))))
                          user_id (Some waiting_text),
                        [AskText])
                  else (b, [SayNotAdmin])
              | None => (b, [SayInvalidChatId])
              end
          | waiting_text =>
              let b1 :=
                if negb (String.eqb (PyStr.lower text) "skip")
                then update_session b user_id (set_tm_text (Some text))
                else b in
              (set_state b1 user_id (Some waiting_media), [AskMedia])
          | waiting_buttons =>
              let buttons :=
                if String.eqb (PyStr.lower text) "skip" then [] else parse_buttons text in
              (set_state (update_session b user_id (set_tm_buttons buttons))
                 user_id (Some waiting_delete_option),
               [AskDeletePrevious])
          | waiting_interval =>
              match PyStr.to_int text with
              | Some interval =>
                  if (interval <? 1)%Z then (b, [SayIntervalTooSmall])
                  else
                    let b1 := update_session b user_id (set_tm_interval (Some interval)) in
                    (b1, match get_session b1 user_id with
                         | Some s => [ShowPreview s]
                         | None => []
                         end)
              | None => (b, [SayInvalidNumber])
              end
          | waiting_media => (b, [])
          | waiting_delete_option => (b, [])
          end
    end.

(** The attachment read by [handle_media_input]: the last photo size,
    else the video, else the animation. *)
Definition media_of_message (message : Message) : option (string * MediaType) :=
  match msg_photo message with
  | _ :: _ => Some (List.last (msg_photo message) "", photo)
  | [] =>
      match msg_video message with
      | Some file_id => Some (file_id, video)
      | None =>
          match msg_animation message with
          | Some file_id => Some (file_id, animation)
          | None => None
          end
      end
  end.

Definition handle_media_input (b : Bot) (private : bool) (user_id : Z)
    (message : Message) : Bot * list Reply :=
  if negb private then (b, [])
  else
    match get_state b user_id, get_session b user_id with
    | Some waiting_media, Some _ =>
        match media_of_message message with
        | Some (file_id, media_type) =>
            (set_state
               (update_session b user_id (set_tm_media (Some file_id) (Some media_type)))
               user_id (Some waiting_buttons),
             [AskButtons])
        | None => (b, [SayUnsupportedMedia])
        end
    | _, _ => (b, [])
    end.

(** The dictionary built by [confirm_save_message]. *)
Definition recurring_data (s : Session) : RecurringItem :=
  {| rm_text := tm_text s;
     rm_media := tm_media s;
     rm_media_type := tm_media_type s;
     rm_buttons := tm_buttons s;
     rm_interval := tm_interval s;
     rm_delete_previous := tm_delete_previous s;
     rm_pin_message := tm_pin_message s;
     rm_last_sent := 0;
     rm_last_message_id := None |}.

Definition confirm_save_message (b : Bot) (user_id : Z) : Bot * list Reply :=
  match get_session b user_id with
  | None => (b, [AnswerNoMessageToSave])
  | Some msg_data =>
      let chat_id := tm_chat_id msg_data in
      let item := recurring_data msg_data in
      let b1 := with_storage b (add_recurring_message (storage b) chat_id item) in
      (set_state (delete_session b1 user_id) user_id None,
       [AnswerSaved; SaySaved chat_id item; ShowRecurringMenu])
  end.

(** ** The scheduler job *)

(** What the Telegram API answers while one due item is handled:
    [false] and [None] stand for a raised exception, [Some id] is the
    identifier of the message that was sent. *)
Record ItemOutcome := {
  delete_previous_ok : bool;
  send_result : option Z;
  pin_ok : bool
}.

Inductive SchedEvent :=
| SDeleteMessage (chat_id : option string) (message_id : Z)
| SSendMedia (chat_id : option string) (kind : MediaType) (media : string)
    (caption : option string) (reply_markup : option (list Button))
| SSendMessage (chat_id : option string) (text : string)
    (reply_markup : option (list Button))
| SPinMessage (chat_id : option string) (message_id : Z)
| SSaveData
| SPrintError.

(** [InlineKeyboardMarkup(keyboard) if keyboard else None] *)
Definition reply_markup_of (buttons : list Button) : option (list Button) :=
  match buttons with
  | [] => None
  | _ :: _ => Some buttons
  end.

(** The send branch taken for an item, if any: [send_photo],
    [send_video] or [send_animation] when both [media] and [media_type]
    are set, else [send_message] when [text] is set, else nothing. *)
Definition send_call (chat_id : option string) (m : RecurringItem) : option SchedEvent :=
  let markup := reply_markup_of (rm_buttons m) in
  let text := rm_text m in
  let text_branch :=
    match text with
    | Some t => if PyStr.truthy t then Some (SSendMessage chat_id t markup) else None
    | None => None
    end in
  match rm_media m, rm_media_type m with
  | Some media, Some kind =>
      if PyStr.truthy media
      then Some (SSendMedia chat_id kind media
                   (if PyStr.otruthy text then text else None) markup)
      else text_branch
  | _, _ => text_branch
  end.

Definition is_send (e : SchedEvent) : bool :=
  match e with
  | SSendMedia _ _ _ _ _ => true
  | SSendMessage _ _ _ => true
  | _ => false
  end.

Definition set_sent (m : RecurringItem) (last_sent : Z) (last_message_id : option Z)
    : RecurringItem :=
  {| rm_text := rm_text m; rm_media := rm_media m; rm_media_type := rm_media_type m;
     rm_buttons := rm_buttons m; rm_interval := rm_interval m;
     rm_delete_previous := rm_delete_previous m; rm_pin_message := rm_pin_message m;
     rm_last_sent := last_sent; rm_last_message_id := last_message_id |}.

(** [current_time - last_sent >= interval_seconds] *)
Definition is_due (current_time : Z) (m : RecurringItem) (interval : Z) : bool :=
  (interval * 60 <=? current_time - rm_last_sent m)%Z.

(** The deletion of the previous message, inside its own [try]. *)
Definition delete_previous_step (o : ItemOutcome) (chat_id : option string)
    (m : RecurringItem) : list SchedEvent :=
  match rm_last_message_id m with
  | Some id =>
      if rm_delete_previous m && negb (id =? 0)%Z
      then SDeleteMessage chat_id id :: (if delete_previous_ok o then [] else [SPrintError])
      else []
  | None => []
  end.

(** One run of the loop body. *)
Record ItemRun := {
  run_item : RecurringItem;
  run_trace : list SchedEvent;
  run_saved : bool
}.

(** The body of the inner loop of [send_recurring_messages] for one
    [msg_data]; [None] is the [TypeError] of [None * 60], raised outside
    the [try]. *)
Definition send_recurring_item (current_time : Z) (o : ItemOutcome)
    (chat_id : option string) (m : RecurringItem) : option ItemRun :=
  match rm_interval m with
  | None => None
  | Some interval =>
      if is_due current_time m interval
      then
        let deleted := delete_previous_step o chat_id m in
        match send_call chat_id m with
        | Some call =>
            match send_result o with
            | None =>
                Some {| run_item := m;
                        run_trace := deleted ++ [call; SPrintError];
                        run_saved := false |}
            | Some id =>
                let pinned :=
                  if rm_pin_message m
                  then SPinMessage chat_id id :: (if pin_ok o then [] else [SPrintError])
                  else [] in
                Some {| run_item := set_sent m current_time (Some id);
                        run_trace := deleted ++ [call] ++ pinned ++ [SSaveData];
                        run_saved := true |}
            end
        | None =>
            Some {| run_item := set_sent m current_time (rm_last_message_id m);
                    run_trace := deleted ++ [SSaveData];
                    run_saved := true |}
        end
      else Some {| run_item := m; run_trace := []; run_saved := false |}
  end.

(** The answers of the API during one tick, by position of the chat in
    the dictionary and of the item in its list. *)
Definition TickEnv := nat -> nat -> ItemOutcome.

(** The inner loop over one chat's list. [done] are the items already
    handled, [rebuild] gives the whole document for a list of this chat;
    the result holds the list, the file, the calls and whether the job
    was left by an exception. *)
Fixpoint tick_chat (current_time : Z) (o : nat -> ItemOutcome) (chat_id : option string)
    (rebuild : list RecurringItem -> Data) (file0 : option Data)
    (done todo : list RecurringItem)
    : list RecurringItem * option Data * list SchedEvent * bool :=
  match todo with
  | [] => (done, file0, [], false)
  | m :: rest =>
      match send_recurring_item current_time (o (List.length done)) chat_id m with
      | None => (done ++ m :: rest, file0, [], true)
      | Some r =>
          let file1 :=
            if run_saved r then Some (rebuild (done ++ run_item r :: rest)) else file0 in
          let '(items, file2, trace, raised) :=
            tick_chat current_time o chat_id rebuild file1 (done ++ [run_item r]) rest in
          (items, file2, run_trace r ++ trace, raised)
      end
  end.

(** The outer loop over [storage.data["recurring_messages"].items()]. *)
Fixpoint tick_chats (current_time : Z) (env : TickEnv) (d : Data) (file0 : option Data)
    (done todo : dict (option string) (list RecurringItem))
    : dict (option string) (list RecurringItem) * option Data * list SchedEvent * bool :=
  match todo with
  | [] => (done, file0, [], false)
  | (chat_id, messages) :: rest =>
      let rebuild items := set_recurring d (done ++ (chat_id, items) :: rest) in
      let '(items, file1, trace1, raised) :=
        tick_chat current_time (env (List.length done)) chat_id rebuild file0 [] messages in
      if raised then (done ++ (chat_id, items) :: rest, file1, trace1, true)
      else
        let '(all, file2, trace2, raised2) :=
          tick_chats current_time env d file1 (done ++ [(chat_id, items)]) rest in
        (all, file2, trace1 ++ trace2, raised2)
  end.

(** [send_recurring_messages] at the time [current_time]. *)
Definition send_recurring_messages (current_time : Z) (env : TickEnv) (st : BotStorage)
    : BotStorage * list SchedEvent * bool :=
  let '(r, file1, trace, raised) :=
    tick_chats current_time env (data st) (file st) [] (recurring_messages (data st)) in
  ({| data := set_recurring (data st) r;
      temp_messages := temp_messages st;
      file := file1 |}, trace, raised).

(** The item at position [i] of the chat at position [c]. *)
Definition item_at (d : Data) (c i : nat) : option RecurringItem :=
  match nth_error (recurring_messages d) c with
  | Some (_, messages) => nth_error messages i
  | None => None
  end.

(** ** Commands and callbacks *)

(** [sep.join(parts)] *)
Fixpoint join (sep : string) (parts : list string) : string :=
  match parts with
  | [] => EmptyString
  | p :: rest =>
      match rest with
      | [] => p
      | _ :: _ => (p ++ sep ++ join sep rest)%string
      end
  end.

(** [s.replace(old, "")] for a non-empty [old]: the occurrences are
    taken from the left and do not overlap. [skip] counts the characters
    of a found occurrence still to be dropped. *)
Fixpoint remove_all_from (old : string) (skip : nat) (s : string) : string :=
  match s with
  | EmptyString => EmptyString
  | String c r =>
      match skip with
      | S k => remove_all_from old k r
      | O =>
          if PyStr.starts_with old s
          then remove_all_from old (String.length old - 1) r
          else String c (remove_all_from old 0 r)
      end
  end.

Definition remove_all (old s : string) : string := remove_all_from old 0 s.

(** What the command handlers answer; the wording is left out. *)
Inductive CommandReply :=
| CmdUsePrivate
| CmdMustBeAdmin
| CmdUsage
| CmdError
| CmdWordAdded (word chat_id : string)
| CmdWordRemoved (word chat_id : string)
| CmdWords (chat_id : string) (words : list string)
| CmdReplyAdded (trigger reply chat_id : string)
| CmdReplyRemoved (trigger chat_id : string)
| CmdReplies (chat_id : string) (entries : list (string * string))
| CmdLinks (enabled : bool) (chat_id : string)
| CmdMentions (enabled : bool) (chat_id : string).

(** The storage after a command, its answers, and whether an exception
    left the handler. *)
Definition CommandRun := (BotStorage * list CommandReply * bool)%type.

(** The [admin_only] decorator. [message] is [update.message] reduced
    to whether its chat is private, and [None] when the update has no
    [message] (a command in an edited message). Outside a private chat
    the command is answered by a request to use the private chat and is
    not run. Without a message the test is passed over and the handler
    runs: what it does to the storage is done, and its first answer,
    [update.message.reply_text], raises [AttributeError], which no
    handler catches without answering again. *)
Definition admin_only (handler : BotStorage -> list string -> CommandRun)
    (st : BotStorage) (message : option bool) (args : list string) : CommandRun :=
  match message with
  | Some private =>
      if negb private then (st, [CmdUsePrivate], false) else handler st args
  | None => (fst (fst (handler st args)), [], true)
  end.

(** [add_word]; [is_admin n] is the answer of [is_group_admin] for the
    sender and the chat [n]. Every exception but [IndexError] gives the
    error answer. *)
Definition add_word (is_admin : Z -> bool) : BotStorage -> option bool -> list string -> CommandRun :=
  admin_only (fun st args =>
    match args with
    | [] => (st, [CmdUsage], false)
    | chat_id :: rest =>
        let word := join " " rest in
        match PyStr.to_int chat_id with
        | None => (st, [CmdError], false)
        | Some n =>
            if is_admin n
            then (add_banned_word st chat_id word, [CmdWordAdded word chat_id], false)
            else (st, [CmdMustBeAdmin], false)
        end
    end).

(** [del_word]: only [IndexError] is caught, the [ValueError] of
    [int(chat_id)] leaves the handler. *)
Definition del_word (is_admin : Z -> bool) : BotStorage -> option bool -> list string -> CommandRun :=
  admin_only (fun st args =>
    match args with
    | [] => (st, [CmdUsage], false)
    | chat_id :: rest =>
        let word := join " " rest in
        match PyStr.to_int chat_id with
        | None => (st, [], true)
        | Some n =>
            if is_admin n
            then (remove_banned_word st chat_id word, [CmdWordRemoved word chat_id], false)
            else (st, [CmdMustBeAdmin], false)
        end
    end).

Definition list_words (is_admin : Z -> bool) : BotStorage -> option bool -> list string -> CommandRun :=
  admin_only (fun st args =>
    match args with
    | [] => (st, [CmdUsage], false)
    | chat_id :: _ =>
        match PyStr.to_int chat_id with
        | None => (st, [], true)
        | Some n =>
            if is_admin n
            then (st, [CmdWords chat_id (get_banned_words st chat_id)], false)
            else (st, [CmdMustBeAdmin], false)
        end
    end).

(** [add_reply]: the arguments are joined again and cut at the first
    space, the rest at the first ['|']; a missing part and a chat
    identifier that is no integer both give the usage answer. *)
Definition add_reply (is_admin : Z -> bool) : BotStorage -> option bool -> list string -> CommandRun :=
  admin_only (fun st args =>
    let args_text := join " " args in
    match PyStr.split_once " " args_text with
    | None => (st, [CmdUsage], false)
    | Some (chat_id, rest) =>
        if negb (PyStr.has_char "|" rest) then (st, [CmdUsage], false)
        else
          match PyStr.split_once "|" rest with
          | None => (st, [CmdUsage], false)
          | Some (t, r) =>
              let trigger := PyStr.strip t in
              let reply := PyStr.strip r in
              match PyStr.to_int chat_id with
              | None => (st, [CmdUsage], false)
              | Some n =>
                  if is_admin n
                  then (add_auto_reply st chat_id trigger reply,
                        [CmdReplyAdded trigger reply chat_id], false)
                  else (st, [CmdMustBeAdmin], false)
              end
          end
    end).

Definition del_reply (is_admin : Z -> bool) : BotStorage -> option bool -> list string -> CommandRun :=
  admin_only (fun st args =>
    match args with
    | [] => (st, [CmdUsage], false)
    | chat_id :: rest =>
        let trigger := join " " rest in
        match PyStr.to_int chat_id with
        | None => (st, [], true)
        | Some n =>
            if is_admin n
            then (remove_auto_reply st chat_id trigger, [CmdReplyRemoved trigger chat_id], false)
            else (st, [CmdMustBeAdmin], false)
        end
    end).

(** [reply[:50] + "..." if len(reply) > 50 else reply] *)
Definition reply_preview (reply : string) : string :=
  if (50 <? String.length reply)%nat
  then (String.substring 0 50 reply ++ "...")%string
  else reply.

Definition list_replies (is_admin : Z -> bool) : BotStorage -> option bool -> list string -> CommandRun :=
  admin_only (fun st args =>
    match args with
    | [] => (st, [CmdUsage], false)
    | chat_id :: _ =>
        match PyStr.to_int chat_id with
        | None => (st, [], true)
        | Some n =>
            if is_admin n
            then (st, [CmdReplies chat_id
                         (map (fun e => (fst e, reply_preview (snd e)))
                            (get_auto_replies st chat_id))], false)
            else (st, [CmdMustBeAdmin], false)
        end
    end).

(** [context.args[1].lower() in ['on', 'true', '1', 'yes', 'enable']] *)
Definition is_on (token : string) : bool :=
  str_in (PyStr.lower token) ["on"; "true"; "1"; "yes"; "enable"].

(** [set_links], named after the command since [set_links] is the
    record update of the document above. *)
Definition set_links_command (is_admin : Z -> bool)
    : BotStorage -> option bool -> list string -> CommandRun :=
  admin_only (fun st args =>
    match args with
    | chat_id :: token :: _ =>
        let enabled := is_on token in
        match PyStr.to_int chat_id with
        | None => (st, [], true)
        | Some n =>
            if is_admin n
            then (set_block_links st chat_id enabled, [CmdLinks enabled chat_id], false)
            else (st, [CmdMustBeAdmin], false)
        end
    | _ => (st, [CmdUsage], false)
    end).

(** [set_mentions], named after the command as well. *)
Definition set_mentions_command (is_admin : Z -> bool)
    : BotStorage -> option bool -> list string -> CommandRun :=
  admin_only (fun st args =>
    match args with
    | chat_id :: token :: _ =>
        let enabled := is_on token in
        match PyStr.to_int chat_id with
        | None => (st, [], true)
        | Some n =>
            if is_admin n
            then (set_block_mentions st chat_id enabled, [CmdMentions enabled chat_id], false)
            else (st, [CmdMustBeAdmin], false)
        end
    | _ => (st, [CmdUsage], false)
    end).

(** [toggle_link_blocking]: the chat is what is left of the callback
    data without ["toggle_links_"]; no admin check is made. *)
Definition toggle_link_blocking (st : BotStorage) (data : string) : BotStorage :=
  let chat_id := remove_all "toggle_links_" data in
  let current := get_block_links st chat_id in
  set_block_links st chat_id (negb current).

Definition toggle_mention_blocking (st : BotStorage) (data : string) : BotStorage :=
  let chat_id := remove_all "toggle_mentions_" data in
  let current := get_block_mentions st chat_id in
  set_block_mentions st chat_id (negb current).

(** [delete_recurring_from_button]: [parts[1]] is the chat and
    [int(parts[2])] the index; [None] stands for the [IndexError] or
    [ValueError] that leaves the handler. *)
Definition delete_recurring_from_button (st : BotStorage) (data : string)
    : option BotStorage :=
  match PyStr.split "_" data with
  | _ :: chat_id :: index_text :: _ =>
      match PyStr.to_int index_text with
      | Some index => Some (remove_recurring_message st chat_id index)
      | None => None
      end
  | _ => None
  end.

(** [f"{chat_id}"] for a key of the dictionary. *)
Definition key_text (chat_id : option string) : string :=
  match chat_id with Some c => c | None => "None" end.

(** The callback data of the delete buttons drawn by
    [show_recurring_list]: one per item of every chat with a non-empty
    list, [f"delrec_{chat_id}_{i}"]. *)
Definition delete_button_data (chat_id : option string) (i : nat) : string :=
  ("delrec_" ++ key_text chat_id ++ "_" ++ PyStr.of_Z (Z.of_nat i))%string.

Definition recurring_list_buttons (st : BotStorage) : list string :=
  flat_map
    (fun e => map (delete_button_data (fst e)) (seq 0 (List.length (snd e))))
    (recurring_messages (data st)).

(** The callback data of the buttons drawn by [show_links_menu] and
    [show_mentions_menu]: one per key. *)
Definition links_menu_buttons (st : BotStorage) : list string :=
  map (fun e => ("toggle_links_" ++ fst e)%string) (block_links (data st)).

Definition mentions_menu_buttons (st : BotStorage) : list string :=
  map (fun e => ("toggle_mentions_" ++ fst e)%string) (block_mentions (data st)).

(** What a button press draws or answers. *)
Inductive CallbackEvent :=
| Wizard (r : Reply)
| MainMenu
| BannedWordsMenu
| AutoRepliesMenu
| LinksMenu (buttons : list string)
| MentionsMenu (buttons : list string)
| HelpScreen
| RecurringList (buttons : list string)
| ToastDeleted
| ToastLinks (enabled : bool)
| ToastMentions (enabled : bool).

(** Some stored item has no text: its [text] is [None]. *)
Definition has_textless (st : BotStorage) : bool :=
  existsb
    (fun e =>
       existsb (fun m => match rm_text m with None => true | Some _ => false end)
         (snd e))
    (recurring_messages (data st)).

(** [show_recurring_list]: what is drawn and whether an exception left
    it. The line of an item is built from
    [msg.get('text', 'Media message')[:30]]; the key is always there, so
    for an item without text the slice of [None] raises [TypeError] and
    nothing is drawn. *)
Definition show_recurring_list (st : BotStorage) : list CallbackEvent * bool :=
  if has_textless st then ([], true)
  else ([RecurringList (recurring_list_buttons st)], false).

(** [button_callback]: the bot after the press, what is drawn, and
    whether an exception left the handler. ["edit_message"] calls a
    function that the file does not define; the list of the recurring
    messages, drawn for ["recurring_list"] and after a deletion, raises
    as [show_recurring_list] does. *)
Definition button_callback (b : Bot) (user_id : Z) (data : string)
    : Bot * list CallbackEvent * bool :=
  let wizard (r : Bot * list Reply) := (fst r, map Wizard (snd r), false) in
  if String.eqb data "menu_recurring" then wizard (show_recurring_menu b)
  else if String.eqb data "menu_banned_words" then (b, [BannedWordsMenu], false)
  else if String.eqb data "menu_auto_replies" then (b, [AutoRepliesMenu], false)
  else if String.eqb data "menu_links"
       then (b, [LinksMenu (links_menu_buttons (storage b))], false)
  else if String.eqb data "menu_mentions"
       then (b, [MentionsMenu (mentions_menu_buttons (storage b))], false)
  else if String.eqb data "menu_help" then (b, [HelpScreen], false)
  else if String.eqb data "back_main" then (b, [MainMenu], false)
  else if PyStr.starts_with "recurring_" data
       then if String.eqb data "recurring_add" then wizard (recurring_add b user_id)
            else if String.eqb data "recurring_list"
                 then (b, fst (show_recurring_list (storage b)),
                       snd (show_recurring_list (storage b)))
                 else (b, [], false)
  else if String.eqb data "preview_message"
       then match get_session b user_id with
            | None => (b, [Wizard AnswerNoMessage], false)
            | Some s => (b, [Wizard (ShowPreview s)], false)
            end
  else if String.eqb data "confirm_save" then wizard (confirm_save_message b user_id)
  else if String.eqb data "edit_message" then (b, [], true)
  else if String.eqb data "opt_delete_yes" then wizard (handle_delete_option b user_id true)
  else if String.eqb data "opt_delete_no" then wizard (handle_delete_option b user_id false)
  else if String.eqb data "opt_pin_yes" then wizard (handle_pin_option b user_id true)
  else if String.eqb data "opt_pin_no" then wizard (handle_pin_option b user_id false)
  else if PyStr.starts_with "toggle_links_" data
       then let st := toggle_link_blocking (storage b) data in
            (with_storage b st,
             [ToastLinks
                (negb (get_block_links (storage b) (remove_all "toggle_links_" data)));
              LinksMenu (links_menu_buttons st)], false)
  else if PyStr.starts_with "toggle_mentions_" data
       then let st := toggle_mention_blocking (storage b) data in
            (with_storage b st,
             [ToastMentions
                (negb (get_block_mentions (storage b) (remove_all "toggle_mentions_" data)));
              MentionsMenu (mentions_menu_buttons st)], false)
  else if PyStr.starts_with "delrec_" data
       then match delete_recurring_from_button (storage b) data with
            | Some st =>
                (with_storage b st,
                 ToastDeleted :: fst (show_recurring_list st),
                 snd (show_recurring_list st))
            | None => (b, [], true)
            end
  else (b, [], false).

(** ** The preview *)

(** What [show_preview] and [show_preview_from_callback] send between
    the summary and the "Save Message" keyboard. *)
Inductive PreviewSend :=
| PreviewMedia (kind : MediaType) (media : string) (caption : option string)
    (reply_markup : option (list Button))
| PreviewText (text : option string) (reply_markup : option (list Button)).

(** The message in the middle of the preview: with [media] set, the
    call for its [media_type] and none when there is no type; without,
    [send_message] with the text as it is, set or not. *)
Definition preview_content (s : Session) : option PreviewSend :=
  let markup := reply_markup_of (tm_buttons s) in
  let text := tm_text s in
  match tm_media s with
  | Some media =>
      if PyStr.truthy media
      then match tm_media_type s with
           | Some kind =>
               Some (PreviewMedia kind media (if PyStr.otruthy text then text else None)
                       markup)
           | None => None
           end
      else Some (PreviewText text markup)
  | None => Some (PreviewText text markup)
  end.

(** ** Vocabulary of the statements and concrete states *)

(** The key comparison decides equality. *)
Class KeyEqLaws (K : Type) `{KeyEq K} := {
  keqb_eq : forall a b : K, keqb a b = true <-> a = b
}.

(** The words of a chat are stored in lower case and without repeats. *)
Definition words_normal (ws : list string) : Prop :=
  NoDup ws /\ Forall (fun w => PyStr.lower w = w) ws.

(** No upper-case letter occurs in the text. *)
Fixpoint no_upper (s : string) : bool :=
  match s with
  | EmptyString => true
  | String c r => negb (PyStr.is_upper c) && no_upper r
  end.

(** Link blocking is on and the text holds a URL or one of the Telegram
    host names followed by a slash, in any letter case. *)
Definition link_found (st : BotStorage) (chat_id text : string) : bool :=
  get_block_links st chat_id
  && (Re.search url_pattern text
      || (PyStr.contains "t.me/" (PyStr.lower text)
          || PyStr.contains "telegram.me/" (PyStr.lower text)
          || PyStr.contains "telegram.dog/" (PyStr.lower text))).

(** Mention blocking is on and the text holds a mention. *)
Definition mention_found (st : BotStorage) (chat_id text : string) : bool :=
  get_block_mentions st chat_id && Re.search mention_pattern text.

(** Some banned word of the chat occurs in the lower-cased text. *)
Definition word_found (st : BotStorage) (chat_id text : string) : bool :=
  existsb (fun w => PyStr.contains w (PyStr.lower text)) (get_banned_words st chat_id).

(** The host names without the slash, as a reader of "a t.me,
    telegram.me or telegram.dog substring" takes them. *)
Definition names_telegram_host (text : string) : bool :=
  PyStr.contains "t.me" (PyStr.lower text)
  || PyStr.contains "telegram.me" (PyStr.lower text)
  || PyStr.contains "telegram.dog" (PyStr.lower text).

(** The message is deleted for [reason]: [message.delete()] is called,
    and the warning, sent when the deletion went through, names that
    reason and no other. *)
Definition deleted_for (trace : list FilterEvent) (env : FilterEnv) (chat_id : string)
    (reason : Reason) : Prop :=
  In FDeleteMessage trace
  /\ (fe_delete_ok env = true -> In (FWarning chat_id reason) trace)
  /\ forall c r, In (FWarning c r) trace -> r = reason.

(** Nothing is deleted and no warning is sent. *)
Definition not_deleted (trace : list FilterEvent) : Prop :=
  ~ In FDeleteMessage trace /\ forall c r, ~ In (FWarning c r) trace.

(** A group with link blocking on, one banned word and one auto-reply. *)
Definition guarded_store : BotStorage :=
  add_auto_reply
    (set_block_links (add_banned_word new_storage "-100123" "Spam") "-100123" true)
    "-100123" "Price" "It is free".

Definition member_env : FilterEnv :=
  {| fe_chat_member := Some member; fe_reply_markdown_ok := true;
     fe_reply_plain_ok := true; fe_delete_ok := true; fe_warning_ok := true |}.

Definition admin_env : FilterEnv :=
  {| fe_chat_member := Some administrator; fe_reply_markdown_ok := true;
     fe_reply_plain_ok := true; fe_delete_ok := true; fe_warning_ok := true |}.

(** A member whose chat does not accept the bot's replies. *)
Definition muted_env : FilterEnv :=
  {| fe_chat_member := Some member; fe_reply_markdown_ok := false;
     fe_reply_plain_ok := false; fe_delete_ok := true; fe_warning_ok := true |}.

Definition text_message (text : string) : Message :=
  {| chat_private := false; msg_text := Some text; msg_caption := None;
     msg_photo := []; msg_video := None; msg_animation := None |}.

Definition group_update (text : string) : Update :=
  {| upd_message := Some (text_message text);
     effective_chat := (-100123)%Z; effective_user := 42%Z |}.

(** The button of a line that holds a ['|']. *)
Definition button_of_line (line : string) : Button :=
  match PyStr.split_once "|" line with
  | Some (label, url) => {| btn_text := PyStr.strip label; btn_url := PyStr.strip url |}
  | None => {| btn_text := ""; btn_url := "" |}
  end.

(** A bot with no configuration and no session. *)
Definition empty_bot : Bot := {| storage := new_storage; user_state := [] |}.

(** User 7 has opened the wizard and named a group of which they are
    an admin: the wizard waits for the text. *)
Definition bot_at_text : Bot :=
  fst (handle_text_input (fun _ => true) (fst (recurring_add empty_bot 7%Z))
         true 7%Z "-100123").

(** The same wizard after the text "Hello": it waits for the media. *)
Definition bot_at_media : Bot :=
  fst (handle_text_input (fun _ => true) bot_at_text true 7%Z "Hello").

Definition photo_message : Message :=
  {| chat_private := true; msg_text := None; msg_caption := None;
     msg_photo := ["small-id"; "large-id"]; msg_video := None; msg_animation := None |}.

(** The same wizard after a photo: it waits for the buttons. *)
Definition bot_at_buttons : Bot :=
  fst (handle_media_input bot_at_media true 7%Z photo_message).

(** The session of the specification's scenario, in the preview. *)
Definition scenario_session : Session :=
  {| tm_text := Some "Hello"; tm_media := None; tm_media_type := None;
     tm_buttons := [ {| btn_text := "Visit"; btn_url := "https://x.com" |} ];
     tm_interval := Some 10%Z; tm_chat_id := Some "-100123";
     tm_delete_previous := true; tm_pin_message := false |}.

Definition bot_at_preview : Bot :=
  {| storage := with_temp new_storage [(7%Z, scenario_session)];
     user_state := [(7%Z, waiting_interval)] |}.

Definition has_interval (m : RecurringItem) : bool :=
  match rm_interval m with Some _ => true | None => false end.

(** Every stored item has its interval. *)
Definition intervals_set (d : Data) : bool :=
  forallb (fun e => forallb has_interval (snd e)) (recurring_messages d).

Definition visit_button : Button := {| btn_text := "Visit"; btn_url := "https://x.com" |}.

Definition hello_item : RecurringItem :=
  {| rm_text := Some "Hello"; rm_media := None; rm_media_type := None;
     rm_buttons := [visit_button]; rm_interval := Some 10%Z;
     rm_delete_previous := true; rm_pin_message := true;
     rm_last_sent := 0%Z; rm_last_message_id := None |}.

(** An item reached with media but neither text nor media type. *)
Definition untyped_item : RecurringItem :=
  {| rm_text := None; rm_media := Some "file-1"; rm_media_type := None;
     rm_buttons := []; rm_interval := Some 1%Z;
     rm_delete_previous := false; rm_pin_message := false;
     rm_last_sent := 0%Z; rm_last_message_id := Some 41%Z |}.

Definition hello_call : SchedEvent :=
  SSendMessage (Some "-100123") "Hello" (Some [visit_button]).

Definition sched_store : BotStorage :=
  add_recurring_message
    (add_recurring_message new_storage (Some "-100123") hello_item)
    (Some "-100123") untyped_item.

(** Every send raises. *)
Definition failing_env : TickEnv :=
  fun _ _ => {| delete_previous_ok := true; send_result := None; pin_ok := true |}.

(** Every send returns message 555; deleting and pinning raise. *)
Definition sending_env : TickEnv :=
  fun _ _ => {| delete_previous_ok := false; send_result := Some 555%Z; pin_ok := false |}.

(** A time of November 2025, in epoch seconds. *)
Definition a_time : Z := 1762000000%Z.








(** The value of a decimal numeral read after the digits worth [acc]. *)
Fixpoint uint_value (acc : Z) (d : Decimal.uint) : Z :=
  match d with
  | Decimal.Nil => acc
  | Decimal.D0 l => uint_value (10 * acc + 0) l
  | Decimal.D1 l => uint_value (10 * acc + 1) l
  | Decimal.D2 l => uint_value (10 * acc + 2) l
  | Decimal.D3 l => uint_value (10 * acc + 3) l
  | Decimal.D4 l => uint_value (10 * acc + 4) l
  | Decimal.D5 l => uint_value (10 * acc + 5) l
  | Decimal.D6 l => uint_value (10 * acc + 6) l
  | Decimal.D7 l => uint_value (10 * acc + 7) l
  | Decimal.D8 l => uint_value (10 * acc + 8) l
  | Decimal.D9 l => uint_value (10 * acc + 9) l
  end.

(** No character of the text satisfies [p]. *)
Fixpoint none_of (p : ascii -> bool) (s : string) : bool :=
  match s with
  | EmptyString => true
  | String c r => negb (p c) && none_of p r
  end.

(** Every character of the text is a digit, or a minus sign in front. *)
Definition is_numeral_char (c : ascii) : bool :=
  PyStr.is_digit c || Ascii.eqb c "-".

(** What a step of the wizard for one user leaves alone: the document,
    the file, and the sessions and states of the other users. *)
Definition wizard_frame (user_id : Z) (b b' : Bot) : Prop :=
  data (storage b') = data (storage b)
  /\ file (storage b') = file (storage b)
  /\ forall u, u <> user_id ->
        get_session b' u = get_session b u /\ get_state b' u = get_state b u.

(** An interval, when set, is at least one minute. *)
Definition interval_ok (i : option Z) : Prop :=
  match i with Some n => (1 <= n)%Z | None => True end.

(** The media and its type are set together. *)
Definition media_typed (media : option string) (media_type : option MediaType) : Prop :=
  media = None <-> media_type = None.

Definition session_ok (s : Session) : Prop :=
  interval_ok (tm_interval s) /\ media_typed (tm_media s) (tm_media_type s).

Definition item_ok (m : RecurringItem) : Prop :=
  interval_ok (rm_interval m) /\ media_typed (rm_media m) (rm_media_type m).

(** Every session and every stored item is well formed. *)
Definition bot_ok (st : BotStorage) : Prop :=
  Forall (fun e => session_ok (snd e)) (temp_messages st)
  /\ Forall (fun e => Forall item_ok (snd e)) (recurring_messages (data st)).

(** What a call of the scheduler sends, without the chat. *)
Definition content_of (e : SchedEvent) : option PreviewSend :=
  match e with
  | SSendMedia _ kind media caption markup => Some (PreviewMedia kind media caption markup)
  | SSendMessage _ text markup => Some (PreviewText (Some text) markup)
  | _ => None
  end.

Definition is_delete (e : FilterEvent) : bool :=
  match e with FDeleteMessage => true | _ => false end.

(** The same answers of the API, with another answer to
    [get_chat_member]. *)
Definition with_member (env : FilterEnv) (s : option MemberStatus) : FilterEnv :=
  {| fe_chat_member := s;
     fe_reply_markdown_ok := fe_reply_markdown_ok env;
     fe_reply_plain_ok := fe_reply_plain_ok env;
     fe_delete_ok := fe_delete_ok env;
     fe_warning_ok := fe_warning_ok env |}.

(** The wizard from the "Add" button to the "Save Message" button: the
    chat, the text, a media, the buttons, the two options and the
    interval. *)
Definition wizard_run (is_admin : Z -> bool) (b : Bot) (user_id : Z)
    (chat text : string) (message : Message) (buttons : string) (delete pin : bool)
    (interval : string) : Bot :=
  let b1 := fst (fst (button_callback b user_id "recurring_add")) in
  let b2 := fst (handle_text_input is_admin b1 true user_id chat) in
  let b3 := fst (handle_text_input is_admin b2 true user_id text) in
  let b4 := fst (handle_media_input b3 true user_id message) in
  let b5 := fst (handle_text_input is_admin b4 true user_id buttons) in
  let b6 := fst (fst (button_callback b5 user_id
                        (if delete then "opt_delete_yes" else "opt_delete_no"))) in
  let b7 := fst (fst (button_callback b6 user_id
                        (if pin then "opt_pin_yes" else "opt_pin_no"))) in
  let b8 := fst (handle_text_input is_admin b7 true user_id interval) in
  fst (fst (button_callback b8 user_id "confirm_save")).

(** The session at the end of that run. *)
Definition wizard_session (chat_id text : string) (file_id : string) (kind : MediaType)
    (buttons : string) (delete pin : bool) (i : Z) : Session :=
  {| tm_text := if String.eqb (PyStr.lower text) "skip" then None else Some text;
     tm_media := Some file_id;
     tm_media_type := Some kind;
     tm_buttons := if String.eqb (PyStr.lower buttons) "skip" then []
                   else parse_buttons buttons;
     tm_interval := Some i;
     tm_chat_id := Some chat_id;
     tm_delete_previous := delete;
     tm_pin_message := pin |}.

(** What the wizard wrote of an item: the item without the bookkeeping
    of the scheduler. *)
Definition item_config (m : RecurringItem) : RecurringItem := set_sent m 0 None.

Definition chats_config (r : dict (option string) (list RecurringItem))
    : dict (option string) (list RecurringItem) :=
  map (fun e => (fst e, map item_config (snd e))) r.

(** The calls of the loop body for one item, none when it raises. *)
Definition item_trace (current_time : Z) (o : ItemOutcome) (chat_id : option string)
    (m : RecurringItem) : list SchedEvent :=
  match send_recurring_item current_time o chat_id m with
  | Some r => run_trace r
  | None => []
  end.

(** A list with the positions of its elements, counted from [start]. *)
Definition indexed {A} (start : nat) (l : list A) : list (nat * A) :=
  combine (seq start (List.length l)) l.

(** The calls for the items of one chat, in the order of its list. *)
Definition chat_trace (current_time : Z) (o : nat -> ItemOutcome)
    (chat_id : option string) (start : nat) (msgs : list RecurringItem)
    : list SchedEvent :=
  flat_map (fun p => item_trace current_time (o (fst p)) chat_id (snd p))
    (indexed start msgs).

(** The calls for every chat, in the order of the dictionary. *)
Definition chats_trace (current_time : Z) (env : TickEnv) (start : nat)
    (chats : dict (option string) (list RecurringItem)) : list SchedEvent :=
  flat_map (fun p => chat_trace current_time (env (fst p)) (fst (snd p)) 0 (snd (snd p)))
    (indexed start chats).

Definition item_count (d : Data) : nat :=
  list_sum (map (fun e => List.length (snd e)) (recurring_messages d)).

(** Either nothing of the configuration and of the file changed, or the
    file holds the configuration. *)
Definition persisted (st st' : BotStorage) : Prop :=
  (data st' = data st /\ file st' = file st) \/ file st' = Some (data st').

(** * Properties *)

(** ** Strings *)

Lemma append_nil_r (s : string) : (s ++ "")%string = s.
Proof. induction s as [|c s IH]; simpl; [reflexivity | now rewrite IH]. Qed.

Lemma append_assoc (a b c : string) : ((a ++ b) ++ c = a ++ b ++ c)%string.
Proof. induction a as [|x a IH]; simpl; [reflexivity | now rewrite IH]. Qed.

Lemma lower_char_idem (c : ascii) :
  PyStr.lower_char (PyStr.lower_char c) = PyStr.lower_char c.
Proof. destruct c as [[] [] [] [] [] [] [] []]; reflexivity. Qed.

Lemma lower_idem (s : string) : PyStr.lower (PyStr.lower s) = PyStr.lower s.
Proof.
  induction s as [|c s IH]; simpl; [reflexivity|].
  now rewrite lower_char_idem, IH.
Qed.

Lemma lower_app (a b : string) :
  (PyStr.lower (a ++ b) = PyStr.lower a ++ PyStr.lower b)%string.
Proof. induction a as [|c a IH]; simpl; [reflexivity | now rewrite IH]. Qed.

(** A split of the lower-cased text comes from a split of the text. *)
Lemma lower_split (s x y : string) :
  PyStr.lower s = (x ++ y)%string ->
  exists s1 s2, s = (s1 ++ s2)%string /\ PyStr.lower s1 = x /\ PyStr.lower s2 = y.
Proof.
  revert s; induction x as [|c x IH]; intros s E; simpl in E.
  - exists "", s. auto.
  - destruct s as [|d s]; simpl in E; [discriminate|].
    injection E as Ec Es. destruct (IH _ Es) as (s1 & s2 & -> & L1 & L2).
    exists (String d s1), s2. simpl. now rewrite Ec, L1, L2.
Qed.

Lemma starts_with_spec (p s : string) :
  PyStr.starts_with p s = true <-> exists r, s = (p ++ r)%string.
Proof.
  revert s; induction p as [|a p IH]; intros s; simpl.
  - split; [intros _; now exists s | reflexivity].
  - destruct s as [|b s].
    + split; [discriminate | intros [r E]; discriminate].
    + rewrite andb_true_iff, Ascii.eqb_eq, IH. split.
      * intros [-> [r ->]]. now exists r.
      * intros [r E]. injection E as -> ->. split; [reflexivity | now exists r].
Qed.

(** [p in s] holds exactly when [s] is some text, [p], some text. *)
Lemma contains_spec (p s : string) :
  PyStr.contains p s = true <-> exists a b, s = (a ++ p ++ b)%string.
Proof.
  induction s as [|c s IH]; simpl.
  - rewrite orb_false_r, starts_with_spec. split.
    + intros [r E]. now exists "", r.
    + intros (a & b & E). destruct a; simpl in E.
      * now exists b.
      * discriminate.
  - rewrite orb_true_iff, IH.
    change (match p with "" => true | String a p' => (a =? c)%char && PyStr.starts_with p' s end)
      with (PyStr.starts_with p (String c s)).
    rewrite starts_with_spec. split.
    + intros [[r E] | (a & b & E)].
      * now exists "", r.
      * exists (String c a), b. simpl. now rewrite E.
    + intros (a & b & E). destruct a as [|d a]; simpl in E.
      * left. now exists b.
      * right. injection E as _ E. now exists a, b.
Qed.

Lemma str_in_spec (x : string) (l : list string) : str_in x l = true <-> In x l.
Proof.
  unfold str_in. rewrite existsb_exists. split.
  - intros (y & Hy & E). apply String.eqb_eq in E. now subst.
  - intros H. exists x. split; [assumption | apply String.eqb_refl].
Qed.

(** ** Dictionaries *)

#[export] Instance KeyEqLaws_string : KeyEqLaws string.
Proof. constructor. exact String.eqb_eq. Qed.

#[export] Instance KeyEqLaws_Z : KeyEqLaws Z.
Proof. constructor. exact Z.eqb_eq. Qed.

Lemma option_eqb_eq {K} `{KeyEqLaws K} (a b : option K) :
  option_eqb a b = true <-> a = b.
Proof.
  destruct a as [x|], b as [y|]; simpl; split; intro E;
    try congruence; try reflexivity.
  - f_equal. now apply keqb_eq.
  - apply keqb_eq. congruence.
Qed.

#[export] Instance KeyEqLaws_option {K} `{KeyEqLaws K} : KeyEqLaws (option K).
Proof. constructor. exact option_eqb_eq. Qed.

Section DictFacts.
Context {K V : Type} `{KeyEqLaws K}.

Lemma keqb_refl (k : K) : keqb k k = true.
Proof. now apply keqb_eq. Qed.

Lemma keqb_neq (k k' : K) : k <> k' -> keqb k k' = false.
Proof.
  intros N. destruct (keqb k k') eqn:E; [|reflexivity].
  apply keqb_eq in E. contradiction.
Qed.

Lemma dict_get_set_same (k : K) (v : V) (d : dict K V) :
  Dict.get k (Dict.set k v d) = Some v.
Proof.
  induction d as [|[k' v'] d IH]; simpl.
  - now rewrite keqb_refl.
  - destruct (keqb k k') eqn:E; simpl; rewrite E; [reflexivity | exact IH].
Qed.

Lemma dict_get_set_other (k k' : K) (v : V) (d : dict K V) :
  k' <> k -> Dict.get k' (Dict.set k v d) = Dict.get k' d.
Proof.
  intros N. induction d as [|[k0 v0] d IH]; simpl.
  - now rewrite keqb_neq.
  - destruct (keqb k k0) eqn:E; simpl.
    + apply keqb_eq in E as <-. now rewrite keqb_neq.
    + now rewrite IH.
Qed.

Lemma dict_get_default_set_same (k : K) (v dflt : V) (d : dict K V) :
  Dict.get_default k dflt (Dict.set k v d) = v.
Proof. unfold Dict.get_default. now rewrite dict_get_set_same. Qed.

Lemma dict_set_get_id (k : K) (v : V) (d : dict K V) :
  Dict.get k d = Some v -> Dict.set k v d = d.
Proof.
  induction d as [|[k' v'] d IH]; simpl; [discriminate|].
  destruct (keqb k k') eqn:E.
  - now intros [= ->].
  - intros G. now rewrite IH.
Qed.

Lemma dict_get_remove_same (k : K) (d : dict K V) :
  Dict.get k (Dict.remove k d) = None.
Proof.
  induction d as [|[k' v'] d IH]; simpl; [reflexivity|].
  destruct (keqb k k') eqn:E; simpl; [exact IH | now rewrite E].
Qed.

Lemma dict_get_remove_other (k k' : K) (d : dict K V) :
  k' <> k -> Dict.get k' (Dict.remove k d) = Dict.get k' d.
Proof.
  intros N. induction d as [|[k0 v0] d IH]; simpl; [reflexivity|].
  destruct (keqb k k0) eqn:E; simpl.
  - apply keqb_eq in E as <-. now rewrite keqb_neq.
  - now rewrite IH.
Qed.

(** Removing an absent key changes nothing. *)
Lemma dict_remove_absent (k : K) (d : dict K V) :
  Dict.get k d = None -> Dict.remove k d = d.
Proof.
  induction d as [|[k' v'] d IH]; simpl; [reflexivity|].
  destruct (keqb k k'); [discriminate|]. intros G. now rewrite IH.
Qed.

End DictFacts.

(** ** The banned-word list *)

Lemma with_data_same (st : BotStorage) :
  with_data st (set_banned (data st) (banned_words (data st))) = st.
Proof. destruct st as [[r b l m a] t f]; reflexivity. Qed.

(** The key is present exactly when [d.get] finds a list. *)
Lemma banned_words_present (st : BotStorage) (chat_id : string) :
  Dict.mem chat_id (banned_words (data st)) = true ->
  Dict.get chat_id (banned_words (data st)) = Some (get_banned_words st chat_id).
Proof.
  unfold Dict.mem, get_banned_words, Dict.get_default.
  now destruct (Dict.get chat_id (banned_words (data st))).
Qed.

Lemma banned_words_absent (st : BotStorage) (chat_id : string) :
  Dict.mem chat_id (banned_words (data st)) = false ->
  get_banned_words st chat_id = [].
Proof.
  unfold Dict.mem, get_banned_words, Dict.get_default.
  now destruct (Dict.get chat_id (banned_words (data st))).
Qed.

(** The list of a chat after [add_banned_word]. *)
Lemma get_after_add (st : BotStorage) (chat_id word : string) :
  get_banned_words (add_banned_word st chat_id word) chat_id =
  if str_in (PyStr.lower word) (map PyStr.lower (get_banned_words st chat_id))
  then get_banned_words st chat_id
  else get_banned_words st chat_id ++ [PyStr.lower word].
Proof.
  unfold add_banned_word.
  destruct (Dict.mem chat_id (banned_words (data st))) eqn:M.
  - fold (get_banned_words st chat_id).
    destruct (str_in _ _); simpl.
    + now rewrite with_data_same.
    + unfold get_banned_words at 1, Dict.get_default. simpl.
      now rewrite dict_get_set_same.
  - rewrite (banned_words_absent _ _ M).
    unfold Dict.get_default at 1 2. rewrite dict_get_set_same. simpl.
    unfold get_banned_words, Dict.get_default. simpl.
    now rewrite dict_get_set_same.
Qed.

(** The list of a chat after [remove_banned_word]. *)
Lemma get_after_remove (st : BotStorage) (chat_id word : string) :
  get_banned_words (remove_banned_word st chat_id word) chat_id =
  filter (fun w => negb (String.eqb (PyStr.lower w) (PyStr.lower word)))
    (get_banned_words st chat_id).
Proof.
  unfold remove_banned_word, get_banned_words, Dict.get_default.
  destruct (Dict.get chat_id (banned_words (data st))) as [ws|] eqn:G; simpl.
  - now rewrite dict_get_set_same.
  - now rewrite G.
Qed.

Lemma add_existing_is_noop (st : BotStorage) (chat_id word : string) :
  str_in (PyStr.lower word) (map PyStr.lower (get_banned_words st chat_id)) = true ->
  add_banned_word st chat_id word = st.
Proof.
  intros E. unfold add_banned_word.
  destruct (Dict.mem chat_id (banned_words (data st))) eqn:M.
  - fold (get_banned_words st chat_id). rewrite E. simpl. apply with_data_same.
  - rewrite (banned_words_absent _ _ M) in E. discriminate.
Qed.

(** Words that differ only in case are removed together. *)
Lemma filter_drops_same_case (word word' : string) (ws : list string) :
  PyStr.lower word' = PyStr.lower word ->
  filter (fun w => negb (String.eqb (PyStr.lower w) (PyStr.lower word')))
    (ws ++ [PyStr.lower word]) =
  filter (fun w => negb (String.eqb (PyStr.lower w) (PyStr.lower word'))) ws.
Proof.
  intros E. rewrite filter_app. simpl.
  rewrite lower_idem, E, String.eqb_refl. simpl. apply app_nil_r.
Qed.

Lemma map_lower_normal (ws : list string) :
  Forall (fun w => PyStr.lower w = w) ws -> map PyStr.lower ws = ws.
Proof.
  induction 1 as [|w ws Hw _ IH]; simpl; [reflexivity | now rewrite Hw, IH].
Qed.

Lemma add_keeps_normal (st : BotStorage) (chat_id word : string) :
  words_normal (get_banned_words st chat_id) ->
  words_normal (get_banned_words (add_banned_word st chat_id word) chat_id).
Proof.
  intros [ND LW]. rewrite get_after_add, (map_lower_normal _ LW).
  destruct (str_in _ _) eqn:E; [now split|].
  split.
  - assert (~ In (PyStr.lower word) (get_banned_words st chat_id)) as NI.
    { intro I. apply str_in_spec in I. congruence. }
    clear E LW. induction ND as [|x l Hx ND IH]; simpl.
    + constructor; [intros I; destruct I | constructor].
    + constructor.
      * rewrite in_app_iff. intros [I | [I | I]]; [auto | | destruct I].
        subst. apply NI. now left.
      * apply IH. intro I. apply NI. now right.
  - apply Forall_app. split; [assumption|].
    constructor; [apply lower_idem | constructor].
Qed.

Lemma add_new_is_saved (st : BotStorage) (chat_id word : string) :
  str_in (PyStr.lower word) (map PyStr.lower (get_banned_words st chat_id)) = false ->
  file (add_banned_word st chat_id word) = Some (data (add_banned_word st chat_id word)).
Proof.
  intros E. unfold add_banned_word.
  destruct (Dict.mem chat_id (banned_words (data st))) eqn:M.
  - fold (get_banned_words st chat_id). rewrite E. reflexivity.
  - rewrite !dict_get_default_set_same. reflexivity.
Qed.

(** C6. For every tenant and every word in any letter case: when no
    stored word equals it up to case the word is appended in lower case,
    otherwise [add_banned_word] changes nothing (in particular when the
    lower-cased word is in the list), so a list in lower case without
    repeats stays so; and adding a word, then removing it in any other
    case, leaves the list as it was without the words equal to it up to
    case, hence empty when it was empty. *)
Theorem C6_banned_word_add_remove (st : BotStorage) (chat_id word : string) :
  let ws := get_banned_words st chat_id in
  (str_in (PyStr.lower word) (map PyStr.lower ws) = false ->
     get_banned_words (add_banned_word st chat_id word) chat_id = ws ++ [PyStr.lower word]
     /\ file (add_banned_word st chat_id word) = Some (data (add_banned_word st chat_id word)))
  /\ (In (PyStr.lower word) ws -> add_banned_word st chat_id word = st)
  /\ (str_in (PyStr.lower word) (map PyStr.lower ws) = true ->
        add_banned_word st chat_id word = st)
  /\ (words_normal ws ->
        words_normal (get_banned_words (add_banned_word st chat_id word) chat_id))
  /\ (forall word', PyStr.lower word' = PyStr.lower word ->
        get_banned_words
          (remove_banned_word (add_banned_word st chat_id word) chat_id word') chat_id
        = filter (fun w => negb (String.eqb (PyStr.lower w) (PyStr.lower word'))) ws)
  /\ (forall word', PyStr.lower word' = PyStr.lower word -> ws = [] ->
        get_banned_words
          (remove_banned_word (add_banned_word st chat_id word) chat_id word') chat_id
        = []).
Proof.
  intros ws.
  assert (forall word', PyStr.lower word' = PyStr.lower word ->
            get_banned_words
              (remove_banned_word (add_banned_word st chat_id word) chat_id word') chat_id
            = filter (fun w => negb (String.eqb (PyStr.lower w) (PyStr.lower word'))) ws)
    as RT.
  { intros word' E. rewrite get_after_remove, get_after_add. fold ws.
    destruct (str_in _ _); [reflexivity | now apply filter_drops_same_case]. }
  split; [| split; [| split; [| split; [| split]]]].
  - intros E. split.
    + rewrite get_after_add. fold ws. now rewrite E.
    + now apply add_new_is_saved.
  - intros I. apply add_existing_is_noop. apply str_in_spec.
    rewrite <- (lower_idem word). now apply in_map.
  - apply add_existing_is_noop.
  - apply add_keeps_normal.
  - exact RT.
  - intros word' E W. rewrite (RT _ E), W. reflexivity.
Qed.

(** The scenario of the specification: add "Scam", remove "SCAM". *)
Lemma C6_banned_word_add_remove_witness :
  get_banned_words (add_banned_word new_storage "-100123" "Scam") "-100123" = ["scam"]
  /\ add_banned_word (add_banned_word new_storage "-100123" "Scam") "-100123" "sCAM"
     = add_banned_word new_storage "-100123" "Scam"
  /\ get_banned_words
       (remove_banned_word (add_banned_word new_storage "-100123" "Scam") "-100123" "SCAM")
       "-100123" = [].
Proof.
  pose proof (C6_banned_word_add_remove new_storage "-100123" "Scam") as P.
  pose proof (C6_banned_word_add_remove
                (add_banned_word new_storage "-100123" "Scam") "-100123" "sCAM") as Q.
  cbv zeta in P, Q.
  destruct P as (P1 & _ & _ & _ & _ & P6).
  destruct Q as (_ & Q2 & _).
  split; [| split].
  - apply P1. reflexivity.
  - apply Q2. simpl. left. reflexivity.
  - apply (P6 "SCAM"); reflexivity.
Defined.

(** ** Regular expressions: the matcher finds exactly the words *)

Lemma append_eq_empty (a b : string) :
  (a ++ b)%string = "" -> a = "" /\ b = "".
Proof. destruct a; simpl; [auto | discriminate]. Qed.

Lemma matches_empty_nullable (r : Re.re) (w : string) :
  Re.Matches r w -> w = "" -> Re.nullable r = true.
Proof.
  induction 1 as [ | p c Hp | r1 r2 w1 w2 _ IH1 _ IH2 | r1 r2 w _ IH | r1 r2 w _ IH
                 | r | r w1 w2 _ _ _ _ ]; intros E; simpl; try reflexivity.
  - discriminate.
  - apply append_eq_empty in E as [E1 E2]. now rewrite IH1, IH2.
  - now rewrite IH.
  - rewrite IH by assumption. apply orb_true_r.
Qed.

Lemma nullable_matches_empty (r : Re.re) :
  Re.nullable r = true -> Re.Matches r "".
Proof.
  induction r as [ | | p | r1 IH1 r2 IH2 | r1 IH1 r2 IH2 | r IH ]; simpl; intros N;
    try discriminate.
  - constructor.
  - apply andb_true_iff in N as [N1 N2].
    change "" with ("" ++ "")%string. constructor; auto.
  - apply orb_true_iff in N as [N | N]; [apply Re.MAltL | apply Re.MAltR]; auto.
  - constructor.
Qed.

Lemma nullable_spec (r : Re.re) : Re.nullable r = true <-> Re.Matches r "".
Proof.
  split; [apply nullable_matches_empty | intros M; now apply (matches_empty_nullable r "")].
Qed.

Lemma matches_cat_inv (r1 r2 : Re.re) (w : string) :
  Re.Matches (Re.Cat r1 r2) w ->
  exists w1 w2, w = (w1 ++ w2)%string /\ Re.Matches r1 w1 /\ Re.Matches r2 w2.
Proof. inversion 1; subst. eauto. Qed.

Lemma matches_alt_inv (r1 r2 : Re.re) (w : string) :
  Re.Matches (Re.Alt r1 r2) w -> Re.Matches r1 w \/ Re.Matches r2 w.
Proof. inversion 1; subst; auto. Qed.

Lemma matches_chr_inv (p : ascii -> bool) (w : string) :
  Re.Matches (Re.Chr p) w -> exists c, w = String c "" /\ p c = true.
Proof. inversion 1; subst. eauto. Qed.

Lemma matches_eps_inv (w : string) : Re.Matches Re.Eps w -> w = "".
Proof. now inversion 1. Qed.

Lemma matches_emp_inv (w : string) : Re.Matches Re.Emp w -> False.
Proof. inversion 1. Qed.

(** The derivative is sound. *)
Lemma deriv_sound (c : ascii) (r : Re.re) :
  forall w, Re.Matches (Re.deriv c r) w -> Re.Matches r (String c w).
Proof.
  induction r as [ | | p | r1 IH1 r2 IH2 | r1 IH1 r2 IH2 | r IH ]; simpl; intros w M.
  - destruct (matches_emp_inv _ M).
  - destruct (matches_emp_inv _ M).
  - destruct (p c) eqn:Hp.
    + apply matches_eps_inv in M as ->. now constructor.
    + destruct (matches_emp_inv _ M).
  - assert (forall v, Re.Matches (Re.Cat (Re.deriv c r1) r2) v ->
                      Re.Matches (Re.Cat r1 r2) (String c v)) as L.
    { intros v Mv. apply matches_cat_inv in Mv as (w1 & w2 & -> & M1 & M2).
      change (String c (w1 ++ w2)) with (String c w1 ++ w2)%string.
      constructor; auto. }
    destruct (Re.nullable r1) eqn:N; [| now apply L].
    apply matches_alt_inv in M as [M | M]; [now apply L|].
    change (String c w) with ("" ++ String c w)%string.
    constructor; [now apply nullable_matches_empty | auto].
  - apply matches_alt_inv in M as [M | M]; [apply Re.MAltL | apply Re.MAltR]; auto.
  - apply matches_cat_inv in M as (w1 & w2 & -> & M1 & M2).
    change (String c (w1 ++ w2)) with (String c w1 ++ w2)%string.
    apply Re.MStarS; auto.
Qed.

(** The derivative is complete. *)
Lemma deriv_complete (c : ascii) (r : Re.re) (s : string) :
  Re.Matches r s -> forall w, s = String c w -> Re.Matches (Re.deriv c r) w.
Proof.
  induction 1 as [ | p c0 Hp | r1 r2 w1 w2 M1 IH1 M2 IH2 | r1 r2 v _ IH | r1 r2 v _ IH
                 | r | r w1 w2 M1 IH1 M2 IH2 ]; intros w E; simpl.
  - discriminate.
  - injection E as -> <-. rewrite Hp. constructor.
  - destruct w1 as [|d w1]; simpl in E.
    + rewrite (matches_empty_nullable _ _ M1 eq_refl).
      apply Re.MAltR. now apply IH2.
    + injection E as -> <-.
      assert (Re.Matches (Re.Cat (Re.deriv c r1) r2) (w1 ++ w2)) as L
        by (constructor; auto).
      destruct (Re.nullable r1); [now apply Re.MAltL | assumption].
  - apply Re.MAltL. auto.
  - apply Re.MAltR. auto.
  - discriminate.
  - destruct w1 as [|d w1]; simpl in E.
    + now apply IH2.
    + injection E as -> <-. constructor; auto.
Qed.

(** [match_prefix] holds exactly when a prefix of the text is a word. *)
Lemma match_prefix_spec (s : string) :
  forall r, Re.match_prefix r s = true <->
            exists w t, s = (w ++ t)%string /\ Re.Matches r w.
Proof.
  induction s as [|c s IH]; intros r; simpl.
  - rewrite orb_false_r, nullable_spec. split.
    + intros M. now exists "", "".
    + intros (w & t & E & M). symmetry in E.
      apply append_eq_empty in E as [-> _]. assumption.
  - rewrite orb_true_iff, IH, nullable_spec. split.
    + intros [M | (w & t & -> & M)].
      * now exists "", (String c s).
      * exists (String c w), t. split; [reflexivity | now apply deriv_sound].
    + intros (w & t & E & M). destruct w as [|d w]; simpl in E.
      * now left.
      * injection E as <- ->. right. exists w, t. split; [reflexivity|].
        now apply (deriv_complete _ _ _ M).
Qed.

(** [search] holds exactly when some part of the text is a word. *)
Lemma search_spec (r : Re.re) (s : string) :
  Re.search r s = true <->
  exists a w b, s = (a ++ w ++ b)%string /\ Re.Matches r w.
Proof.
  induction s as [|c s IH]; cbn [Re.search].
  - rewrite orb_false_r, match_prefix_spec. split.
    + intros (w & t & E & M). now exists "", w, t.
    + intros (a & w & b & E & M). symmetry in E.
      apply append_eq_empty in E as [_ E].
      apply append_eq_empty in E as [-> _]. now exists "", "".
  - rewrite orb_true_iff, IH, match_prefix_spec. split.
    + intros [(w & t & E & M) | (a & w & b & -> & M)].
      * now exists "", w, t.
      * now exists (String c a), w, b.
    + intros (a & w & b & E & M). destruct a as [|d a]; simpl in E.
      * left. now exists w, b.
      * injection E as _ ->. right. now exists a, w, b.
Qed.

(** ** The patterns of the filter *)

(** Under [re.IGNORECASE] a literal character that is not an upper-case
    letter matches the characters whose lower case it is. *)
Lemma ci_one_lower (a c : ascii) :
  PyStr.is_upper a = false ->
  Re.ci (Re.one a) c = Ascii.eqb (PyStr.lower_char c) a.
Proof.
  intros U. unfold Re.ci, Re.one.
  destruct (Ascii.eqb_spec (PyStr.lower_char c) a) as [E | N].
  - rewrite orb_true_r || idtac. destruct (c =? a)%char; reflexivity.
  - destruct (Ascii.eqb_spec c a) as [-> | Nc].
    + exfalso. apply N. unfold PyStr.lower_char. now rewrite U.
    + destruct (Ascii.eqb_spec (Re.upper_char c) a) as [<- | Nu]; [|reflexivity].
      exfalso. revert U N Nc. clear.
      destruct c as [[] [] [] [] [] [] [] []]; vm_compute; intros; congruence.
Qed.

Lemma lower_eq_empty (w : string) : PyStr.lower w = "" -> w = "".
Proof. destruct w; simpl; [reflexivity | discriminate]. Qed.

(** A literal under [re.IGNORECASE] matches the texts that are the
    literal up to case. *)
Lemma matches_lit_ci (p : string) :
  no_upper p = true ->
  forall w, Re.Matches (Re.lit Re.ci p) w <-> PyStr.lower w = p.
Proof.
  induction p as [|a p IH]; simpl; intros U w.
  - split.
    + intros M. apply matches_eps_inv in M as ->. reflexivity.
    + intros E. apply lower_eq_empty in E as ->. constructor.
  - apply andb_true_iff in U as [Ua Up]. apply negb_true_iff in Ua. split.
    + intros M. apply matches_cat_inv in M as (w1 & w2 & -> & M1 & M2).
      apply matches_chr_inv in M1 as (c & -> & Hc).
      rewrite ci_one_lower in Hc by assumption. apply Ascii.eqb_eq in Hc.
      apply (IH Up) in M2. simpl. now rewrite Hc, M2.
    + intros E. destruct w as [|c w]; simpl in E; [discriminate|].
      injection E as Ec Ew.
      change (String c w) with (String c "" ++ w)%string.
      constructor.
      * constructor. rewrite ci_one_lower by assumption. now apply Ascii.eqb_eq.
      * now apply (IH Up).
Qed.

(** Searching a literal under [re.IGNORECASE] is looking for it in the
    lower-cased text. *)
Lemma search_lit_ci (p text : string) :
  no_upper p = true ->
  Re.search (Re.lit Re.ci p) text = PyStr.contains p (PyStr.lower text).
Proof.
  intros U. apply eq_true_iff_eq. rewrite search_spec, contains_spec. split.
  - intros (a & w & b & -> & M). apply (matches_lit_ci p U) in M.
    exists (PyStr.lower a), (PyStr.lower b). now rewrite !lower_app, M.
  - intros (a & b & E).
    apply lower_split in E as (s1 & s2 & -> & L1 & L2).
    apply lower_split in L2 as (s3 & s4 & -> & L3 & L4).
    exists s1, s3, s4. split; [reflexivity | now apply (matches_lit_ci p U)].
Qed.

Lemma search_alt (r1 r2 : Re.re) (s : string) :
  Re.search (Re.Alt r1 r2) s = Re.search r1 s || Re.search r2 s.
Proof.
  apply eq_true_iff_eq. rewrite orb_true_iff, !search_spec. split.
  - intros (a & w & b & E & M). apply matches_alt_inv in M as [M | M];
      [left | right]; now exists a, w, b.
  - intros [(a & w & b & E & M) | (a & w & b & E & M)]; exists a, w, b;
      (split; [assumption|]); [now apply Re.MAltL | now apply Re.MAltR].
Qed.

(** The Telegram pattern finds one of the three host names followed by
    a slash, in any letter case. *)
Lemma tg_pattern_spec (text : string) :
  Re.search tg_pattern text =
  PyStr.contains "t.me/" (PyStr.lower text)
  || PyStr.contains "telegram.me/" (PyStr.lower text)
  || PyStr.contains "telegram.dog/" (PyStr.lower text).
Proof.
  unfold tg_pattern. rewrite !search_alt, !search_lit_ci by reflexivity.
  now rewrite orb_assoc.
Qed.

(** The mention pattern finds an ["@"] followed by a word character. *)
Lemma mention_pattern_spec (text : string) :
  Re.search mention_pattern text = true <->
  exists a c b, text = (a ++ String "@" (String c b))%string
                /\ Re.word_char c = true.
Proof.
  unfold mention_pattern. rewrite search_spec. split.
  - intros (a & w & b & -> & M).
    apply matches_cat_inv in M as (w1 & w2 & -> & M1 & M2).
    apply matches_chr_inv in M1 as (c1 & -> & H1).
    apply Ascii.eqb_eq in H1 as ->.
    apply matches_cat_inv in M2 as (w3 & w4 & -> & M3 & _).
    apply matches_chr_inv in M3 as (c & -> & Hc).
    exists a, c, (w4 ++ b)%string. split; [|assumption].
    reflexivity.
  - intros (a & c & b & -> & Hc).
    exists a, (String "@" (String c "")), b. split; [reflexivity|].
    change (String "@" (String c "")) with (String "@" "" ++ (String c "" ++ ""))%string.
    constructor; [constructor; apply Ascii.eqb_refl|].
    constructor; [now constructor | constructor].
Qed.

(** ** The message filter *)

(** The first word of the list that occurs in the text. *)
Lemma first_banned_word_spec (ws : list string) (t w : string) :
  first_banned_word ws t = Some w <->
  exists pre post, ws = pre ++ w :: post
                   /\ PyStr.contains w t = true
                   /\ forall x, In x pre -> PyStr.contains x t = false.
Proof.
  induction ws as [|x ws IH]; simpl.
  - split; [discriminate | intros ([|? ?] & post & E & _); discriminate].
  - destruct (PyStr.contains x t) eqn:C.
    + split.
      * intros [= ->]. exists [], ws. repeat split; [assumption | intros ? []].
      * intros (pre & post & E & Cw & F). destruct pre as [|y pre]; simpl in E.
        -- now injection E as ->.
        -- injection E as Ex _. rewrite (F x) in C by (left; now symmetry). discriminate.
    + rewrite IH. split.
      * intros (pre & post & -> & Cw & F). exists (x :: pre), post.
        repeat split; [assumption|]. intros y [<- | I]; auto.
      * intros (pre & post & E & Cw & F). destruct pre as [|y pre]; simpl in E.
        -- injection E as Ex _. congruence.
        -- injection E as _ Ews. exists pre, post. repeat split; [assumption..|].
           intros z I. apply F. now right.
Qed.

Lemma first_banned_word_found (ws : list string) (t : string) :
  match first_banned_word ws t with Some _ => true | None => false end =
  existsb (fun w => PyStr.contains w t) ws.
Proof.
  induction ws as [|x ws IH]; simpl; [reflexivity|].
  destruct (PyStr.contains x t); [reflexivity | exact IH].
Qed.

(** The reply of the first trigger, in the order of the dictionary, that
    occurs in the text. *)
Lemma first_auto_reply_spec (d : dict string string) (t reply : string) :
  first_auto_reply d t = Some reply <->
  exists pre trigger post,
    d = pre ++ (trigger, reply) :: post
    /\ PyStr.contains trigger t = true
    /\ forall x, In x pre -> PyStr.contains (fst x) t = false.
Proof.
  induction d as [|[k v] d IH]; simpl.
  - split; [discriminate | intros ([|? ?] & ? & ? & E & _); discriminate].
  - destruct (PyStr.contains k t) eqn:C.
    + split.
      * intros [= ->]. exists [], k, d. repeat split; [assumption | intros ? []].
      * intros (pre & trigger & post & E & Cw & F). destruct pre as [|y pre]; simpl in E.
        -- now injection E as _ ->.
        -- injection E as Ex _. specialize (F (k, v) (or_introl (eq_sym Ex))).
           simpl in F. congruence.
    + rewrite IH. split.
      * intros (pre & trigger & post & -> & Cw & F). exists ((k, v) :: pre), trigger, post.
        repeat split; [assumption|]. intros y [<- | I]; auto.
      * intros (pre & trigger & post & E & Cw & F). destruct pre as [|y pre]; simpl in E.
        -- injection E as Ek _. congruence.
        -- injection E as _ Ed. exists pre, trigger, post. repeat split; [assumption..|].
           intros z I. apply F. now right.
Qed.

Lemma first_auto_reply_none (d : dict string string) (t : string) :
  first_auto_reply d t = None <->
  forall trigger reply, In (trigger, reply) d -> PyStr.contains trigger t = false.
Proof.
  induction d as [|[k v] d IH]; simpl.
  - split; [intros _ ? ? [] | reflexivity].
  - destruct (PyStr.contains k t) eqn:C.
    + split; [discriminate|]. intros F. rewrite (F k v) in C by now left. discriminate.
    + rewrite IH. split.
      * intros F trigger reply [[= <- <-] | I]; eauto.
      * intros F trigger reply I. apply (F trigger reply). now right.
Qed.

(** The three checks as a cascade: links, else mentions, else words. *)
Lemma deletion_check_cascade (st : BotStorage) (chat_id text : string) :
  deletion_check st chat_id text =
  if link_found st chat_id text then Some links
  else if mention_found st chat_id text then Some mentions
  else if word_found st chat_id text then Some banned_word
  else None.
Proof.
  unfold deletion_check, link_found, mention_found, word_found.
  rewrite tg_pattern_spec, <- first_banned_word_found.
  destruct (get_block_links st chat_id); simpl.
  - destruct (Re.search url_pattern text || _); simpl.
    + rewrite andb_false_r. reflexivity.
    + rewrite andb_true_r.
      destruct (get_block_mentions st chat_id); simpl;
        [destruct (Re.search mention_pattern text); simpl|];
        try reflexivity;
        destruct (first_banned_word _ _); reflexivity.
  - rewrite andb_true_r.
    destruct (get_block_mentions st chat_id); simpl;
      [destruct (Re.search mention_pattern text); simpl|];
      try reflexivity;
      destruct (first_banned_word _ _); reflexivity.
Qed.

Lemma auto_reply_step_replies (env : FilterEnv) (d : dict string string) (t : string) :
  forallb is_reply (fst (auto_reply_step env d t)) = true.
Proof.
  unfold auto_reply_step. destruct (first_auto_reply d t); [|reflexivity].
  destruct (fe_reply_markdown_ok env); reflexivity.
Qed.

Lemma replies_hold_no_deletion (l : list FilterEvent) :
  forallb is_reply l = true ->
  ~ In FDeleteMessage l /\ forall c r, ~ In (FWarning c r) l.
Proof.
  intros F. rewrite forallb_forall in F. split.
  - intros I. apply F in I. discriminate.
  - intros c r I. apply F in I. discriminate.
Qed.

(** The run of [filter_message] on a group message that gets past the
    auto-reply. *)
Lemma filter_message_run (st : BotStorage) (env : FilterEnv) (update : Update)
    (message : Message) :
  upd_message update = Some message ->
  chat_private message = false ->
  let chat_id := PyStr.of_Z (effective_chat update) in
  let text := message_body message in
  let step := auto_reply_step env (get_auto_replies st chat_id) (PyStr.lower text) in
  filter_message st env update =
  if snd step then (fst step, true)
  else if is_admin_user env then (fst step, false)
  else match deletion_check st chat_id text with
       | Some reason => (fst step ++ delete_with_warning env chat_id reason, false)
       | None => (fst step, false)
       end.
Proof.
  intros U P. unfold filter_message. rewrite U, P. cbv zeta.
  destruct (auto_reply_step _ _ _) as [replied raised]. reflexivity.
Qed.

Lemma filter_replies_only (l : list FilterEvent) :
  forallb is_reply l = true -> filter is_reply l = l.
Proof.
  induction l as [|e l IH]; simpl; [reflexivity|].
  intros F. apply andb_true_iff in F as [-> F]. now rewrite IH.
Qed.

Lemma delete_with_warning_no_reply (env : FilterEnv) (chat_id : string) (reason : Reason) :
  filter is_reply (delete_with_warning env chat_id reason) = [].
Proof.
  unfold delete_with_warning.
  destruct (fe_delete_ok env), (fe_warning_ok env); reflexivity.
Qed.

Lemma delete_with_warning_deleted (env : FilterEnv) (chat_id : string) (reason : Reason)
    (replied : list FilterEvent) :
  forallb is_reply replied = true ->
  deleted_for (replied ++ delete_with_warning env chat_id reason) env chat_id reason.
Proof.
  intros F. destruct (replies_hold_no_deletion _ F) as [_ NW].
  unfold deleted_for, delete_with_warning. repeat split.
  - apply in_or_app. right.
    destruct (fe_delete_ok env), (fe_warning_ok env); now left.
  - intros ->. apply in_or_app. right.
    destruct (fe_warning_ok env); right; now left.
  - intros c r I. apply in_app_or in I as [I | I]; [now apply NW in I|].
    destruct (fe_delete_ok env), (fe_warning_ok env); simpl in I;
      repeat (destruct I as [I | I]; [try discriminate; now injection I|]);
      destruct I.
Qed.

(** C1 (amended). For every group message from a sender who is not an
    admin, once the auto-reply has not raised: if link blocking is on and
    the text matches the URL pattern or holds "t.me/", "telegram.me/" or
    "telegram.dog/" in any letter case, the message is deleted for
    "links", whatever mentions and banned words it holds; only otherwise,
    with mention blocking on and an "@" followed by a word character, for
    "mentions"; only otherwise, when a banned word occurs in the
    lower-cased text, for "banned word"; otherwise nothing is deleted. *)
Theorem C1_deletion_precedence (st : BotStorage) (env : FilterEnv) (update : Update)
    (message : Message) :
  upd_message update = Some message ->
  chat_private message = false ->
  is_admin_user env = false ->
  snd (auto_reply_step env
         (get_auto_replies st (PyStr.of_Z (effective_chat update)))
         (PyStr.lower (message_body message))) = false ->
  let chat_id := PyStr.of_Z (effective_chat update) in
  let text := message_body message in
  let trace := fst (filter_message st env update) in
  snd (filter_message st env update) = false
  /\ (link_found st chat_id text = true -> deleted_for trace env chat_id links)
  /\ (link_found st chat_id text = false ->
      mention_found st chat_id text = true -> deleted_for trace env chat_id mentions)
  /\ (link_found st chat_id text = false ->
      mention_found st chat_id text = false ->
      word_found st chat_id text = true -> deleted_for trace env chat_id banned_word)
  /\ (link_found st chat_id text = false ->
      mention_found st chat_id text = false ->
      word_found st chat_id text = false -> not_deleted trace).
Proof.
  intros U P A R chat_id text trace.
  pose proof (filter_message_run st env update message U P) as Run.
  cbv zeta in Run. rewrite R, A, deletion_check_cascade in Run.
  fold chat_id text in Run.
  pose proof (auto_reply_step_replies env (get_auto_replies st chat_id) (PyStr.lower text))
    as Rep.
  subst trace. rewrite Run.
  destruct (link_found st chat_id text), (mention_found st chat_id text),
    (word_found st chat_id text); simpl;
    (split; [reflexivity | split; [| split; [| split]]]);
    intros; try discriminate;
    try (now apply delete_with_warning_deleted);
    now apply replies_hold_no_deletion.
Qed.

Lemma C1_deletion_precedence_witness :
  deleted_for
    (fst (filter_message guarded_store member_env
            (group_update "SPAM at HTTP://x.com/a from @bob")))
    member_env "-100123" links
  /\ deleted_for
       (fst (filter_message guarded_store member_env (group_update "no Spam please")))
       member_env "-100123" banned_word.
Proof.
  pose proof (C1_deletion_precedence guarded_store member_env
                (group_update "SPAM at HTTP://x.com/a from @bob")
                (text_message "SPAM at HTTP://x.com/a from @bob")
                eq_refl eq_refl eq_refl) as P.
  pose proof (C1_deletion_precedence guarded_store member_env
                (group_update "no Spam please") (text_message "no Spam please")
                eq_refl eq_refl eq_refl) as Q.
  cbv zeta in P, Q.
  destruct P as (_ & P & _); [vm_compute; reflexivity|].
  destruct Q as (_ & _ & _ & Q & _); [vm_compute; reflexivity|].
  split.
  - apply P. vm_compute. reflexivity.
  - apply Q; vm_compute; reflexivity.
Defined.

(** C1 as stated fails: with link blocking on, a text that names the
    host "t.me" without a slash after it is not deleted; and a message
    with a link is not deleted when both attempts to send the auto-reply
    raise, the handler being left before the checks. *)
Lemma C1_counterexample :
  get_block_links guarded_store "-100123" = true
  /\ is_admin_user member_env = false
  /\ names_telegram_host "news on t.me today" = true
  /\ filter_message guarded_store member_env (group_update "news on t.me today")
     = ([], false)
  /\ link_found guarded_store "-100123" "price list: http://x.com" = true
  /\ filter_message guarded_store muted_env (group_update "price list: http://x.com")
     = ([FReply true "It is free"; FReply false "It is free"], true).
Proof.
  split; [vm_compute; reflexivity|].
  split; [vm_compute; reflexivity|].
  split; [vm_compute; reflexivity|].
  split; [vm_compute; reflexivity|].
  split; vm_compute; reflexivity.
Qed.

Lemma auto_reply_step_events (env : FilterEnv) (d : dict string string) (t : string)
    (md : bool) (reply : string) :
  In (FReply md reply) (fst (auto_reply_step env d t)) ->
  first_auto_reply d t = Some reply.
Proof.
  unfold auto_reply_step. destruct (first_auto_reply d t) as [r|]; [|intros []].
  destruct (fe_reply_markdown_ok env); simpl; intros I;
    repeat (destruct I as [I | I]; [now injection I as _ -> |]); destruct I.
Qed.

Lemma auto_reply_step_fires (env : FilterEnv) (d : dict string string) (t reply : string) :
  first_auto_reply d t = Some reply ->
  In (FReply true reply) (fst (auto_reply_step env d t)).
Proof.
  unfold auto_reply_step. intros ->.
  destruct (fe_reply_markdown_ok env); now left.
Qed.

(** The replies in the calls of [filter_message] are those of the
    auto-reply step, whoever the sender is. *)
Lemma filter_message_replies (st : BotStorage) (env : FilterEnv) (update : Update)
    (message : Message) :
  upd_message update = Some message ->
  chat_private message = false ->
  filter is_reply (fst (filter_message st env update)) =
  fst (auto_reply_step env
         (get_auto_replies st (PyStr.of_Z (effective_chat update)))
         (PyStr.lower (message_body message))).
Proof.
  intros U P. rewrite (filter_message_run st env update message U P). cbv zeta.
  pose proof (auto_reply_step_replies env
                (get_auto_replies st (PyStr.of_Z (effective_chat update)))
                (PyStr.lower (message_body message))) as Rep.
  destruct (snd (auto_reply_step _ _ _)); [now apply filter_replies_only|].
  destruct (is_admin_user env); [now apply filter_replies_only|].
  destruct (deletion_check _ _ _); simpl; [|now apply filter_replies_only].
  rewrite filter_app, delete_with_warning_no_reply, app_nil_r.
  now apply filter_replies_only.
Qed.

Lemma in_filter_reply (l : list FilterEvent) (md : bool) (reply : string) :
  In (FReply md reply) l <-> In (FReply md reply) (filter is_reply l).
Proof. rewrite filter_In. simpl. tauto. Qed.

(** C4. For every group message: a reply is sent exactly when some
    configured trigger occurs in the lower-cased body; every reply sent
    is the one of the first such trigger in the order of the dictionary;
    the replies do not depend on the role of the sender; and for an admin
    the handler makes no other call, so nothing is deleted. *)
Theorem C4_auto_reply_any_role (st : BotStorage) (env : FilterEnv) (update : Update)
    (message : Message) :
  upd_message update = Some message ->
  chat_private message = false ->
  let replies := get_auto_replies st (PyStr.of_Z (effective_chat update)) in
  let text_lower := PyStr.lower (message_body message) in
  let trace := fst (filter_message st env update) in
  ((exists md reply, In (FReply md reply) trace) <->
   (exists trigger reply,
       In (trigger, reply) replies /\ PyStr.contains trigger text_lower = true))
  /\ (forall md reply, In (FReply md reply) trace ->
        exists pre trigger post,
          replies = pre ++ (trigger, reply) :: post
          /\ PyStr.contains trigger text_lower = true
          /\ forall x, In x pre -> PyStr.contains (fst x) text_lower = false)
  /\ (forall env',
        fe_reply_markdown_ok env' = fe_reply_markdown_ok env ->
        fe_reply_plain_ok env' = fe_reply_plain_ok env ->
        filter is_reply (fst (filter_message st env' update)) = filter is_reply trace)
  /\ (is_admin_user env = true ->
        filter (fun e => negb (is_reply e)) trace = [] /\ not_deleted trace).
Proof.
  intros U P replies text_lower trace.
  pose proof (filter_message_replies st env update message U P) as FR.
  fold replies text_lower trace in FR.
  split; [| split; [| split]].
  - split.
    + intros (md & reply & I). rewrite in_filter_reply, FR in I.
      apply auto_reply_step_events, first_auto_reply_spec in I
        as (pre & trigger & post & E & C & _).
      exists trigger, reply. split; [|assumption].
      rewrite E. apply in_or_app. right. now left.
    + intros (trigger & reply & I & C).
      destruct (first_auto_reply replies text_lower) as [r|] eqn:F.
      * exists true, r. rewrite in_filter_reply, FR.
        now apply auto_reply_step_fires.
      * rewrite first_auto_reply_none in F. rewrite (F _ _ I) in C. discriminate.
  - intros md reply I. rewrite in_filter_reply, FR in I.
    now apply auto_reply_step_events, first_auto_reply_spec in I.
  - intros env' E1 E2. rewrite FR.
    rewrite (filter_message_replies st env' update message U P).
    fold replies text_lower. unfold auto_reply_step. rewrite E1, E2. reflexivity.
  - intros A. subst trace.
    rewrite (filter_message_run st env update message U P). cbv zeta. rewrite A.
    pose proof (auto_reply_step_replies env replies text_lower) as Rep.
    fold replies text_lower.
    assert (filter (fun e => negb (is_reply e))
              (fst (auto_reply_step env replies text_lower)) = []) as NR.
    { revert Rep. generalize (fst (auto_reply_step env replies text_lower)).
      induction l as [|e l IH]; simpl; [reflexivity|].
      intros F. apply andb_true_iff in F as [-> F]. simpl. now apply IH. }
    destruct (snd (auto_reply_step env replies text_lower)); simpl;
      (split; [exact NR | now apply replies_hold_no_deletion]).
Qed.

Lemma C4_auto_reply_any_role_witness :
  In (FReply true "It is free")
     (fst (filter_message guarded_store admin_env
             (group_update "What is the PRICE? see http://x.com")))
  /\ not_deleted
       (fst (filter_message guarded_store admin_env
               (group_update "What is the PRICE? see http://x.com")))
  /\ filter is_reply
       (fst (filter_message guarded_store member_env
               (group_update "What is the PRICE? see http://x.com")))
     = filter is_reply
         (fst (filter_message guarded_store admin_env
                 (group_update "What is the PRICE? see http://x.com"))).
Proof.
  pose proof (C4_auto_reply_any_role guarded_store admin_env
                (group_update "What is the PRICE? see http://x.com")
                (text_message "What is the PRICE? see http://x.com")
                eq_refl eq_refl) as P.
  cbv zeta in P. destruct P as (_ & _ & P3 & P4).
  split; [vm_compute; now left | split].
  - apply P4. reflexivity.
  - apply (P3 member_env); reflexivity.
Defined.

(** ** The wizard *)

Lemma get_session_set_state (b : Bot) (u u' : Z) (s : option WizardState) :
  get_session (set_state b u s) u' = get_session b u'.
Proof. reflexivity. Qed.

Lemma get_state_set_state (b : Bot) (u : Z) (w : WizardState) :
  get_state (set_state b u (Some w)) u = Some w.
Proof. unfold get_state. simpl. apply dict_get_set_same. Qed.

Lemma get_state_set_none (b : Bot) (u : Z) :
  get_state (set_state b u None) u = None.
Proof. unfold get_state. simpl. apply dict_get_remove_same. Qed.

Lemma storage_set_state (b : Bot) (u : Z) (s : option WizardState) :
  storage (set_state b u s) = storage b.
Proof. reflexivity. Qed.

Lemma get_session_update (b : Bot) (u : Z) (f : Session -> Session) (s : Session) :
  get_session b u = Some s ->
  get_session (update_session b u f) u = Some (f s).
Proof.
  intros G. unfold update_session. rewrite G.
  unfold get_session. simpl. apply dict_get_set_same.
Qed.

Lemma get_session_update_other (b : Bot) (u u' : Z) (f : Session -> Session) :
  u' <> u -> get_session (update_session b u f) u' = get_session b u'.
Proof.
  intros N. unfold update_session.
  destruct (get_session b u); [|reflexivity].
  unfold get_session. simpl. now apply dict_get_set_other.
Qed.

Lemma data_update_session (b : Bot) (u : Z) (f : Session -> Session) :
  data (storage (update_session b u f)) = data (storage b)
  /\ file (storage (update_session b u f)) = file (storage b)
  /\ user_state (update_session b u f) = user_state b.
Proof. unfold update_session. destruct (get_session b u); auto. Qed.

Lemma get_session_delete (b : Bot) (u : Z) :
  get_session (delete_session b u) u = None.
Proof. unfold get_session. simpl. apply dict_get_remove_same. Qed.

(** The text handler on a private message, with a session open. *)
Lemma handle_text_input_open (is_admin : Z -> bool) (b : Bot) (u : Z)
    (state : WizardState) (s : Session) (text : string) :
  get_state b u = Some state ->
  get_session b u = Some s ->
  text <> "/cancel" ->
  handle_text_input is_admin b true u text =
  match state with
  | waiting_chatid =>
      match PyStr.to_int text with
      | Some chat_id =>
          if is_admin chat_id
          then (set_state
                  (update_session b u (set_tm_chat_id (Some (PyStr.of_Z chat_id))))
                  u (Some waiting_text),
                [AskText])
          else (b, [SayNotAdmin])
      | None => (b, [SayInvalidChatId])
      end
  | waiting_text =>
      (set_state
         (if negb (String.eqb (PyStr.lower text) "skip")
          then update_session b u (set_tm_text (Some text)) else b)
         u (Some waiting_media),
       [AskMedia])
  | waiting_buttons =>
      (set_state
         (update_session b u
            (set_tm_buttons
               (if String.eqb (PyStr.lower text) "skip" then [] else parse_buttons text)))
         u (Some waiting_delete_option),
       [AskDeletePrevious])
  | waiting_interval =>
      match PyStr.to_int text with
      | Some interval =>
          if (interval <? 1)%Z then (b, [SayIntervalTooSmall])
          else (update_session b u (set_tm_interval (Some interval)),
                [ShowPreview (set_tm_interval (Some interval) s)])
      | None => (b, [SayInvalidNumber])
      end
  | waiting_media => (b, [])
  | waiting_delete_option => (b, [])
  end.
Proof.
  intros St Se N. unfold handle_text_input. simpl. rewrite St, Se.
  destruct (String.eqb_spec text "/cancel") as [E | _]; [contradiction|].
  destruct state; try reflexivity.
  destruct (PyStr.to_int text) as [n|]; [|reflexivity].
  destruct (n <? 1)%Z; [reflexivity|].
  now rewrite (get_session_update b u _ s Se).
Qed.

(** A character whose lower case is [x] is [x] or its upper case. *)
Lemma lower_char_inv (c x : ascii) :
  PyStr.lower_char c = x -> c = x \/ c = Re.upper_char x.
Proof.
  intros <-. destruct c as [[] [] [] [] [] [] [] []]; vm_compute; auto.
Qed.

(** "skip" in any letter case holds no button line. *)
Lemma parse_buttons_skip (text : string) :
  PyStr.lower text = "skip" -> parse_buttons text = [].
Proof.
  destruct text as [|c1 [|c2 [|c3 [|c4 [|c5 r]]]]]; simpl; try discriminate.
  intros E. injection E as E1 E2 E3 E4.
  apply lower_char_inv in E1, E2, E3, E4.
  destruct E1 as [-> | ->], E2 as [-> | ->], E3 as [-> | ->], E4 as [-> | ->];
    reflexivity.
Qed.

(** [split_once] cuts at the first separator. *)
Lemma split_once_first (sep : ascii) (s : string) :
  PyStr.has_char sep s = true ->
  exists a b, PyStr.split_once sep s = Some (a, b)
              /\ s = (a ++ String sep b)%string
              /\ PyStr.has_char sep a = false.
Proof.
  induction s as [|c s IH]; simpl; [discriminate|].
  destruct (Ascii.eqb_spec c sep) as [-> | N]; simpl.
  - intros _. exists "", s. auto.
  - intros Hs. destruct (IH Hs) as (a & b & -> & E & Ha).
    exists (String c a), b. simpl. rewrite <- E.
    repeat split. apply Ascii.eqb_neq in N. now rewrite N, Ha.
Qed.

Lemma split_once_none (sep : ascii) (s : string) :
  PyStr.has_char sep s = false -> PyStr.split_once sep s = None.
Proof.
  induction s as [|c s IH]; simpl; [reflexivity|].
  destruct (Ascii.eqb c sep); simpl; [discriminate|].
  intros Hs. now rewrite IH.
Qed.

(** The buttons are those of the lines that hold a ['|'], in order; the
    other lines give nothing. *)
Lemma parse_buttons_lines (text : string) :
  parse_buttons text =
  map button_of_line
    (filter (PyStr.has_char "|") (PyStr.split newline (PyStr.strip text))).
Proof.
  unfold parse_buttons. induction (PyStr.split newline (PyStr.strip text)) as [|l ls IH];
    simpl; [reflexivity|].
  destruct (PyStr.has_char "|" l) eqn:Hl; simpl; [|exact IH].
  unfold button_of_line.
  destruct (split_once_first _ _ Hl) as (a & b & -> & _ & _). simpl. now rewrite IH.
Qed.

(** C8 (amended). In the text step, for an input other than the cancel
    command: an input that is "skip" up to letter case leaves the session
    as it is, so its text stays unset; any other input becomes the text of
    the session, unchanged, all other fields staying; in both cases the
    wizard goes on to the media step and asks for the media. *)
Theorem C8_text_step (is_admin : Z -> bool) (b : Bot) (user_id : Z) (s : Session)
    (text : string) :
  get_state b user_id = Some waiting_text ->
  get_session b user_id = Some s ->
  text <> "/cancel" ->
  let b' := fst (handle_text_input is_admin b true user_id text) in
  get_state b' user_id = Some waiting_media
  /\ snd (handle_text_input is_admin b true user_id text) = [AskMedia]
  /\ (PyStr.lower text = "skip" -> get_session b' user_id = Some s)
  /\ (PyStr.lower text <> "skip" ->
      get_session b' user_id = Some (set_tm_text (Some text) s)
      /\ tm_text (set_tm_text (Some text) s) = Some text)
  /\ data (storage b') = data (storage b).
Proof.
  intros St Se N b'. subst b'.
  rewrite (handle_text_input_open is_admin b user_id waiting_text s text St Se N).
  cbn [fst snd]. split; [apply get_state_set_state | split; [reflexivity|]].
  rewrite get_session_set_state, storage_set_state.
  destruct (String.eqb_spec (PyStr.lower text) "skip") as [E | NE]; simpl.
  - split; [now intros _ | split; [intros NE; contradiction | reflexivity]].
  - split; [intros E; contradiction | split].
    + intros _. split; [now apply get_session_update | reflexivity].
    + apply data_update_session.
Qed.

Lemma C8_text_step_witness :
  get_state (fst (handle_text_input (fun _ => true) bot_at_text true 7%Z "*Hello* _all_"))
    7%Z = Some waiting_media
  /\ option_map tm_text
       (get_session
          (fst (handle_text_input (fun _ => true) bot_at_text true 7%Z "*Hello* _all_"))
          7%Z) = Some (Some "*Hello* _all_").
Proof.
  pose proof (C8_text_step (fun _ => true) bot_at_text 7%Z
                (set_tm_chat_id (Some "-100123") fresh_session) "*Hello* _all_"
                eq_refl eq_refl) as P.
  cbv zeta in P.
  destruct P as (P1 & _ & _ & P4 & _); [discriminate|].
  split; [exact P1|].
  destruct P4 as [P4 _]; [discriminate|].
  rewrite P4. reflexivity.
Defined.

(** C8 as stated fails: "SKIP" is not the literal [skip], yet the text
    of the session stays unset instead of becoming "SKIP". *)
Lemma C8_counterexample :
  String.eqb "SKIP" "skip" = false
  /\ get_state bot_at_text 7%Z = Some waiting_text
  /\ option_map tm_text (get_session bot_at_text 7%Z) = Some None
  /\ option_map tm_text
       (get_session (fst (handle_text_input (fun _ => true) bot_at_text true 7%Z "SKIP"))
          7%Z) = Some None
  /\ get_state (fst (handle_text_input (fun _ => true) bot_at_text true 7%Z "SKIP")) 7%Z
     = Some waiting_media.
Proof.
  split; [reflexivity|].
  split; [vm_compute; reflexivity|].
  split; [vm_compute; reflexivity|].
  split; vm_compute; reflexivity.
Qed.

(** C9. In the buttons step, for an input other than the cancel
    command: the literal [skip] gives the empty list; any other input
    gives the buttons of its lines that hold a ['|'], each cut at its
    first ['|'] with both sides stripped, the lines without one being
    left out; whatever the input, the wizard goes on to the delete-option
    step; and the three-line example gives the two buttons A and B. *)
Theorem C9_buttons_step (is_admin : Z -> bool) (b : Bot) (user_id : Z) (s : Session)
    (text : string) :
  get_state b user_id = Some waiting_buttons ->
  get_session b user_id = Some s ->
  text <> "/cancel" ->
  let b' := fst (handle_text_input is_admin b true user_id text) in
  let lines := PyStr.split newline (PyStr.strip text) in
  get_state b' user_id = Some waiting_delete_option
  /\ snd (handle_text_input is_admin b true user_id text) = [AskDeletePrevious]
  /\ (text = "skip" -> get_session b' user_id = Some (set_tm_buttons [] s))
  /\ (text <> "skip" ->
      get_session b' user_id =
      Some (set_tm_buttons (map button_of_line (filter (PyStr.has_char "|") lines)) s))
  /\ (forall line, PyStr.has_char "|" line = true ->
        exists label url,
          line = (label ++ String "|" url)%string
          /\ PyStr.has_char "|" label = false
          /\ button_of_line line =
             {| btn_text := PyStr.strip label; btn_url := PyStr.strip url |})
  /\ parse_buttons ("A|https://a.com" ++ String newline "Bad line"
                      ++ String newline "B|https://b.com")
     = [ {| btn_text := "A"; btn_url := "https://a.com" |};
         {| btn_text := "B"; btn_url := "https://b.com" |} ].
Proof.
  intros St Se N b' lines. subst b' lines.
  rewrite (handle_text_input_open is_admin b user_id waiting_buttons s text St Se N).
  cbn [fst snd]. rewrite get_session_set_state.
  split; [apply get_state_set_state | split; [reflexivity|]].
  split; [| split; [| split]].
  - intros ->. now apply get_session_update.
  - intros _. rewrite (get_session_update b user_id _ s Se). do 2 f_equal.
    rewrite <- parse_buttons_lines.
    destruct (String.eqb_spec (PyStr.lower text) "skip") as [E | NE];
      [symmetry; now apply parse_buttons_skip | reflexivity].
  - intros line Hl. destruct (split_once_first _ _ Hl) as (a & c & E & -> & Ha).
    exists a, c. unfold button_of_line. now rewrite E.
  - vm_compute. reflexivity.
Qed.

Lemma C9_buttons_step_witness :
  get_state
    (fst (handle_text_input (fun _ => true) bot_at_buttons true 7%Z
            ("A|https://a.com" ++ String newline "Bad line"
               ++ String newline "B|https://b.com")))
    7%Z = Some waiting_delete_option
  /\ option_map tm_buttons
       (get_session
          (fst (handle_text_input (fun _ => true) bot_at_buttons true 7%Z
                  ("A|https://a.com" ++ String newline "Bad line"
                     ++ String newline "B|https://b.com")))
          7%Z)
     = Some [ {| btn_text := "A"; btn_url := "https://a.com" |};
              {| btn_text := "B"; btn_url := "https://b.com" |} ].
Proof.
  pose proof (C9_buttons_step (fun _ => true) bot_at_buttons 7%Z
                (set_tm_media (Some "large-id") (Some photo)
                   (set_tm_text (Some "Hello")
                      (set_tm_chat_id (Some "-100123") fresh_session)))
                ("A|https://a.com" ++ String newline "Bad line"
                   ++ String newline "B|https://b.com")
                eq_refl eq_refl) as P.
  cbv zeta in P.
  destruct P as (P1 & _ & _ & P4 & _); [discriminate|].
  split; [exact P1|].
  rewrite P4 by discriminate. reflexivity.
Defined.

(** C7 (amended). In the media step, a photo, video or animation is
    recorded with its file reference and its type and the wizard goes on
    to the buttons step; a message that reaches the media handler with
    none of the three is answered by the request to send a photo, video
    or GIF and changes nothing. *)
Theorem C7_media_step (b : Bot) (user_id : Z) (s : Session) (message : Message) :
  get_state b user_id = Some waiting_media ->
  get_session b user_id = Some s ->
  let r := handle_media_input b true user_id message in
  (forall file_id kind,
      media_of_message message = Some (file_id, kind) ->
      get_session (fst r) user_id = Some (set_tm_media (Some file_id) (Some kind) s)
      /\ tm_media (set_tm_media (Some file_id) (Some kind) s) = Some file_id
      /\ tm_media_type (set_tm_media (Some file_id) (Some kind) s) = Some kind
      /\ get_state (fst r) user_id = Some waiting_buttons
      /\ snd r = [AskButtons])
  /\ (media_of_message message = None -> r = (b, [SayUnsupportedMedia]))
  /\ (msg_photo message <> [] ->
      media_of_message message = Some (List.last (msg_photo message) "", photo))
  /\ (forall file_id, msg_photo message = [] -> msg_video message = Some file_id ->
      media_of_message message = Some (file_id, video))
  /\ (forall file_id, msg_photo message = [] -> msg_video message = None ->
      msg_animation message = Some file_id ->
      media_of_message message = Some (file_id, animation))
  /\ (msg_photo message = [] -> msg_video message = None ->
      msg_animation message = None -> media_of_message message = None).
Proof.
  intros St Se r. subst r. unfold handle_media_input. simpl. rewrite St, Se.
  split; [| split; [| split; [| split; [| split]]]].
  - intros file_id kind ->. cbn [fst snd]. rewrite get_session_set_state.
    repeat split; [now apply get_session_update | apply get_state_set_state].
  - now intros ->.
  - unfold media_of_message. destruct (msg_photo message); [contradiction | reflexivity].
  - intros f P V. unfold media_of_message. now rewrite P, V.
  - intros f P V A. unfold media_of_message. now rewrite P, V, A.
  - intros P V A. unfold media_of_message. now rewrite P, V, A.
Qed.

Lemma C7_media_step_witness :
  option_map (fun s => (tm_media s, tm_media_type s))
    (get_session (fst (handle_media_input bot_at_media true 7%Z photo_message)) 7%Z)
  = Some (Some "large-id", Some photo)
  /\ get_state (fst (handle_media_input bot_at_media true 7%Z photo_message)) 7%Z
     = Some waiting_buttons.
Proof.
  pose proof (C7_media_step bot_at_media 7%Z
                (set_tm_text (Some "Hello")
                   (set_tm_chat_id (Some "-100123") fresh_session))
                photo_message eq_refl eq_refl) as P.
  cbv zeta in P. destruct P as (P & _).
  destruct (P "large-id" photo eq_refl) as (P1 & _ & _ & P4 & _).
  split; [now rewrite P1 | exact P4].
Defined.

(** C7 as stated fails: a text sent in the media step, be it any text
    or the "skip" that the prompt offers, gets no answer at all; the bot
    is left as it was. *)
Lemma C7_counterexample :
  get_state bot_at_media 7%Z = Some waiting_media
  /\ handle_text_input (fun _ => true) bot_at_media true 7%Z "hello" = (bot_at_media, [])
  /\ handle_text_input (fun _ => true) bot_at_media true 7%Z "skip" = (bot_at_media, []).
Proof.
  split; [vm_compute; reflexivity|].
  split; vm_compute; reflexivity.
Qed.

(** ** Saving the session *)

Lemma add_recurring_message_list (st : BotStorage) (chat_id : option string)
    (item : RecurringItem) :
  Dict.get_default chat_id []
    (recurring_messages (data (add_recurring_message st chat_id item)))
  = Dict.get_default chat_id [] (recurring_messages (data st)) ++ [item].
Proof.
  unfold add_recurring_message. simpl. rewrite dict_get_default_set_same.
  unfold Dict.mem, Dict.get_default.
  destruct (Dict.get chat_id (recurring_messages (data st))) eqn:G.
  - now rewrite G.
  - now rewrite dict_get_set_same.
Qed.

(** Without a session the text handler does nothing. *)
Lemma handle_text_input_closed (is_admin : Z -> bool) (b : Bot) (u : Z) (text : string)
    (private : bool) :
  get_session b u = None ->
  handle_text_input is_admin b private u text = (b, []).
Proof.
  intros G. unfold handle_text_input. rewrite G.
  destruct private; simpl; [|reflexivity].
  now destruct (get_state b u).
Qed.

(** C5. For every open session, and so for one in the preview, the save
    action builds an item with [last_sent = 0] and no [last_message_id]
    whose other fields are those of the session; the item is appended to
    the list of the session's chat by [add_recurring_message], which
    saves; the session and the state are gone; and a cancel afterwards,
    by command or by button, leaves the bot as it is. *)
Theorem C5_confirm_save (is_admin : Z -> bool) (b : Bot) (user_id : Z) (s : Session) :
  get_session b user_id = Some s ->
  let b' := fst (confirm_save_message b user_id) in
  let item := recurring_data s in
  (rm_last_sent item = 0%Z /\ rm_last_message_id item = None
   /\ rm_text item = tm_text s /\ rm_media item = tm_media s
   /\ rm_media_type item = tm_media_type s /\ rm_buttons item = tm_buttons s
   /\ rm_interval item = tm_interval s
   /\ rm_delete_previous item = tm_delete_previous s
   /\ rm_pin_message item = tm_pin_message s)
  /\ data (storage b') = data (add_recurring_message (storage b) (tm_chat_id s) item)
  /\ Dict.get_default (tm_chat_id s) [] (recurring_messages (data (storage b')))
     = Dict.get_default (tm_chat_id s) [] (recurring_messages (data (storage b)))
       ++ [item]
  /\ file (storage b') = Some (data (storage b'))
  /\ get_session b' user_id = None
  /\ get_state b' user_id = None
  /\ (forall text, handle_text_input is_admin b' true user_id text = (b', []))
  /\ fst (show_recurring_menu b') = b'
  /\ confirm_save_message b' user_id = (b', [AnswerNoMessageToSave]).
Proof.
  intros Se b' item. subst b'. unfold confirm_save_message. rewrite Se. cbn [fst].
  fold item.
  assert (get_session
            (set_state
               (delete_session
                  (with_storage b (add_recurring_message (storage b) (tm_chat_id s) item))
                  user_id) user_id None) user_id = None) as Gone.
  { rewrite get_session_set_state. apply get_session_delete. }
  split; [repeat split|].
  split; [reflexivity|].
  split; [apply add_recurring_message_list|].
  split; [reflexivity|].
  split; [exact Gone|].
  split; [apply get_state_set_none|].
  split; [intros text; now apply handle_text_input_closed|].
  split; [reflexivity|].
  now rewrite Gone.
Qed.

Lemma C5_confirm_save_witness :
  recurring_messages (data (storage (fst (confirm_save_message bot_at_preview 7%Z))))
  = [ (Some "-100123",
       [ {| rm_text := Some "Hello"; rm_media := None; rm_media_type := None;
            rm_buttons := [ {| btn_text := "Visit"; btn_url := "https://x.com" |} ];
            rm_interval := Some 10%Z; rm_delete_previous := true;
            rm_pin_message := false; rm_last_sent := 0%Z;
            rm_last_message_id := None |} ]) ]
  /\ get_session (fst (confirm_save_message bot_at_preview 7%Z)) 7%Z = None
  /\ handle_text_input (fun _ => true) (fst (confirm_save_message bot_at_preview 7%Z))
       true 7%Z "/cancel"
     = (fst (confirm_save_message bot_at_preview 7%Z), []).
Proof.
  pose proof (C5_confirm_save (fun _ => true) bot_at_preview 7%Z scenario_session eq_refl)
    as P.
  cbv zeta in P. destruct P as (_ & P2 & _ & _ & P5 & _ & P7 & _).
  split; [rewrite P2; reflexivity | split; [exact P5 | apply P7]].
Defined.

(** ** The scheduler: one item *)

Lemma is_due_spec (current_time : Z) (m : RecurringItem) (n : Z) :
  is_due current_time m n = true <-> (n * 60 <= current_time - rm_last_sent m)%Z.
Proof. unfold is_due. apply Z.leb_le. Qed.


Lemma send_call_is_send (chat_id : option string) (m : RecurringItem) (call : SchedEvent) :
  send_call chat_id m = Some call -> is_send call = true.
Proof.
  unfold send_call.
  destruct (rm_media m) as [media|], (rm_media_type m) as [kind|], (rm_text m) as [t|];
    try destruct (PyStr.truthy media); try destruct (PyStr.truthy t);
    intros [= <-] || discriminate; reflexivity.
Qed.


Lemma delete_previous_step_no_send (o : ItemOutcome) (chat_id : option string)
    (m : RecurringItem) :
  filter is_send (delete_previous_step o chat_id m) = [].
Proof.
  unfold delete_previous_step. destruct (rm_last_message_id m) as [id|]; [|reflexivity].
  destruct (rm_delete_previous m && negb (id =? 0)%Z); [|reflexivity].
  destruct (delete_previous_ok o); reflexivity.
Qed.

(** The send calls of one run: the call of the item when it is due. *)
Lemma item_send_calls (current_time : Z) (o : ItemOutcome) (chat_id : option string)
    (m : RecurringItem) (n : Z) :
  rm_interval m = Some n ->
  exists r,
    send_recurring_item current_time o chat_id m = Some r
    /\ filter is_send (run_trace r) =
       if is_due current_time m n
       then match send_call chat_id m with Some call => [call] | None => [] end
       else [].
Proof.
  intros I. unfold send_recurring_item. rewrite I.
  destruct (is_due current_time m n); [|eexists; split; reflexivity].
  destruct (send_call chat_id m) as [call|] eqn:C.
  - pose proof (send_call_is_send _ _ _ C) as S.
    destruct (send_result o) as [id|]; eexists; (split; [reflexivity|]); simpl;
      rewrite filter_app, delete_previous_step_no_send; simpl; rewrite S; [|reflexivity].
    f_equal. rewrite filter_app. simpl.
    destruct (rm_pin_message m); [destruct (pin_ok o)|]; reflexivity.
  - eexists. split; [reflexivity|]. simpl.
    rewrite filter_app, delete_previous_step_no_send. reflexivity.
Qed.


Lemma item_send_fails (current_time : Z) (o : ItemOutcome) (chat_id : option string)
    (m : RecurringItem) (n : Z) (call : SchedEvent) :
  rm_interval m = Some n ->
  (n * 60 <= current_time - rm_last_sent m)%Z ->
  send_call chat_id m = Some call ->
  send_result o = None ->
  send_recurring_item current_time o chat_id m =
  Some {| run_item := m;
          run_trace := delete_previous_step o chat_id m ++ [call; SPrintError];
          run_saved := false |}.
Proof.
  intros I D C R. apply is_due_spec in D. unfold send_recurring_item.
  now rewrite I, D, C, R.
Qed.

Lemma item_send_succeeds (current_time : Z) (o : ItemOutcome) (chat_id : option string)
    (m : RecurringItem) (n id : Z) (call : SchedEvent) :
  rm_interval m = Some n ->
  (n * 60 <= current_time - rm_last_sent m)%Z ->
  send_call chat_id m = Some call ->
  send_result o = Some id ->
  send_recurring_item current_time o chat_id m =
  Some {| run_item := set_sent m current_time (Some id);
          run_trace :=
            delete_previous_step o chat_id m ++ [call]
            ++ (if rm_pin_message m
                then SPinMessage chat_id id :: (if pin_ok o then [] else [SPrintError])
                else [])
            ++ [SSaveData];
          run_saved := true |}.
Proof.
  intros I D C R. apply is_due_spec in D. unfold send_recurring_item.
  now rewrite I, D, C, R.
Qed.


(** A run that does not save leaves the item as it is, and every run
    keeps the interval and the content of the item. *)
Lemma item_unsaved_unchanged (current_time : Z) (o : ItemOutcome)
    (chat_id : option string) (m : RecurringItem) (r : ItemRun) :
  send_recurring_item current_time o chat_id m = Some r ->
  run_saved r = false -> run_item r = m.
Proof.
  unfold send_recurring_item. destruct (rm_interval m) as [n|]; [|discriminate].
  destruct (is_due current_time m n); [|now intros [= <-]].
  destruct (send_call chat_id m); [destruct (send_result o)|];
    intros [= <-]; simpl; intros; reflexivity || discriminate.
Qed.

Lemma item_run_keeps (current_time : Z) (o : ItemOutcome)
    (chat_id : option string) (m : RecurringItem) (r : ItemRun) :
  send_recurring_item current_time o chat_id m = Some r ->
  rm_interval (run_item r) = rm_interval m
  /\ send_call chat_id (run_item r) = send_call chat_id m.
Proof.
  unfold send_recurring_item. destruct (rm_interval m) as [n|] eqn:I; [|discriminate].
  destruct (is_due current_time m n); [|intros [= <-]; auto].
  destruct (send_call chat_id m) eqn:C; [destruct (send_result o)|];
    intros [= <-]; simpl; auto.
Qed.

(** ** The scheduler: one tick *)

(** What the loop over one chat's list yields: every item is run once,
    in order, with the answers of its position; the calls of each run are
    among the calls of the loop; and the file holds the final document as
    soon as one run has saved. *)
Lemma tick_chat_spec (current_time : Z) (o : nat -> ItemOutcome)
    (chat_id : option string) (rebuild : list RecurringItem -> Data) :
  forall (todo done : list RecurringItem) (file0 : option Data),
    forallb has_interval todo = true ->
    exists items file1 trace,
      tick_chat current_time o chat_id rebuild file0 done todo
      = (done ++ items, file1, trace, false)
      /\ forallb has_interval items = true
      /\ (forall i m, nth_error todo i = Some m ->
            exists r,
              send_recurring_item current_time (o (List.length done + i)%nat) chat_id m
              = Some r
              /\ nth_error items i = Some (run_item r)
              /\ incl (run_trace r) trace
              /\ (run_saved r = true -> file1 = Some (rebuild (done ++ items))))
      /\ (forall i, nth_error todo i = None -> nth_error items i = None)
      /\ ((file1 = file0 /\ items = todo) \/ file1 = Some (rebuild (done ++ items))).
Proof.
  induction todo as [|m rest IH]; intros done file0 W.
  - exists [], file0, []. simpl. rewrite app_nil_r.
    split; [reflexivity | split; [reflexivity|]].
    split; [intros [|i] x E; simpl in E; discriminate|].
    split; [intros [|i] _; reflexivity | now left].
  - simpl in W. apply andb_true_iff in W as [Wm Wrest].
    cbn [tick_chat].
    destruct (send_recurring_item current_time (o (List.length done)) chat_id m)
      as [r|] eqn:R.
    2:{ unfold has_interval in Wm. destruct (rm_interval m) as [n|] eqn:I; [|discriminate].
        destruct (item_send_calls current_time (o (List.length done)) chat_id m n I)
          as (r' & R' & _).
        congruence. }
    destruct (IH (done ++ [run_item r])
                (if run_saved r then Some (rebuild (done ++ run_item r :: rest)) else file0)
                Wrest)
      as (items & file1 & trace & E & Wi & Each & Past & F).
    rewrite E. rewrite <- app_assoc in *. simpl in *.
    exists (run_item r :: items), file1, (run_trace r ++ trace).
    assert (file1 = Some (rebuild (done ++ run_item r :: items))
            \/ (run_saved r = false /\ file1 = file0 /\ items = rest)) as Fc.
    { destruct F as [[F1 F2] | F]; [|now left].
      destruct (run_saved r); [left; now rewrite F1, F2 | right; auto]. }
    split; [reflexivity|].
    split.
    { simpl. rewrite Wi, andb_true_r.
      destruct (item_run_keeps _ _ _ _ _ R) as [Ki _].
      unfold has_interval in *. now rewrite Ki. }
    split.
    { intros [|i] x Ex; simpl in Ex.
      - injection Ex as <-. exists r. rewrite Nat.add_0_r.
        split; [assumption | split; [reflexivity|]].
        split; [apply incl_appl, incl_refl|].
        intros S. destruct Fc as [Fc | [NS _]]; [assumption | congruence].
      - destruct (Each i x Ex) as (r' & R' & N' & I' & S').
        exists r'. rewrite length_app in R'. simpl in R'.
        replace (List.length done + S i)%nat with (List.length done + 1 + i)%nat by lia.
        split; [assumption | split; [assumption|]].
        split; [now apply incl_appr | assumption]. }
    split.
    { intros [|i] Ex; simpl in Ex; [discriminate | now apply Past]. }
    destruct Fc as [Fc | (NS & F1 & F2)]; [now right|].
    left. split; [assumption|].
    now rewrite (item_unsaved_unchanged _ _ _ _ _ R NS), F2.
Qed.

(** The same for the loop over the chats. *)
Lemma tick_chats_spec (current_time : Z) (env : TickEnv) (d : Data) :
  forall (todo done : dict (option string) (list RecurringItem)) (file0 : option Data),
    forallb (fun e => forallb has_interval (snd e)) todo = true ->
    exists chats file1 trace,
      tick_chats current_time env d file0 done todo = (done ++ chats, file1, trace, false)
      /\ forallb (fun e => forallb has_interval (snd e)) chats = true
      /\ (forall c chat_id msgs, nth_error todo c = Some (chat_id, msgs) ->
            exists items,
              nth_error chats c = Some (chat_id, items)
              /\ forall i m, nth_error msgs i = Some m ->
                   exists r,
                     send_recurring_item current_time
                       (env (List.length done + c)%nat i) chat_id m = Some r
                     /\ nth_error items i = Some (run_item r)
                     /\ incl (run_trace r) trace
                     /\ (run_saved r = true ->
                         file1 = Some (set_recurring d (done ++ chats))))
      /\ ((file1 = file0 /\ chats = todo)
          \/ file1 = Some (set_recurring d (done ++ chats))).
Proof.
  induction todo as [|[chat_id msgs] rest IH]; intros done file0 W.
  - exists [], file0, []. simpl. rewrite app_nil_r.
    split; [reflexivity | split; [reflexivity|]].
    split; [intros [|c] ? ? E; simpl in E; discriminate | now left].
  - simpl in W. apply andb_true_iff in W as [Wm Wrest].
    cbn [tick_chats]. cbv zeta.
    destruct (tick_chat_spec current_time (env (List.length done)) chat_id
                (fun items => set_recurring d (done ++ (chat_id, items) :: rest))
                msgs [] file0 Wm)
      as (items1 & file1 & trace1 & E1 & W1 & Each1 & _ & F1).
    simpl in E1, Each1, F1. rewrite E1.
    destruct (IH (done ++ [(chat_id, items1)]) file1 Wrest)
      as (chats & file2 & trace2 & E2 & W2 & Each2 & F2).
    rewrite E2. rewrite <- app_assoc in *. simpl in *.
    exists ((chat_id, items1) :: chats), file2, (trace1 ++ trace2).
    assert (file1 = Some (set_recurring d (done ++ (chat_id, items1) :: rest)) ->
            file2 = Some (set_recurring d (done ++ (chat_id, items1) :: chats))) as Keep.
    { intros S1. destruct F2 as [[F2 C2] | F2]; [|assumption]. now rewrite F2, C2. }
    split; [reflexivity|].
    split; [simpl; now rewrite W1, W2|].
    split.
    { intros [|c] ch ms Ec; simpl in Ec.
      - injection Ec as <- <-. exists items1. split; [reflexivity|].
        intros i m Em. destruct (Each1 i m Em) as (r & R & N & I & Sv).
        exists r. rewrite Nat.add_0_r.
        split; [assumption | split; [assumption|]].
        split; [now apply incl_appl | intros Sv'; apply Keep; now apply Sv].
      - destruct (Each2 c ch ms Ec) as (items & N & Each).
        exists items. split; [assumption|].
        intros i m Em. destruct (Each i m Em) as (r & R & Ni & I & Sv).
        exists r. rewrite length_app in R. simpl in R.
        replace (List.length done + S c)%nat with (List.length done + 1 + c)%nat by lia.
        split; [assumption | split; [assumption|]].
        split; [now apply incl_appr | assumption]. }
    destruct F1 as [[F1 I1] | F1]; [|right; now apply Keep].
    destruct F2 as [[F2 C2] | F2]; [|now right].
    left. split; [congruence | now rewrite I1, C2].
Qed.

(** One tick over a storage whose items all have their interval:
    nothing raises; the item at each position is run once with the answers
    of that position, its calls are among the calls of the tick, and when
    it saves, the file holds the document as the tick leaves it. *)
Lemma tick_spec (current_time : Z) (env : TickEnv) (st : BotStorage) :
  intervals_set (data st) = true ->
  exists st' trace,
    send_recurring_messages current_time env st = (st', trace, false)
    /\ intervals_set (data st') = true
    /\ temp_messages st' = temp_messages st
    /\ forall c i chat_id msgs m,
         nth_error (recurring_messages (data st)) c = Some (chat_id, msgs) ->
         nth_error msgs i = Some m ->
         exists r,
           send_recurring_item current_time (env c i) chat_id m = Some r
           /\ item_at (data st') c i = Some (run_item r)
           /\ (exists msgs', nth_error (recurring_messages (data st')) c
                             = Some (chat_id, msgs'))
           /\ incl (run_trace r) trace
           /\ (run_saved r = true -> file st' = Some (data st')).
Proof.
  intros W. unfold send_recurring_messages.
  destruct (tick_chats_spec current_time env (data st)
              (recurring_messages (data st)) [] (file st) W)
    as (chats & file1 & trace & E & W' & Each & _).
  simpl in E, Each. rewrite E.
  eexists; eexists. split; [reflexivity|].
  split; [exact W' | split; [reflexivity|]].
  intros c i chat_id msgs m Ec Ei.
  destruct (Each c chat_id msgs Ec) as (items & N & EachI).
  destruct (EachI i m Ei) as (r & R & Ni & I & Sv).
  exists r. split; [assumption|].
  split; [unfold item_at; simpl; now rewrite N|].
  split; [now exists items|].
  split; assumption.
Qed.

(** A due item with a send branch makes its call. *)
Lemma due_item_calls (current_time : Z) (o : ItemOutcome) (chat_id : option string)
    (m : RecurringItem) (n : Z) (call : SchedEvent) (r : ItemRun) :
  rm_interval m = Some n ->
  send_call chat_id m = Some call ->
  send_recurring_item current_time o chat_id m = Some r ->
  (In call (run_trace r) <-> (n * 60 <= current_time - rm_last_sent m)%Z)
  /\ filter is_send (run_trace r) = if is_due current_time m n then [call] else [].
Proof.
  intros I C R.
  destruct (item_send_calls current_time o chat_id m n I) as (r' & R' & F).
  rewrite R in R'. injection R' as <-. rewrite C in F. split; [|exact F].
  rewrite <- is_due_spec. split.
  - intros In1. destruct (is_due current_time m n); [reflexivity|].
    assert (In call (filter is_send (run_trace r))) as In2.
    { apply filter_In. split; [assumption | now apply (send_call_is_send chat_id m)]. }
    rewrite F in In2. destruct In2.
  - intros D. rewrite D in F.
    assert (In call (filter is_send (run_trace r))) as In2 by (rewrite F; now left).
    now apply filter_In in In2.
Qed.


(** C2. In a storage whose items all have their interval, take a due
    item with a send branch. The tick makes its send call. If the call
    raises, the item is left as it is, [last_sent] included, and every
    later tick makes the call again. If the call returns a message, the
    item gets [last_sent = now] and the identifier of that message, and
    the file holds the document as the tick leaves it, whatever the
    deletion of the previous message and the pinning did. *)
Theorem C2_send_failure_and_success (current_time : Z) (env : TickEnv) (st : BotStorage)
    (c i : nat) (chat_id : option string) (msgs : list RecurringItem)
    (m : RecurringItem) (n : Z) (call : SchedEvent) :
  intervals_set (data st) = true ->
  nth_error (recurring_messages (data st)) c = Some (chat_id, msgs) ->
  nth_error msgs i = Some m ->
  rm_interval m = Some n ->
  (n * 60 <= current_time - rm_last_sent m)%Z ->
  send_call chat_id m = Some call ->
  exists st' trace,
    send_recurring_messages current_time env st = (st', trace, false)
    /\ In call trace
    /\ (send_result (env c i) = None ->
        item_at (data st') c i = Some m
        /\ forall later env', (current_time <= later)%Z ->
             exists st'' trace',
               send_recurring_messages later env' st' = (st'', trace', false)
               /\ In call trace')
    /\ (forall id, send_result (env c i) = Some id ->
        item_at (data st') c i = Some (set_sent m current_time (Some id))
        /\ rm_last_sent (set_sent m current_time (Some id)) = current_time
        /\ rm_last_message_id (set_sent m current_time (Some id)) = Some id
        /\ In SSaveData trace
        /\ file st' = Some (data st')).
Proof.
  intros W Ec Ei I D C.
  destruct (tick_spec current_time env st W) as (st' & trace & E & W' & _ & Each).
  destruct (Each c i chat_id msgs m Ec Ei) as (r & R & At & (msgs' & Ec') & Inc & Sv).
  exists st', trace. split; [assumption|].
  split.
  { apply Inc. now apply (due_item_calls current_time (env c i) chat_id m n call r I C R). }
  split.
  - intros Fail. rewrite (item_send_fails _ _ _ _ _ _ I D C Fail) in R.
    injection R as <-. simpl in At. split; [assumption|].
    intros later env' L.
    destruct (tick_spec later env' st' W') as (st'' & trace' & E' & _ & _ & Each').
    assert (nth_error msgs' i = Some m) as Ei'.
    { unfold item_at in At. now rewrite Ec' in At. }
    destruct (Each' c i chat_id msgs' m Ec' Ei') as (r' & R' & _ & _ & Inc' & _).
    exists st'', trace'. split; [assumption|]. apply Inc'.
    apply (due_item_calls later (env' c i) chat_id m n call r' I C R'). lia.
  - intros id Ok. rewrite (item_send_succeeds _ _ _ _ _ _ _ I D C Ok) in R.
    injection R as <-. simpl in At, Inc, Sv.
    split; [assumption | split; [reflexivity | split; [reflexivity|]]].
    split; [|now apply Sv].
    apply Inc. apply in_or_app. right. simpl. right. apply in_or_app. right. now left.
Qed.


(** ** The scheduler on concrete stores *)

Lemma C2_send_failure_and_success_witness :
  (exists st' trace,
      send_recurring_messages a_time failing_env sched_store = (st', trace, false)
      /\ In hello_call trace
      /\ item_at (data st') 0 0 = Some hello_item)
  /\ (exists st' trace,
        send_recurring_messages a_time sending_env sched_store = (st', trace, false)
        /\ item_at (data st') 0 0 = Some (set_sent hello_item a_time (Some 555%Z))
        /\ file st' = Some (data st')).
Proof.
  split.
  - destruct (C2_send_failure_and_success a_time failing_env sched_store 0 0
                (Some "-100123") [hello_item; untyped_item] hello_item 10%Z hello_call
                eq_refl eq_refl eq_refl eq_refl ltac:(vm_compute; discriminate) eq_refl)
      as (st' & trace & E & I & F & _).
    exists st', trace. split; [exact E | split; [exact I | apply F; reflexivity]].
  - destruct (C2_send_failure_and_success a_time sending_env sched_store 0 0
                (Some "-100123") [hello_item; untyped_item] hello_item 10%Z hello_call
                eq_refl eq_refl eq_refl eq_refl ltac:(vm_compute; discriminate) eq_refl)
      as (st' & trace & E & _ & _ & S).
    destruct (S 555%Z eq_refl) as (S1 & _ & _ & _ & S5).
    exists st', trace. split; [exact E | split; [exact S1 | exact S5]].
Defined.





(** * Further properties of the code *)

(** ** Integers and their text *)

Lemma digits_value_of_uint (d : Decimal.uint) :
  forall acc, PyStr.digits_value acc (NilEmpty.string_of_uint d) = Some (uint_value acc d).
Proof.
  induction d; intros acc; simpl; try reflexivity; rewrite IHd; reflexivity.
Qed.

Lemma of_uint_acc_value (d : Decimal.uint) :
  forall p, Z.pos (Pos.of_uint_acc d p) = uint_value (Z.pos p) d.
Proof.
  induction d; intros p; cbn [Pos.of_uint_acc uint_value]; try reflexivity;
    rewrite IHd; f_equal; lia.
Qed.

Lemma of_uint_value (d : Decimal.uint) : Z.of_N (Pos.of_uint d) = uint_value 0 d.
Proof.
  induction d; simpl; try reflexivity; try exact IHd;
    rewrite of_uint_acc_value; reflexivity.
Qed.

Lemma none_of_lstrip (s : string) :
  none_of PyStr.is_space s = true -> PyStr.lstrip s = s.
Proof.
  destruct s as [|c s]; simpl; [reflexivity|].
  intros N. apply andb_true_iff in N as [Nc _]. apply negb_true_iff in Nc.
  now rewrite Nc.
Qed.

Lemma none_of_rstrip (s : string) :
  none_of PyStr.is_space s = true -> PyStr.rstrip s = s.
Proof.
  induction s as [|c s IH]; simpl; [reflexivity|].
  intros N. apply andb_true_iff in N as [Nc Ns]. apply negb_true_iff in Nc.
  rewrite (IH Ns), Nc. now destruct s.
Qed.

Lemma none_of_strip (s : string) :
  none_of PyStr.is_space s = true -> PyStr.strip s = s.
Proof.
  intros N. unfold PyStr.strip. rewrite (none_of_lstrip s N). now apply none_of_rstrip.
Qed.

Lemma uint_text_digits (d : Decimal.uint) :
  none_of (fun c => negb (PyStr.is_digit c)) (NilEmpty.string_of_uint d) = true.
Proof. induction d; simpl; [reflexivity | exact IHd ..]. Qed.

Lemma none_of_weaken (p q : ascii -> bool) (s : string) :
  (forall c, q c = true -> p c = true) ->
  none_of p s = true -> none_of q s = true.
Proof.
  intros W. induction s as [|c s IH]; simpl; [reflexivity|].
  intros N. apply andb_true_iff in N as [Nc Ns]. rewrite (IH Ns), andb_true_r.
  apply negb_true_iff in Nc. apply negb_true_iff.
  destruct (q c) eqn:Q; [|reflexivity]. rewrite (W c Q) in Nc. discriminate.
Qed.

Lemma digit_not_space (c : ascii) : PyStr.is_space c = true -> negb (PyStr.is_digit c) = true.
Proof. destruct c as [[] [] [] [] [] [] [] []]; vm_compute; congruence. Qed.

Lemma digit_not_underscore (c : ascii) :
  Ascii.eqb c "_" = true -> negb (PyStr.is_digit c) = true.
Proof. intros E. apply Ascii.eqb_eq in E as ->. reflexivity. Qed.

Lemma int_space_is_space (c : ascii) :
  PyStr.is_int_space c = true -> PyStr.is_space c = true.
Proof. destruct c as [[] [] [] [] [] [] [] []]; vm_compute; congruence. Qed.

Lemma none_of_int_strip (s : string) :
  none_of PyStr.is_space s = true -> PyStr.int_rstrip (PyStr.int_lstrip s) = s.
Proof.
  intros N0.
  pose proof (none_of_weaken _ _ _ int_space_is_space N0) as N. clear N0.
  assert (PyStr.int_lstrip s = s) as ->.
  { destruct s as [|c s]; simpl; [reflexivity|].
    simpl in N. apply andb_true_iff in N as [Nc _]. apply negb_true_iff in Nc.
    now rewrite Nc. }
  induction s as [|c s IH]; simpl; [reflexivity|].
  simpl in N. apply andb_true_iff in N as [Nc Ns]. apply negb_true_iff in Nc.
  rewrite (IH Ns), Nc. now destruct s.
Qed.

(** [int()] refuses a separator that [str.strip()] removes. *)
Lemma to_int_separator :
  PyStr.strip (String (ascii_of_nat 28) "5") = "5"
  /\ PyStr.to_int (String (ascii_of_nat 28) "5") = None
  /\ PyStr.to_int (String (ascii_of_nat 32) "5") = Some 5%Z.
Proof. repeat split. Qed.

(** The text of a positive number is read back as that number. *)
Lemma to_int_of_pos (p : positive) :
  let s := NilEmpty.string_of_uint (Pos.to_uint p) in
  none_of PyStr.is_space s = true
  /\ PyStr.unsigned_value s = Some (Z.pos p)
  /\ PyStr.of_Z (Z.pos p) = s
  /\ exists c r, s = String c r /\ PyStr.is_digit c = true.
Proof.
  intros s.
  assert (none_of PyStr.is_space s = true) as NS.
  { apply (none_of_weaken _ _ _ digit_not_space), uint_text_digits. }
  assert (exists c r, s = String c r /\ PyStr.is_digit c = true) as (c & r & E & D).
  { pose proof (uint_text_digits (Pos.to_uint p)) as U. fold s in U.
    destruct s as [|c r] eqn:Es.
    - exfalso. apply (DecimalPos.Unsigned.to_uint_nonnil p).
      subst s. destruct (Pos.to_uint p); simpl in Es; [reflexivity | discriminate ..].
    - exists c, r. split; [reflexivity|]. simpl in U.
      apply andb_true_iff in U as [U _]. now apply negb_true_iff, negb_false_iff in U. }
  split; [assumption | split; [| split; [| now exists c, r]]].
  - unfold PyStr.unsigned_value. rewrite E, D, <- E. subst s.
    rewrite digits_value_of_uint, <- of_uint_value, DecimalPos.Unsigned.of_to.
    reflexivity.
  - unfold PyStr.of_Z. simpl. unfold NilZero.string_of_uint.
    fold s. destruct (Pos.to_uint p) eqn:Ep; try reflexivity.
    exfalso. now apply (DecimalPos.Unsigned.to_uint_nonnil p).
Qed.

Lemma to_int_digit_first (c : ascii) (r : string) :
  PyStr.is_digit c = true ->
  none_of PyStr.is_space (String c r) = true ->
  PyStr.to_int (String c r) = PyStr.unsigned_value (String c r).
Proof.
  intros D N. unfold PyStr.to_int. rewrite (none_of_int_strip _ N).
  destruct c as [[] [] [] [] [] [] [] []]; try discriminate D; reflexivity.
Qed.

Lemma to_int_of_Z (n : Z) : PyStr.to_int (PyStr.of_Z n) = Some n.
Proof.
  destruct n as [|p|p].
  - reflexivity.
  - destruct (to_int_of_pos p) as (NS & V & -> & c & r & E & D).
    rewrite E in *. now rewrite to_int_digit_first.
  - destruct (to_int_of_pos p) as (NS & V & O & _).
    assert (PyStr.of_Z (Z.neg p)
            = String "-" (NilEmpty.string_of_uint (Pos.to_uint p))) as ->.
    { unfold PyStr.of_Z in *. simpl in *. now rewrite O. }
    unfold PyStr.to_int.
    rewrite none_of_int_strip by (simpl; exact NS).
    now rewrite V.
Qed.

(** The text of an integer holds digits and at most a minus sign in
    front. *)
Lemma of_Z_numeral (n : Z) : none_of (fun c => negb (is_numeral_char c)) (PyStr.of_Z n) = true.
Proof.
  assert (forall d, none_of (fun c => negb (is_numeral_char c))
                      (NilEmpty.string_of_uint d) = true) as U.
  { intros d. apply (none_of_weaken (fun c => negb (PyStr.is_digit c))); [|apply uint_text_digits].
    intros c. unfold is_numeral_char. destruct (PyStr.is_digit c); simpl; congruence. }
  destruct n as [|p|p]; [reflexivity | |].
  - destruct (to_int_of_pos p) as (_ & _ & -> & _). apply U.
  - destruct (to_int_of_pos p) as (_ & _ & O & _).
    unfold PyStr.of_Z in *. simpl in *. rewrite O. apply U.
Qed.

(** ** The store: recurring messages, flags and auto-replies *)

Lemma list_pop_split {A} (l : list A) :
  forall i, (i < List.length l)%nat ->
            list_pop i l = firstn i l ++ skipn (S i) l
            /\ S (List.length (list_pop i l)) = List.length l.
Proof.
  induction l as [|x l IH]; intros i L; simpl in L; [lia|].
  destruct i as [|i]; [simpl; auto|].
  destruct (IH i ltac:(lia)) as [E Len].
  split; [|simpl; now rewrite Len].
  change (x :: list_pop i l = x :: (firstn i l ++ skipn (S i) l)). now rewrite E.
Qed.

Lemma get_recurring_after_set (st : BotStorage) (chat_id chat' : string)
    (msgs : list RecurringItem) :
  get_recurring_messages
    (save_data (with_data st (set_recurring (data st)
       (Dict.set (Some chat_id) msgs (recurring_messages (data st)))))) chat'
  = if String.eqb chat' chat_id then msgs else get_recurring_messages st chat'.
Proof.
  unfold get_recurring_messages, Dict.get_default. simpl.
  destruct (String.eqb_spec chat' chat_id) as [-> | N].
  - now rewrite dict_get_set_same.
  - rewrite dict_get_set_other; [reflexivity | congruence].
Qed.

Lemma remove_recurring_outside (st : BotStorage) (chat_id : string) (index : Z) :
  (index < 0 \/ Z.of_nat (List.length (get_recurring_messages st chat_id)) <= index)%Z ->
  remove_recurring_message st chat_id index = st.
Proof.
  unfold remove_recurring_message, get_recurring_messages, Dict.get_default.
  destruct (Dict.get (Some chat_id) (recurring_messages (data st))) as [msgs|];
    [|reflexivity].
  intros Out.
  destruct ((0 <=? index) && (index <? Z.of_nat (List.length msgs)))%Z eqn:B;
    [|reflexivity].
  apply andb_true_iff in B as [B1 B2]. apply Z.leb_le in B1. apply Z.ltb_lt in B2. lia.
Qed.

Lemma remove_recurring_inside (st : BotStorage) (chat_id : string) (index : Z) :
  (0 <= index < Z.of_nat (List.length (get_recurring_messages st chat_id)))%Z ->
  remove_recurring_message st chat_id index
  = save_data (with_data st (set_recurring (data st)
      (Dict.set (Some chat_id)
         (list_pop (Z.to_nat index) (get_recurring_messages st chat_id))
         (recurring_messages (data st))))).
Proof.
  unfold remove_recurring_message, get_recurring_messages, Dict.get_default.
  destruct (Dict.get (Some chat_id) (recurring_messages (data st))) as [msgs|];
    [|simpl; lia].
  intros In1.
  assert (((0 <=? index) && (index <? Z.of_nat (List.length msgs)))%Z = true) as ->.
  { apply andb_true_iff. split; [apply Z.leb_le | apply Z.ltb_lt]; lia. }
  reflexivity.
Qed.

(** X1. [remove_recurring_message] with an index outside the list of
    the chat, or for a chat without a list, changes nothing and does not
    save; with an index inside, exactly that item leaves the list, the
    lists of the other chats stay, and the document is saved. *)
Theorem X1_remove_recurring_message_bounds (st : BotStorage) (chat_id : string) (index : Z) :
  let msgs := get_recurring_messages st chat_id in
  let st' := remove_recurring_message st chat_id index in
  ((index < 0 \/ Z.of_nat (List.length msgs) <= index)%Z -> st' = st)
  /\ ((0 <= index < Z.of_nat (List.length msgs))%Z ->
      get_recurring_messages st' chat_id
      = firstn (Z.to_nat index) msgs ++ skipn (S (Z.to_nat index)) msgs
      /\ S (List.length (get_recurring_messages st' chat_id)) = List.length msgs
      /\ (forall chat', chat' <> chat_id ->
            get_recurring_messages st' chat' = get_recurring_messages st chat')
      /\ file st' = Some (data st')).
Proof.
  intros msgs st'. subst st'. split; [apply remove_recurring_outside|].
  intros In1. rewrite (remove_recurring_inside st chat_id index In1). fold msgs.
  destruct (list_pop_split msgs (Z.to_nat index) ltac:(lia)) as [E Len].
  rewrite get_recurring_after_set, String.eqb_refl.
  split; [exact E | split; [exact Len | split; [|reflexivity]]].
  intros chat' N. rewrite get_recurring_after_set.
  apply String.eqb_neq in N. now rewrite N.
Qed.

Lemma X1_remove_recurring_message_bounds_witness :
  get_recurring_messages (remove_recurring_message sched_store "-100123" 0) "-100123"
  = [untyped_item]
  /\ remove_recurring_message sched_store "-100123" 2 = sched_store
  /\ remove_recurring_message sched_store "-100123" (-1) = sched_store
  /\ remove_recurring_message sched_store "-100999" 0 = sched_store.
Proof.
  pose proof (X1_remove_recurring_message_bounds sched_store "-100123" 0) as P0.
  pose proof (X1_remove_recurring_message_bounds sched_store "-100123" 2) as P2.
  pose proof (X1_remove_recurring_message_bounds sched_store "-100123" (-1)) as Pm.
  pose proof (X1_remove_recurring_message_bounds sched_store "-100999" 0) as Pu.
  cbv zeta in *.
  destruct P0 as [_ P0], P2 as [P2 _], Pm as [Pm _], Pu as [Pu _].
  split; [| split; [| split]].
  - destruct P0 as (E & _); [vm_compute; split; [discriminate | reflexivity]|].
    rewrite E. reflexivity.
  - apply P2. right. vm_compute. discriminate.
  - apply Pm. left. reflexivity.
  - apply Pu. right. vm_compute. discriminate.
Defined.

Lemma get_links_after_set (st : BotStorage) (c c' : string) (v : bool) :
  get_block_links (set_block_links st c v) c'
  = if String.eqb c' c then v else get_block_links st c'.
Proof.
  unfold get_block_links, set_block_links, Dict.get_default. simpl.
  destruct (String.eqb_spec c' c) as [-> | N].
  - now rewrite dict_get_set_same.
  - now rewrite dict_get_set_other.
Qed.

Lemma get_mentions_after_set (st : BotStorage) (c c' : string) (v : bool) :
  get_block_mentions (set_block_mentions st c v) c'
  = if String.eqb c' c then v else get_block_mentions st c'.
Proof.
  unfold get_block_mentions, set_block_mentions, Dict.get_default. simpl.
  destruct (String.eqb_spec c' c) as [-> | N].
  - now rewrite dict_get_set_same.
  - now rewrite dict_get_set_other.
Qed.

(** X2. The two flags of a chat: what was set is what is read; the
    flags of the other chats and the flag of the other kind stay; a chat
    without an entry reads as off; setting a flag touches neither the
    words, the auto-replies nor the recurring messages, and saves. *)
Theorem X2_block_flags (st : BotStorage) (c c' : string) (v : bool) :
  get_block_links (set_block_links st c v) c = v
  /\ get_block_mentions (set_block_mentions st c v) c = v
  /\ (c' <> c ->
      get_block_links (set_block_links st c v) c' = get_block_links st c'
      /\ get_block_mentions (set_block_mentions st c v) c' = get_block_mentions st c')
  /\ get_block_mentions (set_block_links st c v) c' = get_block_mentions st c'
  /\ get_block_links (set_block_mentions st c v) c' = get_block_links st c'
  /\ (Dict.get c (block_links (data st)) = None -> get_block_links st c = false)
  /\ (Dict.get c (block_mentions (data st)) = None -> get_block_mentions st c = false)
  /\ (banned_words (data (set_block_links st c v)) = banned_words (data st)
      /\ auto_replies (data (set_block_links st c v)) = auto_replies (data st)
      /\ recurring_messages (data (set_block_links st c v)) = recurring_messages (data st))
  /\ (banned_words (data (set_block_mentions st c v)) = banned_words (data st)
      /\ auto_replies (data (set_block_mentions st c v)) = auto_replies (data st)
      /\ recurring_messages (data (set_block_mentions st c v))
         = recurring_messages (data st))
  /\ file (set_block_links st c v) = Some (data (set_block_links st c v))
  /\ file (set_block_mentions st c v) = Some (data (set_block_mentions st c v)).
Proof.
  rewrite !get_links_after_set, !get_mentions_after_set, String.eqb_refl.
  split; [reflexivity | split; [reflexivity | split]].
  { intros N. apply String.eqb_neq in N. now rewrite N. }
  split; [reflexivity | split; [reflexivity | split]].
  { unfold get_block_links, Dict.get_default. now intros ->. }
  split.
  { unfold get_block_mentions, Dict.get_default. now intros ->. }
  repeat split.
Qed.

(** ** Callback buttons *)

Lemma remove_all_from_skip (old x s : string) :
  remove_all_from old (String.length x) (x ++ s) = remove_all_from old 0 s.
Proof. induction x as [|c x IH]; simpl; [reflexivity | exact IH]. Qed.

(** A text without the first character of [old] holds no [old]. *)
Lemma remove_all_absent (a : ascii) (old' s : string) :
  PyStr.has_char a s = false -> remove_all_from (String a old') 0 s = s.
Proof.
  induction s as [|c s IH]; simpl; [reflexivity|].
  intros H. apply orb_false_iff in H as [Hc Hs].
  rewrite Ascii.eqb_sym in Hc. rewrite Hc. simpl. now rewrite IH.
Qed.

Lemma starts_with_self (p s : string) : PyStr.starts_with p (p ++ s) = true.
Proof.
  induction p as [|a p IH]; simpl; [reflexivity|]. now rewrite Ascii.eqb_refl.
Qed.

(** The chat of a menu button is read back from its callback data. *)
Lemma remove_all_prefix (a : ascii) (old' s : string) :
  PyStr.has_char a s = false ->
  remove_all (String a old') (String a old' ++ s) = s.
Proof.
  intros H. unfold remove_all.
  change (remove_all_from (String a old') 0 (String a old' ++ s))
    with (if PyStr.starts_with (String a old') (String a old' ++ s)
          then remove_all_from (String a old') (String.length (String a old') - 1)
                 (old' ++ s)
          else String a (remove_all_from (String a old') 0 (old' ++ s))).
  rewrite starts_with_self.
  replace (String.length (String a old') - 1)%nat with (String.length old')
    by (simpl; lia).
  rewrite remove_all_from_skip. now apply remove_all_absent.
Qed.

Lemma dict_set_in {K V} `{KeyEqLaws K} (k : K) (v : V) (d : dict K V) :
  In (k, v) (Dict.set k v d).
Proof.
  induction d as [|[k' v'] d IH]; simpl; [now left|].
  destruct (keqb k k') eqn:E.
  - apply keqb_eq in E as <-. now left.
  - now right.
Qed.

Lemma button_callback_toggle_links (b : Bot) (user_id : Z) (c : string) :
  button_callback b user_id ("toggle_links_" ++ c)
  = (with_storage b (toggle_link_blocking (storage b) ("toggle_links_" ++ c)),
     [ToastLinks
        (negb (get_block_links (storage b)
                 (remove_all "toggle_links_" ("toggle_links_" ++ c))));
      LinksMenu
        (links_menu_buttons (toggle_link_blocking (storage b) ("toggle_links_" ++ c)))],
     false).
Proof. reflexivity. Qed.

Lemma button_callback_toggle_mentions (b : Bot) (user_id : Z) (c : string) :
  button_callback b user_id ("toggle_mentions_" ++ c)
  = (with_storage b (toggle_mention_blocking (storage b) ("toggle_mentions_" ++ c)),
     [ToastMentions
        (negb (get_block_mentions (storage b)
                 (remove_all "toggle_mentions_" ("toggle_mentions_" ++ c))));
      MentionsMenu
        (mentions_menu_buttons
           (toggle_mention_blocking (storage b) ("toggle_mentions_" ++ c)))],
     false).
Proof. reflexivity. Qed.

(** X3. A press on the button that [show_links_menu] draws for a chat
    (whose identifier holds no letter t) flips the link flag of that
    chat, for whoever presses it: no admin check is made. The other chats
    and the mention flags stay, the document is saved, the chat is listed
    in the menu drawn afterwards, and a second press restores the flag.
    The same holds for the buttons of [show_mentions_menu]. *)
Theorem X3_toggle_buttons (b : Bot) (user_id : Z) (c : string) :
  PyStr.has_char "t" c = false ->
  let links1 := fst (fst (button_callback b user_id ("toggle_links_" ++ c))) in
  let links2 := fst (fst (button_callback links1 user_id ("toggle_links_" ++ c))) in
  let mentions1 := fst (fst (button_callback b user_id ("toggle_mentions_" ++ c))) in
  let mentions2 :=
    fst (fst (button_callback mentions1 user_id ("toggle_mentions_" ++ c))) in
  (get_block_links (storage links1) c = negb (get_block_links (storage b) c)
   /\ get_block_links (storage links2) c = get_block_links (storage b) c
   /\ (forall c', c' <> c ->
         get_block_links (storage links1) c' = get_block_links (storage b) c')
   /\ (forall c', get_block_mentions (storage links1) c'
                  = get_block_mentions (storage b) c')
   /\ file (storage links1) = Some (data (storage links1))
   /\ In ("toggle_links_" ++ c)%string (links_menu_buttons (storage links1)))
  /\ (get_block_mentions (storage mentions1) c = negb (get_block_mentions (storage b) c)
      /\ get_block_mentions (storage mentions2) c = get_block_mentions (storage b) c
      /\ (forall c', c' <> c ->
            get_block_mentions (storage mentions1) c'
            = get_block_mentions (storage b) c')
      /\ (forall c', get_block_links (storage mentions1) c'
                     = get_block_links (storage b) c')
      /\ file (storage mentions1) = Some (data (storage mentions1))
      /\ In ("toggle_mentions_" ++ c)%string (mentions_menu_buttons (storage mentions1))).
Proof.
  intros T links1 links2 mentions1 mentions2.
  subst links2 mentions2 links1 mentions1.
  rewrite !button_callback_toggle_links, !button_callback_toggle_mentions.
  cbn [fst storage with_storage].
  unfold toggle_link_blocking, toggle_mention_blocking.
  rewrite !(remove_all_prefix "t" _ c T).
  split.
  - rewrite !get_links_after_set, String.eqb_refl, negb_involutive.
    split; [reflexivity | split; [reflexivity | split]].
    { intros c' N. rewrite get_links_after_set. apply String.eqb_neq in N. now rewrite N. }
    split; [reflexivity | split; [reflexivity|]].
    unfold links_menu_buttons, set_block_links. simpl.
    apply (in_map (fun e => ("toggle_links_" ++ fst e)%string) _
             (c, negb (get_block_links (storage b) c))).
    apply dict_set_in.
  - rewrite !get_mentions_after_set, String.eqb_refl, negb_involutive.
    split; [reflexivity | split; [reflexivity | split]].
    { intros c' N. rewrite get_mentions_after_set. apply String.eqb_neq in N.
      now rewrite N. }
    split; [reflexivity | split; [reflexivity|]].
    unfold mentions_menu_buttons, set_block_mentions. simpl.
    apply (in_map (fun e => ("toggle_mentions_" ++ fst e)%string) _
             (c, negb (get_block_mentions (storage b) c))).
    apply dict_set_in.
Qed.

Lemma X3_toggle_buttons_witness :
  get_block_links
    (storage (fst (fst (button_callback empty_bot 99%Z "toggle_links_-100123"))))
    "-100123" = true
  /\ get_block_links
       (storage
          (fst (fst (button_callback
                       (fst (fst (button_callback empty_bot 99%Z "toggle_links_-100123")))
                       99%Z "toggle_links_-100123"))))
       "-100123" = false.
Proof.
  pose proof (X3_toggle_buttons empty_bot 99%Z "-100123" eq_refl) as P.
  cbv zeta in P. destruct P as ((P1 & P2 & _) & _).
  split; [exact P1 | exact P2].
Defined.

Lemma split_without_sep (sep : ascii) (s : string) :
  PyStr.has_char sep s = false -> PyStr.split sep s = [s].
Proof.
  induction s as [|c s IH]; simpl; [reflexivity|].
  intros H. apply orb_false_iff in H as [Hc Hs]. now rewrite Hc, (IH Hs).
Qed.

Lemma split_at_sep (sep : ascii) (a b : string) :
  PyStr.has_char sep a = false ->
  PyStr.split sep (a ++ String sep b) = a :: PyStr.split sep b.
Proof.
  induction a as [|c a IH]; simpl.
  - intros _. now rewrite Ascii.eqb_refl.
  - intros H. apply orb_false_iff in H as [Hc Ha]. now rewrite Hc, (IH Ha).
Qed.

Lemma none_of_has_char (a : ascii) (p : ascii -> bool) (s : string) :
  p a = true -> none_of p s = true -> PyStr.has_char a s = false.
Proof.
  intros Pa. induction s as [|c s IH]; simpl; [reflexivity|].
  intros N. apply andb_true_iff in N as [Nc Ns]. rewrite (IH Ns), orb_false_r.
  apply negb_true_iff in Nc. destruct (Ascii.eqb_spec c a) as [-> | _]; congruence.
Qed.

Lemma of_Z_no_underscore (n : Z) : PyStr.has_char "_" (PyStr.of_Z n) = false.
Proof.
  apply (none_of_has_char "_" (fun c => negb (is_numeral_char c)));
    [reflexivity | apply of_Z_numeral].
Qed.

Lemma delete_button_parts (c : string) (i : nat) :
  PyStr.has_char "_" c = false ->
  PyStr.split "_" (delete_button_data (Some c) i)
  = ["delrec"; c; PyStr.of_Z (Z.of_nat i)].
Proof.
  intros H. unfold delete_button_data, key_text.
  change ("delrec_" ++ c ++ "_" ++ PyStr.of_Z (Z.of_nat i))%string
    with ("delrec" ++ String "_" (c ++ String "_" (PyStr.of_Z (Z.of_nat i))))%string.
  rewrite split_at_sep by reflexivity.
  rewrite split_at_sep by assumption.
  now rewrite split_without_sep by apply of_Z_no_underscore.
Qed.

Lemma button_callback_delrec (b : Bot) (user_id : Z) (rest : string) :
  button_callback b user_id ("delrec_" ++ rest)
  = match delete_recurring_from_button (storage b) ("delrec_" ++ rest) with
    | Some st =>
        (with_storage b st, ToastDeleted :: fst (show_recurring_list st),
         snd (show_recurring_list st))
    | None => (b, [], true)
    end.
Proof. reflexivity. Qed.

(** X4. The delete button that [show_recurring_list] draws for item
    [i] of a chat (whose identifier holds no underscore) is read back by
    [delete_recurring_from_button] as that chat and that index: a press
    removes exactly item [i] when there is one and changes nothing
    otherwise, for whoever presses it. The removal is answered and the
    list is drawn again, unless an item that is left has no text: then
    the handler raises after the removal, which stays. The button of an
    item stored under the key [None] names the chat "None" and removes
    nothing when no such chat exists. *)
Theorem X4_delete_button_round_trip (b : Bot) (user_id : Z) (c : string) (i : nat) :
  PyStr.has_char "_" c = false ->
  let msgs := get_recurring_messages (storage b) c in
  let st' := remove_recurring_message (storage b) c (Z.of_nat i) in
  fst (fst (button_callback b user_id (delete_button_data (Some c) i)))
  = with_storage b st'
  /\ (has_textless st' = false ->
      button_callback b user_id (delete_button_data (Some c) i)
      = (with_storage b st',
         [ToastDeleted; RecurringList (recurring_list_buttons st')], false))
  /\ (has_textless st' = true ->
      button_callback b user_id (delete_button_data (Some c) i)
      = (with_storage b st', [ToastDeleted], true))
  /\ ((i < List.length msgs)%nat ->
      get_recurring_messages st' c = firstn i msgs ++ skipn (S i) msgs)
  /\ ((List.length msgs <= i)%nat -> st' = storage b)
  /\ (Dict.get (Some "None") (recurring_messages (data (storage b))) = None ->
      delete_recurring_from_button (storage b) (delete_button_data None i)
      = Some (storage b)).
Proof.
  intros H msgs st'.
  assert (delete_recurring_from_button (storage b) (delete_button_data (Some c) i)
          = Some st') as D.
  { unfold delete_recurring_from_button.
    now rewrite (delete_button_parts c i H), to_int_of_Z. }
  assert (button_callback b user_id (delete_button_data (Some c) i)
          = (with_storage b st', ToastDeleted :: fst (show_recurring_list st'),
             snd (show_recurring_list st'))) as E.
  { unfold delete_button_data, key_text in *.
    now rewrite button_callback_delrec, D. }
  split; [now rewrite E|].
  split; [intros T; rewrite E; unfold show_recurring_list; now rewrite T|].
  split; [intros T; rewrite E; unfold show_recurring_list; now rewrite T|].
  split; [| split].
  - intros L. subst st'.
    rewrite remove_recurring_inside by (fold msgs; lia).
    rewrite get_recurring_after_set, String.eqb_refl, Nat2Z.id. fold msgs.
    now apply list_pop_split.
  - intros L. apply remove_recurring_outside. fold msgs. lia.
  - intros G. unfold delete_recurring_from_button.
    change (delete_button_data None i) with (delete_button_data (Some "None") i).
    rewrite (delete_button_parts "None" i eq_refl), to_int_of_Z.
    f_equal. unfold remove_recurring_message. now rewrite G.
Qed.

Lemma X4_delete_button_round_trip_witness :
  delete_button_data (Some "-100123") 1 = "delrec_-100123_1"
  /\ get_recurring_messages
       (storage (fst (fst (button_callback
                             {| storage := sched_store; user_state := [] |} 99%Z
                             (delete_button_data (Some "-100123") 1)))))
       "-100123" = [hello_item]
  /\ button_callback {| storage := sched_store; user_state := [] |} 99%Z
       (delete_button_data (Some "-100123") 0)
     = (with_storage {| storage := sched_store; user_state := [] |}
          (remove_recurring_message sched_store "-100123" 0),
        [ToastDeleted], true).
Proof.
  pose proof (X4_delete_button_round_trip {| storage := sched_store; user_state := [] |}
                99%Z "-100123" 1 eq_refl) as P.
  pose proof (X4_delete_button_round_trip {| storage := sched_store; user_state := [] |}
                99%Z "-100123" 0 eq_refl) as Q.
  cbv zeta in P, Q. destruct P as (P1 & _ & _ & P4 & _). destruct Q as (_ & _ & Q3 & _).
  split; [reflexivity|].
  split; [rewrite P1; exact (P4 ltac:(vm_compute; lia))|].
  apply Q3. reflexivity.
Defined.

(** ** Commands *)

(** X5. The gate of the eight commands. Sent as a message outside a
    private chat, a command is only answered by the request to use the
    private chat and changes nothing. Sent in an update without a message
    (a command in an edited message), the test of the chat is passed
    over: the storage becomes what the command makes of it in a private
    chat, no answer is sent and the handler raises; [/addword] from an
    admin of the group stores the word in this way. In every case the
    storage stays as it is when the sender is admin of no group. *)
Theorem X5_commands_are_gated (is_admin : Z -> bool) (st : BotStorage)
    (message : option bool) (args : list string)
    (cmd : (Z -> bool) -> BotStorage -> option bool -> list string -> CommandRun) :
  In cmd [add_word; del_word; list_words; add_reply; del_reply; list_replies;
          set_links_command; set_mentions_command] ->
  cmd is_admin st (Some false) args = (st, [CmdUsePrivate], false)
  /\ cmd is_admin st None args
     = (fst (fst (cmd is_admin st (Some true) args)), [], true)
  /\ ((forall n, is_admin n = false) -> fst (fst (cmd is_admin st message args)) = st)
  /\ (forall id ws n,
        PyStr.to_int id = Some n -> is_admin n = true ->
        add_word is_admin st None (id :: ws)
        = (add_banned_word st id (join " " ws), [], true)).
Proof.
  intros I. simpl in I. split; [|split; [|split]].
  - repeat (destruct I as [<- | I]; [reflexivity|]). destruct I.
  - repeat (destruct I as [<- | I]; [reflexivity|]). destruct I.
  - intros NA.
    repeat (destruct I as [<- | I];
            [unfold add_word, del_word, list_words, add_reply, del_reply, list_replies,
               set_links_command, set_mentions_command, admin_only;
             destruct message as [[|]|]; simpl; try reflexivity;
             repeat match goal with
                    | |- context [match ?x with _ => _ end] =>
                        match x with
                        | is_admin ?n => rewrite (NA n)
                        | _ => destruct x eqn:?
                        end; simpl
                    end;
             reflexivity|]).
    destruct I.
  - intros id ws n E A. unfold add_word, admin_only. now rewrite E, A.
Qed.

Lemma X5_commands_are_gated_witness :
  fst (fst (add_word (fun _ => false) guarded_store (Some true) ["-100123"; "scam"]))
  = guarded_store
  /\ set_links_command (fun _ => true) guarded_store (Some false) ["-100123"; "off"]
     = (guarded_store, [CmdUsePrivate], false)
  /\ add_word (fun _ => true) new_storage None ["-100123"; "scam"]
     = (add_banned_word new_storage "-100123" "scam", [], true).
Proof.
  pose proof (X5_commands_are_gated (fun _ => false) guarded_store (Some true)
                ["-100123"; "scam"] add_word (or_introl eq_refl)) as P.
  pose proof (X5_commands_are_gated (fun _ => true) guarded_store None
                ["-100123"; "off"] set_links_command
                (or_intror (or_intror (or_intror (or_intror (or_intror (or_intror
                   (or_introl eq_refl)))))))) as Q.
  pose proof (X5_commands_are_gated (fun _ => true) new_storage None
                ["-100123"; "scam"] add_word (or_introl eq_refl)) as R.
  destruct P as (_ & _ & P & _). destruct Q as (Q & _). destruct R as (_ & _ & _ & R).
  split; [apply P; reflexivity | split; [exact Q|]].
  exact (R "-100123" ["scam"] (-100123)%Z eq_refl eq_refl).
Defined.

Lemma add_banned_word_frame (st : BotStorage) (c word : string) :
  block_links (data (add_banned_word st c word)) = block_links (data st)
  /\ block_mentions (data (add_banned_word st c word)) = block_mentions (data st)
  /\ auto_replies (data (add_banned_word st c word)) = auto_replies (data st)
  /\ recurring_messages (data (add_banned_word st c word)) = recurring_messages (data st)
  /\ temp_messages (add_banned_word st c word) = temp_messages st.
Proof.
  unfold add_banned_word.
  destruct (negb (str_in _ _)); simpl; repeat split.
Qed.

Lemma get_after_add_other (st : BotStorage) (c c' word : string) :
  c' <> c ->
  get_banned_words (add_banned_word st c word) c' = get_banned_words st c'.
Proof.
  intros N. unfold add_banned_word, get_banned_words, Dict.get_default.
  destruct (Dict.mem c (banned_words (data st)));
    destruct (negb (str_in _ _)); simpl;
    rewrite ?(dict_get_set_other c c' _ _ N); reflexivity.
Qed.

(** The three checks read the two flags and the words of the chat and
    nothing else. *)
Lemma deletion_check_reads (st st' : BotStorage) (c text : string) :
  get_block_links st' c = get_block_links st c ->
  get_block_mentions st' c = get_block_mentions st c ->
  get_banned_words st' c = get_banned_words st c ->
  deletion_check st' c text = deletion_check st c text.
Proof. unfold deletion_check. now intros -> -> ->. Qed.

Lemma banned_word_deletes (st : BotStorage) (c text w : string) :
  In w (get_banned_words st c) ->
  PyStr.contains w (PyStr.lower text) = true ->
  exists reason, deletion_check st c text = Some reason.
Proof.
  intros I C. rewrite deletion_check_cascade.
  assert (word_found st c text = true) as ->.
  { unfold word_found. apply existsb_exists. now exists w. }
  destruct (link_found st c text), (mention_found st c text); eauto.
Qed.

Lemma lower_word_in_after_add (st : BotStorage) (c word : string) :
  Forall (fun w => PyStr.lower w = w) (get_banned_words st c) ->
  In (PyStr.lower word) (get_banned_words (add_banned_word st c word) c).
Proof.
  intros F. rewrite get_after_add, (map_lower_normal _ F).
  destruct (str_in _ _) eqn:E.
  - now apply str_in_spec.
  - apply in_or_app. right. now left.
Qed.

Lemma empty_word_in_after_add (st : BotStorage) (c : string) :
  In "" (get_banned_words (add_banned_word st c "") c).
Proof.
  rewrite get_after_add. simpl.
  destruct (str_in "" (map PyStr.lower (get_banned_words st c))) eqn:E.
  - apply str_in_spec, in_map_iff in E as (w & Lw & I).
    apply lower_eq_empty in Lw. now subst.
  - apply in_or_app. right. now left.
Qed.

(** X6. [/addword <id> <words...>] from an admin of the group stores
    the words joined by spaces under the identifier as it was typed. When
    that is the canonical text of the integer (and the stored words are in
    lower case) every later message of the group that holds the word in
    any letter case is deleted for a non-admin; with no word at all the
    empty word is stored and every message is deleted. When the
    identifier was typed in another way (a plus sign, an underscore, ...)
    the filter of the group is not changed. *)
Theorem X6_add_word_reaches_filter (is_admin : Z -> bool) (st : BotStorage)
    (id : string) (ws : list string) (n : Z) :
  PyStr.to_int id = Some n ->
  is_admin n = true ->
  let word := join " " ws in
  let st' := fst (fst (add_word is_admin st (Some true) (id :: ws))) in
  add_word is_admin st (Some true) (id :: ws)
  = (add_banned_word st id word, [CmdWordAdded word id], false)
  /\ (id = PyStr.of_Z n ->
      Forall (fun w => PyStr.lower w = w) (get_banned_words st id) ->
      forall text, PyStr.contains (PyStr.lower word) (PyStr.lower text) = true ->
                   exists reason, deletion_check st' (PyStr.of_Z n) text = Some reason)
  /\ (id = PyStr.of_Z n -> ws = [] ->
      forall text, exists reason, deletion_check st' (PyStr.of_Z n) text = Some reason)
  /\ (id <> PyStr.of_Z n ->
      forall text, deletion_check st' (PyStr.of_Z n) text
                   = deletion_check st (PyStr.of_Z n) text).
Proof.
  intros P A word st'.
  assert (add_word is_admin st (Some true) (id :: ws)
          = (add_banned_word st id word, [CmdWordAdded word id], false)) as E.
  { unfold add_word, admin_only. simpl. now rewrite P, A. }
  subst st'. rewrite E. cbn [fst].
  split; [reflexivity | split; [| split]].
  - intros <- F text C. apply (banned_word_deletes _ _ _ (PyStr.lower word)); [|assumption].
    now apply lower_word_in_after_add.
  - intros <- -> text. apply (banned_word_deletes _ _ _ ""); [|now destruct (PyStr.lower text)].
    apply empty_word_in_after_add.
  - intros N text.
    destruct (add_banned_word_frame st id word) as (L & M & _).
    apply deletion_check_reads.
    + unfold get_block_links. now rewrite L.
    + unfold get_block_mentions. now rewrite M.
    + apply get_after_add_other. congruence.
Qed.

Lemma X6_add_word_reaches_filter_witness :
  (exists reason,
      deletion_check
        (fst (fst (add_word (fun _ => true) new_storage (Some true) ["-100123"; "Free"; "Money"])))
        "-100123" "get FREE MONEY now" = Some reason)
  /\ (exists reason,
        deletion_check (fst (fst (add_word (fun _ => true) new_storage (Some true) ["-100123"])))
          "-100123" "good morning" = Some reason)
  /\ deletion_check
       (fst (fst (add_word (fun _ => true) new_storage (Some true) ["-100_123"; "free"])))
       "-100123" "free" = deletion_check new_storage "-100123" "free".
Proof.
  pose proof (X6_add_word_reaches_filter (fun _ => true) new_storage "-100123"
                ["Free"; "Money"] (-100123)%Z eq_refl eq_refl) as P.
  pose proof (X6_add_word_reaches_filter (fun _ => true) new_storage "-100123"
                [] (-100123)%Z eq_refl eq_refl) as Q.
  pose proof (X6_add_word_reaches_filter (fun _ => true) new_storage "-100_123"
                ["free"] (-100123)%Z eq_refl eq_refl) as R.
  cbv zeta in P, Q, R.
  destruct P as (_ & P & _), Q as (_ & _ & Q & _), R as (_ & _ & _ & R).
  split; [| split].
  - apply (P eq_refl); [constructor | vm_compute; reflexivity].
  - apply (Q eq_refl eq_refl).
  - apply R. discriminate.
Defined.

Lemma get_replies_after_add (st : BotStorage) (c c' trigger reply : string) :
  get_auto_replies (add_auto_reply st c trigger reply) c'
  = if String.eqb c' c
    then Dict.set (PyStr.lower trigger) reply (get_auto_replies st c)
    else get_auto_replies st c'.
Proof.
  unfold add_auto_reply, get_auto_replies, Dict.get_default, Dict.mem.
  cbn [data save_data with_data set_replies auto_replies].
  destruct (String.eqb_spec c' c) as [-> | N].
  - rewrite dict_get_set_same.
    destruct (Dict.get c (auto_replies (data st))) eqn:G; [now rewrite G|].
    now rewrite dict_get_set_same.
  - rewrite (dict_get_set_other c c' _ _ N).
    destruct (Dict.get c (auto_replies (data st))); [reflexivity|].
    now rewrite (dict_get_set_other c c' _ _ N).
Qed.

Lemma get_replies_after_remove (st : BotStorage) (c trigger : string) :
  get_auto_replies (remove_auto_reply st c trigger) c
  = Dict.remove (PyStr.lower trigger) (get_auto_replies st c).
Proof.
  unfold remove_auto_reply, get_auto_replies, Dict.get_default.
  destruct (Dict.get c (auto_replies (data st))) as [m|] eqn:G; simpl.
  - now rewrite dict_get_set_same.
  - now rewrite G.
Qed.

Lemma dict_set_length_present {K V} `{KeyEqLaws K} (k : K) (v v0 : V) (d : dict K V) :
  Dict.get k d = Some v0 -> List.length (Dict.set k v d) = List.length d.
Proof.
  induction d as [|[k' v'] d IH]; simpl; [discriminate|].
  destruct (keqb k k'); simpl; [reflexivity|]. intros G. now rewrite IH.
Qed.

(** A trigger that occurs in the text makes the loop find a reply. *)
Lemma trigger_found_replies (d : dict string string) (k v t : string) :
  Dict.get k d = Some v -> PyStr.contains k t = true ->
  exists reply, first_auto_reply d t = Some reply.
Proof.
  intros G C. destruct (first_auto_reply d t) as [r|] eqn:F; [now exists r|].
  rewrite first_auto_reply_none in F. exfalso.
  assert (In (k, v) d) as I.
  { clear F C. induction d as [|[k' v'] d IH]; simpl in *; [discriminate|].
    destruct (String.eqb_spec k k') as [-> | N].
    - injection G as ->. now left.
    - right. now apply IH. }
  rewrite (F _ _ I) in C. discriminate.
Qed.

(** X7. The auto-replies of a chat: after [add_auto_reply] the trigger
    is found in lower case with its reply, the other triggers and the
    other chats stay, and the document is saved; giving a new reply to a
    stored trigger, in any letter case, does not add an entry; removing
    the trigger in any letter case leaves no entry for it. *)
Theorem X7_auto_reply_store (st : BotStorage) (c trigger reply : string) :
  let st' := add_auto_reply st c trigger reply in
  Dict.get (PyStr.lower trigger) (get_auto_replies st' c) = Some reply
  /\ (forall k, k <> PyStr.lower trigger ->
        Dict.get k (get_auto_replies st' c) = Dict.get k (get_auto_replies st c))
  /\ (forall c', c' <> c -> get_auto_replies st' c' = get_auto_replies st c')
  /\ file st' = Some (data st')
  /\ (forall old, Dict.get (PyStr.lower trigger) (get_auto_replies st c) = Some old ->
        List.length (get_auto_replies st' c) = List.length (get_auto_replies st c))
  /\ (forall trigger', PyStr.lower trigger' = PyStr.lower trigger ->
        Dict.get (PyStr.lower trigger)
          (get_auto_replies (remove_auto_reply st' c trigger') c) = None).
Proof.
  intros st'. subst st'.
  split; [| split; [| split; [| split; [| split]]]].
  - rewrite get_replies_after_add, String.eqb_refl. apply dict_get_set_same.
  - intros k N. rewrite get_replies_after_add, String.eqb_refl.
    now apply dict_get_set_other.
  - intros c' N. rewrite get_replies_after_add. apply String.eqb_neq in N. now rewrite N.
  - reflexivity.
  - intros old G. rewrite get_replies_after_add, String.eqb_refl.
    now apply (dict_set_length_present _ _ old).
  - intros trigger' E. rewrite get_replies_after_remove, E. apply dict_get_remove_same.
Qed.

Lemma split_once_app (sep : ascii) (a b : string) :
  PyStr.has_char sep a = false ->
  PyStr.split_once sep (a ++ String sep b) = Some (a, b).
Proof.
  induction a as [|c a IH]; simpl.
  - intros _. now rewrite Ascii.eqb_refl.
  - intros H. apply orb_false_iff in H as [Hc Ha]. now rewrite Hc, (IH Ha).
Qed.

Lemma split_once_join (id x : string) (xs : list string) :
  PyStr.has_char " " id = false ->
  PyStr.split_once " " (join " " (id :: x :: xs)) = Some (id, join " " (x :: xs)).
Proof.
  intros H.
  change (join " " (id :: x :: xs)) with (id ++ String " " (join " " (x :: xs)))%string.
  now apply split_once_app.
Qed.

(** X8. [/addreply <id> <trigger> | <reply>] from an admin of the
    group: the arguments after the identifier are joined again and cut at
    the first bar, both sides are stripped, and the reply is stored under
    the lower-cased trigger; from then on every message of the chat
    stored under that identifier which holds the trigger, in any letter
    case, is answered. Without a bar, or with the identifier alone,
    nothing is stored and the usage is shown. *)
Theorem X8_add_reply_command (is_admin : Z -> bool) (st : BotStorage)
    (id x : string) (xs : list string) (n : Z) :
  PyStr.has_char " " id = false ->
  PyStr.to_int id = Some n ->
  is_admin n = true ->
  let rest := join " " (x :: xs) in
  (forall t r, PyStr.split_once "|" rest = Some (t, r) ->
     let st' := add_auto_reply st id (PyStr.strip t) (PyStr.strip r) in
     add_reply is_admin st (Some true) (id :: x :: xs)
     = (st', [CmdReplyAdded (PyStr.strip t) (PyStr.strip r) id], false)
     /\ Dict.get (PyStr.lower (PyStr.strip t)) (get_auto_replies st' id)
        = Some (PyStr.strip r)
     /\ forall text,
          PyStr.contains (PyStr.lower (PyStr.strip t)) (PyStr.lower text) = true ->
          exists reply, first_auto_reply (get_auto_replies st' id) (PyStr.lower text)
                        = Some reply)
  /\ (PyStr.has_char "|" rest = false ->
      add_reply is_admin st (Some true) (id :: x :: xs) = (st, [CmdUsage], false))
  /\ add_reply is_admin st (Some true) [id] = (st, [CmdUsage], false)
  /\ add_reply is_admin st (Some true) [] = (st, [CmdUsage], false).
Proof.
  intros H P A rest.
  assert (forall t r, PyStr.split_once "|" rest = Some (t, r) ->
            PyStr.has_char "|" rest = true) as Bar.
  { intros t r S. destruct (PyStr.has_char "|" rest) eqn:B; [reflexivity|].
    rewrite (split_once_none _ _ B) in S. discriminate. }
  split; [| split; [| split]].
  - intros t r S st'.
    assert (Dict.get (PyStr.lower (PyStr.strip t)) (get_auto_replies st' id)
            = Some (PyStr.strip r)) as G.
    { subst st'. rewrite get_replies_after_add, String.eqb_refl. apply dict_get_set_same. }
    split; [| split; [exact G|]].
    + unfold add_reply, admin_only. cbn [negb].
      rewrite (split_once_join id x xs H). fold rest.
      now rewrite (Bar t r S), S, P, A.
    + intros text C. now apply (trigger_found_replies _ _ _ _ G).
  - intros B. unfold add_reply, admin_only. cbn [negb].
    rewrite (split_once_join id x xs H). fold rest. now rewrite B.
  - unfold add_reply, admin_only. cbn [negb join].
    now rewrite (split_once_none " " id H).
  - reflexivity.
Qed.

Lemma X8_add_reply_command_witness :
  add_reply (fun _ => true) new_storage (Some true) ["-100123"; "Price"; "|"; "It"; "is"; "free"]
  = (add_auto_reply new_storage "-100123" "Price" "It is free",
     [CmdReplyAdded "Price" "It is free" "-100123"], false)
  /\ add_reply (fun _ => true) new_storage (Some true) ["-100123"; "Price"; "It"; "is"; "free"]
     = (new_storage, [CmdUsage], false).
Proof.
  pose proof (X8_add_reply_command (fun _ => true) new_storage "-100123" "Price"
                ["|"; "It"; "is"; "free"] (-100123)%Z eq_refl eq_refl eq_refl) as P.
  pose proof (X8_add_reply_command (fun _ => true) new_storage "-100123" "Price"
                ["It"; "is"; "free"] (-100123)%Z eq_refl eq_refl eq_refl) as Q.
  cbv zeta in P, Q. destruct P as (P & _), Q as (_ & Q & _).
  split.
  - destruct (P "Price " " It is free" eq_refl) as (P1 & _). exact P1.
  - apply Q. reflexivity.
Defined.

Lemma links_on_deletes (st : BotStorage) (c text : string) :
  get_block_links st c = true ->
  Re.search url_pattern text = true ->
  deletion_check st c text = Some links.
Proof.
  intros L U. rewrite deletion_check_cascade. unfold link_found. now rewrite L, U.
Qed.

Lemma links_off_keeps (st : BotStorage) (c text : string) :
  get_block_links st c = false -> deletion_check st c text <> Some links.
Proof.
  intros L. rewrite deletion_check_cascade. unfold link_found. rewrite L. simpl.
  destruct (mention_found st c text), (word_found st c text); discriminate.
Qed.

Lemma mentions_off_keeps (st : BotStorage) (c text : string) :
  get_block_mentions st c = false -> deletion_check st c text <> Some mentions.
Proof.
  intros M. rewrite deletion_check_cascade. unfold mention_found. rewrite M. simpl.
  destruct (link_found st c text), (word_found st c text); discriminate.
Qed.

(** X9. [/setlinks <id> <token>] from an admin of the group sets the
    link flag to on exactly when the token is on, true, 1, yes or enable
    in any letter case; every other token, "off" or not, switches it off
    without an error. With the canonical identifier a message with a URL
    is then deleted for links when the flag is on and no message is
    deleted for links when it is off. Without a token the usage is shown;
    an identifier that is no integer raises out of the handler; in both
    cases nothing is stored. [/setmentions] sets the mention flag in the
    same way. *)
Theorem X9_set_flag_commands (is_admin : Z -> bool) (st : BotStorage)
    (id token : string) (more : list string) (n : Z) :
  PyStr.to_int id = Some n ->
  is_admin n = true ->
  let links' := fst (fst (set_links_command is_admin st (Some true) (id :: token :: more))) in
  let mentions' :=
    fst (fst (set_mentions_command is_admin st (Some true) (id :: token :: more))) in
  (is_on token = true <->
   In (PyStr.lower token) ["on"; "true"; "1"; "yes"; "enable"])
  /\ set_links_command is_admin st (Some true) (id :: token :: more)
     = (set_block_links st id (is_on token), [CmdLinks (is_on token) id], false)
  /\ set_mentions_command is_admin st (Some true) (id :: token :: more)
     = (set_block_mentions st id (is_on token), [CmdMentions (is_on token) id], false)
  /\ get_block_links links' id = is_on token
  /\ get_block_mentions mentions' id = is_on token
  /\ (id = PyStr.of_Z n -> is_on token = true ->
      forall text, Re.search url_pattern text = true ->
                   deletion_check links' (PyStr.of_Z n) text = Some links)
  /\ (id = PyStr.of_Z n -> is_on token = false ->
      forall text, deletion_check links' (PyStr.of_Z n) text <> Some links)
  /\ (id = PyStr.of_Z n -> is_on token = false ->
      forall text, deletion_check mentions' (PyStr.of_Z n) text <> Some mentions)
  /\ set_links_command is_admin st (Some true) [id] = (st, [CmdUsage], false)
  /\ set_mentions_command is_admin st (Some true) [id] = (st, [CmdUsage], false)
  /\ (forall bad, PyStr.to_int bad = None ->
        set_links_command is_admin st (Some true) (bad :: token :: more) = (st, [], true)
        /\ set_mentions_command is_admin st (Some true) (bad :: token :: more) = (st, [], true)).
Proof.
  intros P A links' mentions'.
  assert (set_links_command is_admin st (Some true) (id :: token :: more)
          = (set_block_links st id (is_on token), [CmdLinks (is_on token) id], false))
    as EL.
  { unfold set_links_command, admin_only. simpl. now rewrite P, A. }
  assert (set_mentions_command is_admin st (Some true) (id :: token :: more)
          = (set_block_mentions st id (is_on token), [CmdMentions (is_on token) id], false))
    as EM.
  { unfold set_mentions_command, admin_only. simpl. now rewrite P, A. }
  subst links' mentions'. rewrite EL, EM. cbn [fst].
  assert (get_block_links (set_block_links st id (is_on token)) id = is_on token) as GL.
  { now rewrite get_links_after_set, String.eqb_refl. }
  assert (get_block_mentions (set_block_mentions st id (is_on token)) id = is_on token)
    as GM.
  { now rewrite get_mentions_after_set, String.eqb_refl. }
  split; [apply str_in_spec|].
  split; [reflexivity | split; [reflexivity | split; [exact GL | split; [exact GM|]]]].
  split.
  { intros <- On text U. apply links_on_deletes; [now rewrite GL | assumption]. }
  split.
  { intros <- Off text. apply links_off_keeps. now rewrite GL. }
  split.
  { intros <- Off text. apply mentions_off_keeps. now rewrite GM. }
  split; [reflexivity | split; [reflexivity|]].
  intros bad B. unfold set_links_command, set_mentions_command, admin_only. simpl.
  now rewrite B.
Qed.

Lemma X9_set_flag_commands_witness :
  get_block_links
    (fst (fst (set_links_command (fun _ => true) new_storage (Some true) ["-100123"; "YES"])))
    "-100123" = true
  /\ get_block_links
       (fst (fst (set_links_command (fun _ => true) guarded_store (Some true)
                    ["-100123"; "disable"])))
       "-100123" = false.
Proof.
  pose proof (X9_set_flag_commands (fun _ => true) new_storage "-100123" "YES" []
                (-100123)%Z eq_refl eq_refl) as P.
  pose proof (X9_set_flag_commands (fun _ => true) guarded_store "-100123" "disable" []
                (-100123)%Z eq_refl eq_refl) as Q.
  cbv zeta in P, Q.
  destruct P as (_ & _ & _ & P & _), Q as (_ & _ & _ & Q & _).
  split; [exact P | exact Q].
Defined.

(** X10. What the commands do with arguments they cannot use, in a
    private chat: without arguments each shows its usage; with an
    identifier that is no integer [add_word] answers with the error text,
    [add_reply] with the usage, and the six others raise out of the
    handler without an answer. The storage is never changed. *)
Theorem X10_command_errors (is_admin : Z -> bool) (st : BotStorage)
    (bad x : string) (xs : list string) :
  PyStr.to_int bad = None ->
  PyStr.has_char " " bad = false ->
  (add_word is_admin st (Some true) [] = (st, [CmdUsage], false)
   /\ del_word is_admin st (Some true) [] = (st, [CmdUsage], false)
   /\ list_words is_admin st (Some true) [] = (st, [CmdUsage], false)
   /\ add_reply is_admin st (Some true) [] = (st, [CmdUsage], false)
   /\ del_reply is_admin st (Some true) [] = (st, [CmdUsage], false)
   /\ list_replies is_admin st (Some true) [] = (st, [CmdUsage], false)
   /\ set_links_command is_admin st (Some true) [] = (st, [CmdUsage], false)
   /\ set_mentions_command is_admin st (Some true) [] = (st, [CmdUsage], false))
  /\ (add_word is_admin st (Some true) (bad :: x :: xs) = (st, [CmdError], false)
      /\ add_reply is_admin st (Some true) (bad :: x :: xs) = (st, [CmdUsage], false)
      /\ del_word is_admin st (Some true) (bad :: x :: xs) = (st, [], true)
      /\ list_words is_admin st (Some true) (bad :: x :: xs) = (st, [], true)
      /\ del_reply is_admin st (Some true) (bad :: x :: xs) = (st, [], true)
      /\ list_replies is_admin st (Some true) (bad :: x :: xs) = (st, [], true)
      /\ set_links_command is_admin st (Some true) (bad :: x :: xs) = (st, [], true)
      /\ set_mentions_command is_admin st (Some true) (bad :: x :: xs) = (st, [], true)).
Proof.
  intros B H. split; [repeat split|].
  unfold add_word, add_reply, del_word, list_words, del_reply, list_replies,
    set_links_command, set_mentions_command, admin_only.
  cbn [negb]. rewrite (split_once_join bad x xs H), B.
  repeat split.
  destruct (negb (PyStr.has_char "|" (join " " (x :: xs)))); [reflexivity|].
  now destruct (PyStr.split_once "|" (join " " (x :: xs))) as [[t r]|].
Qed.

Lemma X10_command_errors_witness :
  add_word (fun _ => true) guarded_store (Some true) ["my-group"; "scam"]
  = (guarded_store, [CmdError], false)
  /\ del_word (fun _ => true) guarded_store (Some true) ["my-group"; "scam"]
     = (guarded_store, [], true).
Proof.
  pose proof (X10_command_errors (fun _ => true) guarded_store "my-group" "scam" []
                eq_refl eq_refl) as P.
  destruct P as (_ & P1 & _ & P3 & _).
  split; [exact P1 | exact P3].
Defined.

(** ** The wizard as a whole *)

Lemma wizard_frame_refl (u : Z) (b : Bot) : wizard_frame u b b.
Proof. repeat split. Qed.

Lemma wizard_frame_trans (u : Z) (b1 b2 b3 : Bot) :
  wizard_frame u b1 b2 -> wizard_frame u b2 b3 -> wizard_frame u b1 b3.
Proof.
  intros (D1 & F1 & O1) (D2 & F2 & O2).
  split; [congruence | split; [congruence|]].
  intros u' N. destruct (O1 u' N), (O2 u' N). split; congruence.
Qed.

Lemma set_state_frame (u : Z) (b : Bot) (s : option WizardState) :
  wizard_frame u b (set_state b u s).
Proof.
  split; [reflexivity | split; [reflexivity|]].
  intros u' N. split; [reflexivity|].
  unfold get_state. destruct s; simpl.
  - now apply dict_get_set_other.
  - now apply dict_get_remove_other.
Qed.

Lemma update_session_frame (u : Z) (b : Bot) (f : Session -> Session) :
  wizard_frame u b (update_session b u f).
Proof.
  destruct (data_update_session b u f) as (D & F & S).
  split; [assumption | split; [assumption|]].
  intros u' N. split; [now apply get_session_update_other|].
  unfold get_state. now rewrite S.
Qed.

Lemma delete_session_frame (u : Z) (b : Bot) : wizard_frame u b (delete_session b u).
Proof.
  split; [reflexivity | split; [reflexivity|]].
  intros u' N. split; [|reflexivity].
  unfold get_session. simpl. now apply dict_get_remove_other.
Qed.

Lemma handle_text_input_frame (is_admin : Z -> bool) (b : Bot) (private : bool)
    (u : Z) (text : string) :
  wizard_frame u b (fst (handle_text_input is_admin b private u text)).
Proof.
  unfold handle_text_input.
  destruct private; simpl; [|apply wizard_frame_refl].
  destruct (get_state b u) as [state|]; [|apply wizard_frame_refl].
  destruct (get_session b u) as [s|]; [|apply wizard_frame_refl].
  destruct (String.eqb text "/cancel"); simpl.
  { eapply wizard_frame_trans; [apply delete_session_frame | apply set_state_frame]. }
  destruct state; simpl; try apply wizard_frame_refl.
  - destruct (PyStr.to_int text) as [n|]; [|apply wizard_frame_refl].
    destruct (is_admin n); simpl; [|apply wizard_frame_refl].
    eapply wizard_frame_trans; [apply update_session_frame | apply set_state_frame].
  - destruct (negb (String.eqb (PyStr.lower text) "skip"));
      [eapply wizard_frame_trans; [apply update_session_frame|]|]; apply set_state_frame.
  - eapply wizard_frame_trans; [apply update_session_frame | apply set_state_frame].
  - destruct (PyStr.to_int text) as [n|]; [|apply wizard_frame_refl].
    destruct (n <? 1)%Z; simpl; [apply wizard_frame_refl | apply update_session_frame].
Qed.

Lemma handle_media_input_frame (b : Bot) (private : bool) (u : Z) (message : Message) :
  wizard_frame u b (fst (handle_media_input b private u message)).
Proof.
  unfold handle_media_input.
  destruct private; simpl; [|apply wizard_frame_refl].
  destruct (get_state b u) as [[]|]; try apply wizard_frame_refl.
  destruct (get_session b u) as [s|]; [|apply wizard_frame_refl].
  destruct (media_of_message message) as [[f k]|]; simpl; [|apply wizard_frame_refl].
  eapply wizard_frame_trans; [apply update_session_frame | apply set_state_frame].
Qed.

Lemma option_handlers_frame (b : Bot) (u : Z) (v : bool) :
  wizard_frame u b (fst (handle_delete_option b u v))
  /\ wizard_frame u b (fst (handle_pin_option b u v)).
Proof.
  unfold handle_delete_option, handle_pin_option.
  destruct (get_session b u); simpl; split; try apply wizard_frame_refl.
  - apply update_session_frame.
  - eapply wizard_frame_trans; [apply update_session_frame | apply set_state_frame].
Qed.

Lemma recurring_add_frame (b : Bot) (u : Z) : wizard_frame u b (fst (recurring_add b u)).
Proof.
  unfold recurring_add. cbn [fst].
  eapply wizard_frame_trans; [|apply set_state_frame].
  split; [reflexivity | split; [reflexivity|]].
  intros u' N. split; [|reflexivity].
  unfold get_session. simpl. now apply dict_get_set_other.
Qed.

(** X11. Until the message is saved the wizard of a user touches
    nothing but that user's session and state: whatever is typed, sent or
    pressed in the steps of the wizard, the document and the file stay as
    they are, and so do the sessions and states of all other users. *)
Theorem X11_wizard_steps_are_local (is_admin : Z -> bool) (b : Bot) (private : bool)
    (user_id : Z) (text : string) (message : Message) (choice : bool) :
  wizard_frame user_id b (fst (recurring_add b user_id))
  /\ wizard_frame user_id b (fst (handle_text_input is_admin b private user_id text))
  /\ wizard_frame user_id b (fst (handle_media_input b private user_id message))
  /\ wizard_frame user_id b (fst (handle_delete_option b user_id choice))
  /\ wizard_frame user_id b (fst (handle_pin_option b user_id choice)).
Proof.
  split; [apply recurring_add_frame|].
  split; [apply handle_text_input_frame|].
  split; [apply handle_media_input_frame|].
  apply option_handlers_frame.
Qed.



(** X13. The interval step of the wizard, where the text is read by
    [int()] as in the chat step: a text that is no integer,
    or an integer below 1, is answered and changes nothing; an integer of
    at least 1 becomes the interval of the session and the preview of
    that session is shown. The state stays the interval step, so a
    further number replaces the interval. *)
Theorem X13_interval_step (is_admin : Z -> bool) (b : Bot) (user_id : Z) (s : Session)
    (text : string) :
  get_state b user_id = Some waiting_interval ->
  get_session b user_id = Some s ->
  text <> "/cancel" ->
  let r := handle_text_input is_admin b true user_id text in
  (PyStr.to_int text = None -> r = (b, [SayInvalidNumber]))
  /\ (forall n, PyStr.to_int text = Some n -> (n < 1)%Z ->
        r = (b, [SayIntervalTooSmall]))
  /\ (forall n, PyStr.to_int text = Some n -> (1 <= n)%Z ->
        get_session (fst r) user_id = Some (set_tm_interval (Some n) s)
        /\ get_state (fst r) user_id = Some waiting_interval
        /\ snd r = [ShowPreview (set_tm_interval (Some n) s)]
        /\ forall text2 n2,
             text2 <> "/cancel" -> PyStr.to_int text2 = Some n2 -> (1 <= n2)%Z ->
             get_session (fst (handle_text_input is_admin (fst r) true user_id text2))
               user_id = Some (set_tm_interval (Some n2) s)).
Proof.
  intros St Se N r. subst r.
  rewrite (handle_text_input_open is_admin b user_id waiting_interval s text St Se N).
  split; [now intros -> | split].
  - intros n -> L. apply Z.ltb_lt in L. now rewrite L.
  - intros n -> L. apply Z.ltb_ge in L. rewrite L. cbn [fst snd].
    pose proof (get_session_update b user_id (set_tm_interval (Some n)) s Se) as Se1.
    assert (get_state (update_session b user_id (set_tm_interval (Some n))) user_id
            = Some waiting_interval) as St1.
    { unfold get_state. destruct (data_update_session b user_id (set_tm_interval (Some n)))
        as (_ & _ & ->). exact St. }
    split; [exact Se1 | split; [exact St1 | split; [reflexivity|]]].
    intros text2 n2 N2 P2 L2.
    rewrite (handle_text_input_open is_admin _ user_id waiting_interval _ text2 St1 Se1 N2).
    rewrite P2. apply Z.ltb_ge in L2. rewrite L2. cbn [fst].
    now rewrite (get_session_update _ user_id (set_tm_interval (Some n2)) _ Se1).
Qed.

Lemma X13_interval_step_witness :
  handle_text_input (fun _ => true) bot_at_preview true 7%Z "0"
  = (bot_at_preview, [SayIntervalTooSmall])
  /\ option_map tm_interval
       (get_session (fst (handle_text_input (fun _ => true) bot_at_preview true 7%Z "45"))
          7%Z) = Some (Some 45%Z)
  /\ handle_text_input (fun _ => true) bot_at_preview true 7%Z
       (String (ascii_of_nat 28) "5")
     = (bot_at_preview, [SayInvalidNumber]).
Proof.
  pose proof (X13_interval_step (fun _ => true) bot_at_preview 7%Z scenario_session "0"
                eq_refl eq_refl) as P.
  pose proof (X13_interval_step (fun _ => true) bot_at_preview 7%Z scenario_session "45"
                eq_refl eq_refl) as Q.
  pose proof (X13_interval_step (fun _ => true) bot_at_preview 7%Z scenario_session
                (String (ascii_of_nat 28) "5") eq_refl eq_refl) as R.
  cbv zeta in P, Q, R.
  destruct P as (_ & P & _); [discriminate|].
  destruct Q as (_ & _ & Q); [discriminate|].
  destruct R as (R & _); [discriminate|].
  destruct (Q 45%Z eq_refl ltac:(lia)) as (Q1 & _).
  split; [apply (P 0%Z eq_refl); lia | split; [now rewrite Q1 | apply R; reflexivity]].
Defined.

(** X14. The cancel command, typed in any step of an open wizard,
    destroys the session and the state and is answered; afterwards every
    text and every media of that user is ignored. The "Cancel" button of
    the wizard only draws the menu: the session and the state stay, and
    the next input is still taken by the wizard. *)
Theorem X14_cancel (is_admin : Z -> bool) (b : Bot) (user_id : Z) (state : WizardState)
    (s : Session) :
  get_state b user_id = Some state ->
  get_session b user_id = Some s ->
  let b' := fst (handle_text_input is_admin b true user_id "/cancel") in
  snd (handle_text_input is_admin b true user_id "/cancel") = [SayCancelled]
  /\ get_session b' user_id = None
  /\ get_state b' user_id = None
  /\ (forall text, handle_text_input is_admin b' true user_id text = (b', []))
  /\ (forall message, handle_media_input b' true user_id message = (b', []))
  /\ button_callback b user_id "menu_recurring" = (b, [Wizard ShowRecurringMenu], false).
Proof.
  intros St Se b'. subst b'.
  assert (handle_text_input is_admin b true user_id "/cancel"
          = (set_state (delete_session b user_id) user_id None, [SayCancelled])) as E.
  { unfold handle_text_input. cbn [negb]. now rewrite St, Se. }
  rewrite E. cbn [fst snd].
  assert (get_session (set_state (delete_session b user_id) user_id None) user_id = None)
    as Gone.
  { rewrite get_session_set_state. apply get_session_delete. }
  split; [reflexivity | split; [exact Gone | split; [apply get_state_set_none|]]].
  split; [intros text; now apply handle_text_input_closed|].
  split; [|reflexivity].
  intros message. unfold handle_media_input. cbn [negb].
  now rewrite get_state_set_none.
Qed.

Lemma X14_cancel_witness :
  get_session (fst (handle_text_input (fun _ => true) bot_at_media true 7%Z "/cancel")) 7%Z
  = None
  /\ handle_text_input (fun _ => true)
       (fst (handle_text_input (fun _ => true) bot_at_media true 7%Z "/cancel"))
       true 7%Z "Hello"
     = (fst (handle_text_input (fun _ => true) bot_at_media true 7%Z "/cancel"), []).
Proof.
  pose proof (X14_cancel (fun _ => true) bot_at_media 7%Z waiting_media
                (set_tm_text (Some "Hello") (set_tm_chat_id (Some "-100123") fresh_session))
                eq_refl eq_refl) as P.
  cbv zeta in P. destruct P as (_ & P2 & _ & P4 & _).
  split; [exact P2 | apply P4].
Defined.

(** ** The scheduler as a whole *)

Lemma item_run_config (current_time : Z) (o : ItemOutcome) (chat_id : option string)
    (m : RecurringItem) (r : ItemRun) :
  send_recurring_item current_time o chat_id m = Some r ->
  item_config (run_item r) = item_config m.
Proof.
  unfold send_recurring_item. destruct (rm_interval m) as [n|]; [|discriminate].
  destruct (is_due current_time m n); [|now intros [= <-]].
  destruct (send_call chat_id m); [destruct (send_result o)|]; now intros [= <-].
Qed.

Lemma tick_chat_config (current_time : Z) (o : nat -> ItemOutcome)
    (chat_id : option string) (rebuild : list RecurringItem -> Data) :
  forall (todo done : list RecurringItem) (file0 : option Data),
    map item_config (fst (fst (fst
      (tick_chat current_time o chat_id rebuild file0 done todo))))
    = map item_config (done ++ todo).
Proof.
  induction todo as [|m rest IH]; intros done file0; simpl.
  - now rewrite app_nil_r.
  - destruct (send_recurring_item current_time (o (List.length done)) chat_id m)
      as [r|] eqn:E; [|reflexivity].
    specialize (IH (done ++ [run_item r])
                  (if run_saved r then Some (rebuild (done ++ run_item r :: rest))
                   else file0)).
    destruct (tick_chat _ _ _ _ _ (done ++ [run_item r]) rest) as [[[items f] tr] ra].
    simpl in *. rewrite IH, <- app_assoc, !map_app. simpl.
    now rewrite (item_run_config _ _ _ _ _ E).
Qed.

Lemma tick_chats_config (current_time : Z) (env : TickEnv) (d : Data) :
  forall (todo done : dict (option string) (list RecurringItem)) (file0 : option Data),
    chats_config (fst (fst (fst (tick_chats current_time env d file0 done todo))))
    = chats_config (done ++ todo).
Proof.
  induction todo as [|[chat_id msgs] rest IH]; intros done file0; simpl.
  - now rewrite app_nil_r.
  - pose proof (tick_chat_config current_time (env (List.length done)) chat_id
                  (fun items => set_recurring d (done ++ (chat_id, items) :: rest))
                  msgs [] file0) as C.
    destruct (tick_chat _ _ _ _ _ [] msgs) as [[[items f1] tr1] ra]. simpl in C.
    destruct ra; simpl.
    + unfold chats_config. rewrite !map_app. simpl. now rewrite C.
    + specialize (IH (done ++ [(chat_id, items)]) f1).
      destruct (tick_chats _ _ _ _ (done ++ [(chat_id, items)]) rest)
        as [[[all f2] tr2] ra2].
      simpl in *. rewrite IH. unfold chats_config. rewrite <- app_assoc, !map_app.
      simpl. now rewrite C.
Qed.

Lemma chats_config_keys (r : dict (option string) (list RecurringItem)) :
  map fst (chats_config r) = map fst r.
Proof. unfold chats_config. rewrite map_map. reflexivity. Qed.

Lemma chats_config_lengths (r : dict (option string) (list RecurringItem)) :
  map (fun e => List.length (snd e)) (chats_config r)
  = map (fun e => List.length (snd e)) r.
Proof.
  unfold chats_config. rewrite map_map. apply map_ext. intros a. simpl.
  apply length_map.
Qed.

(** X15. A run of the scheduler, whether it ends or raises, changes
    nothing of an item but [last_sent] and [last_message_id]: the chats,
    their order, the number and order of their items and every field the
    wizard wrote stay, and so do the banned words, the two flags, the
    auto-replies and the sessions. *)
Theorem X15_tick_keeps_configuration (current_time : Z) (env : TickEnv) (st : BotStorage) :
  let st' := fst (fst (send_recurring_messages current_time env st)) in
  chats_config (recurring_messages (data st'))
  = chats_config (recurring_messages (data st))
  /\ map fst (recurring_messages (data st')) = map fst (recurring_messages (data st))
  /\ map (fun e => List.length (snd e)) (recurring_messages (data st'))
     = map (fun e => List.length (snd e)) (recurring_messages (data st))
  /\ banned_words (data st') = banned_words (data st)
  /\ block_links (data st') = block_links (data st)
  /\ block_mentions (data st') = block_mentions (data st)
  /\ auto_replies (data st') = auto_replies (data st)
  /\ temp_messages st' = temp_messages st.
Proof.
  intros st'. subst st'. unfold send_recurring_messages.
  pose proof (tick_chats_config current_time env (data st)
                (recurring_messages (data st)) [] (file st)) as C.
  destruct (tick_chats _ _ _ _ [] _) as [[[r f1] tr] ra]. simpl in *.
  split; [exact C|].
  split; [now rewrite <- (chats_config_keys r), C, chats_config_keys|].
  split; [now rewrite <- (chats_config_lengths r), C, chats_config_lengths|].
  repeat split.
Qed.

Lemma item_runs_iff (current_time : Z) (o : ItemOutcome) (chat_id : option string)
    (m : RecurringItem) :
  match send_recurring_item current_time o chat_id m with
  | Some _ => has_interval m = true
  | None => has_interval m = false
  end.
Proof.
  unfold send_recurring_item, has_interval. destruct (rm_interval m) as [n|]; [|reflexivity].
  destruct (is_due current_time m n); [|reflexivity].
  destruct (send_call chat_id m); [destruct (send_result o)|]; reflexivity.
Qed.

Lemma tick_chat_raised (current_time : Z) (o : nat -> ItemOutcome)
    (chat_id : option string) (rebuild : list RecurringItem -> Data) :
  forall (todo done : list RecurringItem) (file0 : option Data),
    snd (tick_chat current_time o chat_id rebuild file0 done todo)
    = negb (forallb has_interval todo).
Proof.
  induction todo as [|m rest IH]; intros done file0; simpl; [reflexivity|].
  pose proof (item_runs_iff current_time (o (List.length done)) chat_id m) as R.
  destruct (send_recurring_item current_time (o (List.length done)) chat_id m) as [r|];
    rewrite R; [|reflexivity].
  specialize (IH (done ++ [run_item r])
                (if run_saved r then Some (rebuild (done ++ run_item r :: rest))
                 else file0)).
  destruct (tick_chat _ _ _ _ _ (done ++ [run_item r]) rest) as [[[items f] tr] ra].
  exact IH.
Qed.

Lemma tick_chats_raised (current_time : Z) (env : TickEnv) (d : Data) :
  forall (todo done : dict (option string) (list RecurringItem)) (file0 : option Data),
    snd (tick_chats current_time env d file0 done todo)
    = negb (forallb (fun e => forallb has_interval (snd e)) todo).
Proof.
  induction todo as [|[chat_id msgs] rest IH]; intros done file0; simpl; [reflexivity|].
  pose proof (tick_chat_raised current_time (env (List.length done)) chat_id
                (fun items => set_recurring d (done ++ (chat_id, items) :: rest))
                msgs [] file0) as R.
  destruct (tick_chat _ _ _ _ _ [] msgs) as [[[items f1] tr1] ra]. simpl in R.
  destruct ra; simpl.
  - apply (f_equal negb) in R. rewrite negb_involutive in R. simpl in R. now rewrite <- R.
  - apply (f_equal negb) in R. rewrite negb_involutive in R. simpl in R. rewrite <- R.
    specialize (IH (done ++ [(chat_id, items)]) f1).
    destruct (tick_chats _ _ _ _ (done ++ [(chat_id, items)]) rest)
      as [[[all f2] tr2] ra2].
    exact IH.
Qed.

Lemma tick_raised (current_time : Z) (env : TickEnv) (st : BotStorage) :
  snd (send_recurring_messages current_time env st) = negb (intervals_set (data st)).
Proof.
  unfold send_recurring_messages, intervals_set.
  pose proof (tick_chats_raised current_time env (data st)
                (recurring_messages (data st)) [] (file st)) as R.
  destruct (tick_chats _ _ _ _ [] _) as [[[r f1] tr] ra]. exact R.
Qed.

Lemma forallb_dict_set_false {K V} `{KeyEq K} (q : V -> bool) (k : K) (v : V)
    (d : dict K V) :
  q v = false -> forallb (fun e => q (snd e)) (Dict.set k v d) = false.
Proof.
  intros Q. induction d as [|[k' v'] d IH]; simpl.
  - now rewrite Q.
  - destruct (keqb k k'); simpl; [now rewrite Q | rewrite IH; apply andb_false_r].
Qed.

Lemma add_item_without_interval (st : BotStorage) (chat_id : option string)
    (item : RecurringItem) :
  rm_interval item = None ->
  intervals_set (data (add_recurring_message st chat_id item)) = false.
Proof.
  intros N. unfold add_recurring_message, intervals_set. simpl.
  apply forallb_dict_set_false. rewrite forallb_app. simpl.
  unfold has_interval at 2. rewrite N. apply andb_false_r.
Qed.

(** X16. The scheduler raises exactly when some stored item has no
    interval. The save button is handled for any open session: pressed
    while the session has no interval yet, it stores an item without
    interval, and from then on every run of the scheduler raises. *)
Theorem X16_tick_raises (b : Bot) (user_id : Z) (s : Session) :
  get_session b user_id = Some s ->
  tm_interval s = None ->
  let b' := fst (fst (button_callback b user_id "confirm_save")) in
  (forall current_time env st,
     snd (send_recurring_messages current_time env st) = negb (intervals_set (data st)))
  /\ Dict.get_default (tm_chat_id s) [] (recurring_messages (data (storage b')))
     = Dict.get_default (tm_chat_id s) [] (recurring_messages (data (storage b)))
       ++ [recurring_data s]
  /\ forall current_time env,
       snd (send_recurring_messages current_time env (storage b')) = true.
Proof.
  intros Se N b'. subst b'.
  assert (fst (fst (button_callback b user_id "confirm_save"))
          = fst (confirm_save_message b user_id)) as -> by reflexivity.
  unfold confirm_save_message. rewrite Se. cbn [fst].
  split; [intros; apply tick_raised|].
  split; [apply add_recurring_message_list|].
  intros current_time env. rewrite tick_raised.
  change (negb (intervals_set
                  (data (add_recurring_message (storage b) (tm_chat_id s)
                           (recurring_data s)))) = true).
  rewrite add_item_without_interval; [reflexivity | exact N].
Qed.

Lemma X16_tick_raises_witness :
  snd (send_recurring_messages 600%Z sending_env
         (storage (fst (fst (button_callback (fst (recurring_add empty_bot 7%Z)) 7%Z
                                "confirm_save"))))) = true.
Proof.
  pose proof (X16_tick_raises (fst (recurring_add empty_bot 7%Z)) 7%Z fresh_session
                eq_refl eq_refl) as P.
  cbv zeta in P. destruct P as (_ & _ & P). apply P.
Defined.

Lemma chat_trace_cons (current_time : Z) (o : nat -> ItemOutcome)
    (chat_id : option string) (start : nat) (m : RecurringItem)
    (rest : list RecurringItem) :
  chat_trace current_time o chat_id start (m :: rest)
  = item_trace current_time (o start) chat_id m
    ++ chat_trace current_time o chat_id (S start) rest.
Proof. reflexivity. Qed.

Lemma chats_trace_cons (current_time : Z) (env : TickEnv) (start : nat)
    (chat_id : option string) (msgs : list RecurringItem)
    (rest : dict (option string) (list RecurringItem)) :
  chats_trace current_time env start ((chat_id, msgs) :: rest)
  = chat_trace current_time (env start) chat_id 0 msgs
    ++ chats_trace current_time env (S start) rest.
Proof. reflexivity. Qed.

Lemma tick_chat_trace (current_time : Z) (o : nat -> ItemOutcome)
    (chat_id : option string) (rebuild : list RecurringItem -> Data) :
  forall (todo done : list RecurringItem) (file0 : option Data),
    forallb has_interval todo = true ->
    snd (fst (tick_chat current_time o chat_id rebuild file0 done todo))
    = chat_trace current_time o chat_id (List.length done) todo.
Proof.
  induction todo as [|m rest IH]; intros done file0 F; [reflexivity|].
  rewrite chat_trace_cons. simpl in F. apply andb_true_iff in F as [Hm F].
  cbn [tick_chat]. unfold item_trace.
  pose proof (item_runs_iff current_time (o (List.length done)) chat_id m) as R.
  destruct (send_recurring_item current_time (o (List.length done)) chat_id m) as [r|];
    [|congruence].
  specialize (IH (done ++ [run_item r])
                (if run_saved r then Some (rebuild (done ++ run_item r :: rest))
                 else file0) F).
  destruct (tick_chat _ _ _ _ _ (done ++ [run_item r]) rest) as [[[items f] tr] ra].
  cbn [fst snd] in *. rewrite IH, length_app, Nat.add_comm. reflexivity.
Qed.

Lemma tick_chats_trace (current_time : Z) (env : TickEnv) (d : Data) :
  forall (todo done : dict (option string) (list RecurringItem)) (file0 : option Data),
    forallb (fun e => forallb has_interval (snd e)) todo = true ->
    snd (fst (tick_chats current_time env d file0 done todo))
    = chats_trace current_time env (List.length done) todo.
Proof.
  induction todo as [|[chat_id msgs] rest IH]; intros done file0 F; [reflexivity|].
  rewrite chats_trace_cons. simpl in F. apply andb_true_iff in F as [Hm F].
  cbn [tick_chats].
  pose proof (tick_chat_trace current_time (env (List.length done)) chat_id
                (fun items => set_recurring d (done ++ (chat_id, items) :: rest))
                msgs [] file0 Hm) as T.
  pose proof (tick_chat_raised current_time (env (List.length done)) chat_id
                (fun items => set_recurring d (done ++ (chat_id, items) :: rest))
                msgs [] file0) as R.
  rewrite Hm in R.
  destruct (tick_chat _ _ _ _ _ [] msgs) as [[[items f1] tr1] ra].
  cbn [fst snd negb List.length] in *. subst ra tr1.
  specialize (IH (done ++ [(chat_id, items)]) f1 F).
  destruct (tick_chats _ _ _ _ (done ++ [(chat_id, items)]) rest)
    as [[[all f2] tr2] ra2].
  cbn [fst snd] in *. rewrite IH, length_app, Nat.add_comm. reflexivity.
Qed.

Lemma item_trace_one_send (current_time : Z) (o : ItemOutcome)
    (chat_id : option string) (m : RecurringItem) :
  (List.length (filter is_send (item_trace current_time o chat_id m)) <= 1)%nat.
Proof.
  unfold item_trace. destruct (rm_interval m) as [n|] eqn:N.
  - destruct (item_send_calls current_time o chat_id m n N) as (r & -> & ->).
    destruct (is_due current_time m n); [|simpl; lia].
    destruct (send_call chat_id m); simpl; lia.
  - unfold send_recurring_item. rewrite N. simpl. lia.
Qed.

Lemma chat_trace_sends (current_time : Z) (o : nat -> ItemOutcome)
    (chat_id : option string) :
  forall (msgs : list RecurringItem) (start : nat),
    (List.length (filter is_send (chat_trace current_time o chat_id start msgs))
     <= List.length msgs)%nat.
Proof.
  induction msgs as [|m rest IH]; intros start; [simpl; lia|].
  rewrite chat_trace_cons, filter_app, length_app.
  pose proof (item_trace_one_send current_time (o start) chat_id m).
  specialize (IH (S start)). simpl. lia.
Qed.

Lemma chats_trace_sends (current_time : Z) (env : TickEnv) :
  forall (chats : dict (option string) (list RecurringItem)) (start : nat),
    (List.length (filter is_send (chats_trace current_time env start chats))
     <= list_sum (map (fun e => List.length (snd e)) chats))%nat.
Proof.
  induction chats as [|[chat_id msgs] rest IH]; intros start; [simpl; lia|].
  rewrite chats_trace_cons, filter_app, length_app.
  pose proof (chat_trace_sends current_time (env start) chat_id msgs 0).
  specialize (IH (S start)). simpl. lia.
Qed.

(** X17. When every stored item has its interval, the calls of one
    run are exactly the calls of each item, chat after chat in the order
    of the dictionary and item after item in the order of the list; so no
    run makes more send calls than there are items. *)
Theorem X17_tick_trace (current_time : Z) (env : TickEnv) (st : BotStorage) :
  intervals_set (data st) = true ->
  let trace := snd (fst (send_recurring_messages current_time env st)) in
  trace = chats_trace current_time env 0 (recurring_messages (data st))
  /\ (List.length (filter is_send trace) <= item_count (data st))%nat.
Proof.
  intros I trace. subst trace.
  assert (snd (fst (send_recurring_messages current_time env st))
          = chats_trace current_time env 0 (recurring_messages (data st))) as E.
  { unfold send_recurring_messages.
    pose proof (tick_chats_trace current_time env (data st)
                  (recurring_messages (data st)) [] (file st) I) as T.
    destruct (tick_chats _ _ _ _ [] _) as [[[r f1] tr] ra]. exact T. }
  rewrite E. split; [reflexivity | apply chats_trace_sends].
Qed.

Lemma X17_tick_trace_witness :
  snd (fst (send_recurring_messages a_time sending_env sched_store))
  = [hello_call; SPinMessage (Some "-100123") 555%Z; SPrintError; SSaveData; SSaveData].
Proof.
  pose proof (X17_tick_trace a_time sending_env sched_store eq_refl) as P.
  cbv zeta in P. destruct P as (P & _). rewrite P. vm_compute. reflexivity.
Defined.

(** ** Persistence *)

Lemma set_recurring_same (d : Data) : set_recurring d (recurring_messages d) = d.
Proof. now destruct d. Qed.

Lemma set_banned_same (d : Data) : set_banned d (banned_words d) = d.
Proof. now destruct d. Qed.

Lemma tick_chat_file (current_time : Z) (o : nat -> ItemOutcome)
    (chat_id : option string) (rebuild : list RecurringItem -> Data) :
  forall (todo done : list RecurringItem) (file0 : option Data),
    let run := fst (tick_chat current_time o chat_id rebuild file0 done todo) in
    (snd (fst run) = file0 /\ fst (fst run) = done ++ todo)
    \/ snd (fst run) = Some (rebuild (fst (fst run))).
Proof.
  induction todo as [|m rest IH]; intros done file0; cbn [tick_chat]; cbv zeta.
  - left. split; [reflexivity | now rewrite app_nil_r].
  - destruct (send_recurring_item current_time (o (List.length done)) chat_id m)
      as [r|] eqn:E; [|left; split; reflexivity].
    specialize (IH (done ++ [run_item r])
                  (if run_saved r then Some (rebuild (done ++ run_item r :: rest))
                   else file0)).
    cbv zeta in IH.
    destruct (tick_chat _ _ _ _ _ (done ++ [run_item r]) rest) as [[[items f] tr] ra].
    cbn [fst snd] in *. rewrite <- app_assoc in IH. cbn [app] in IH.
    destruct IH as [[-> ->] | ->]; [|now right].
    destruct (run_saved r) eqn:Sv; [now right|].
    left. now rewrite (item_unsaved_unchanged _ _ _ _ _ E Sv).
Qed.

Lemma tick_chats_file (current_time : Z) (env : TickEnv) (d : Data) :
  forall (todo done : dict (option string) (list RecurringItem)) (file0 : option Data),
    let run := fst (tick_chats current_time env d file0 done todo) in
    (snd (fst run) = file0 /\ fst (fst run) = done ++ todo)
    \/ snd (fst run) = Some (set_recurring d (fst (fst run))).
Proof.
  induction todo as [|[chat_id msgs] rest IH]; intros done file0; cbn [tick_chats];
    cbv zeta.
  - left. split; [reflexivity | now rewrite app_nil_r].
  - pose proof (tick_chat_file current_time (env (List.length done)) chat_id
                  (fun items => set_recurring d (done ++ (chat_id, items) :: rest))
                  msgs [] file0) as T.
    cbv zeta in T.
    destruct (tick_chat _ _ _ _ _ [] msgs) as [[[items f1] tr1] ra].
    cbn [fst snd app] in T.
    destruct ra; cbn [fst snd].
    + destruct T as [[-> ->] | ->]; [left | right]; auto.
    + specialize (IH (done ++ [(chat_id, items)]) f1). cbv zeta in IH.
      destruct (tick_chats _ _ _ _ (done ++ [(chat_id, items)]) rest)
        as [[[all f2] tr2] ra2].
      cbn [fst snd] in *. rewrite <- app_assoc in IH. cbn [app] in IH.
      destruct IH as [[-> ->] | ->]; [|now right].
      destruct T as [[-> ->] | ->]; [left | right]; auto.
Qed.

Lemma tick_persisted (current_time : Z) (env : TickEnv) (st : BotStorage) :
  persisted st (fst (fst (send_recurring_messages current_time env st))).
Proof.
  unfold send_recurring_messages.
  pose proof (tick_chats_file current_time env (data st)
                (recurring_messages (data st)) [] (file st)) as T.
  cbv zeta in T.
  destruct (tick_chats _ _ _ _ [] _) as [[[r f1] tr] ra]. cbn [fst snd app] in *.
  destruct T as [[-> ->] | ->]; [left | right]; cbn [data file].
  - split; [apply set_recurring_same | reflexivity].
  - reflexivity.
Qed.

Lemma persisted_refl (st : BotStorage) : persisted st st.
Proof. left. split; reflexivity. Qed.

Lemma persisted_saved (st st0 : BotStorage) : persisted st (save_data st0).
Proof. now right. Qed.

Lemma persisted_frame (b b' : Bot) (u : Z) :
  wizard_frame u b b' -> persisted (storage b) (storage b').
Proof. intros (D & F & _). left. split; assumption. Qed.

Lemma add_banned_word_persisted (st : BotStorage) (chat_id word : string) :
  persisted st (add_banned_word st chat_id word).
Proof.
  unfold add_banned_word, Dict.mem, Dict.get_default.
  destruct (Dict.get chat_id (banned_words (data st))) as [ws|] eqn:G.
  - rewrite G. destruct (negb (str_in _ _)); [apply persisted_saved|].
    left. split; [apply set_banned_same | reflexivity].
  - rewrite (dict_get_set_same chat_id [] (banned_words (data st))).
    cbn [map str_in existsb negb]. apply persisted_saved.
Qed.

Lemma remove_banned_word_persisted (st : BotStorage) (chat_id word : string) :
  persisted st (remove_banned_word st chat_id word).
Proof.
  unfold remove_banned_word.
  destruct (Dict.get chat_id (banned_words (data st)));
    [apply persisted_saved | apply persisted_refl].
Qed.

Lemma remove_auto_reply_persisted (st : BotStorage) (chat_id trigger : string) :
  persisted st (remove_auto_reply st chat_id trigger).
Proof.
  unfold remove_auto_reply.
  destruct (Dict.get chat_id (auto_replies (data st)));
    [apply persisted_saved | apply persisted_refl].
Qed.

Lemma remove_recurring_persisted (st : BotStorage) (chat_id : string) (index : Z) :
  persisted st (remove_recurring_message st chat_id index).
Proof.
  unfold remove_recurring_message.
  destruct (Dict.get (Some chat_id) (recurring_messages (data st))) as [msgs|];
    [|apply persisted_refl].
  destruct ((0 <=? index)%Z && (index <? Z.of_nat (List.length msgs))%Z);
    [apply persisted_saved | apply persisted_refl].
Qed.

(** The storage after a command: untouched outside a private chat,
    and otherwise what the command makes of it in a private chat. *)
Lemma command_storage (is_admin : Z -> bool) (st : BotStorage) (message : option bool)
    (args : list string)
    (cmd : (Z -> bool) -> BotStorage -> option bool -> list string -> CommandRun) :
  In cmd [add_word; del_word; list_words; add_reply; del_reply; list_replies;
          set_links_command; set_mentions_command] ->
  fst (fst (cmd is_admin st message args))
  = match message with
    | Some false => st
    | _ => fst (fst (cmd is_admin st (Some true) args))
    end.
Proof.
  intros I. simpl in I.
  repeat (destruct I as [<- | I]; [destruct message as [[|]|]; reflexivity|]).
  destruct I.
Qed.

Lemma commands_persisted_private (is_admin : Z -> bool) (st : BotStorage)
    (args : list string)
    (cmd : (Z -> bool) -> BotStorage -> option bool -> list string -> CommandRun) :
  In cmd [add_word; del_word; list_words; add_reply; del_reply; list_replies;
          set_links_command; set_mentions_command] ->
  persisted st (fst (fst (cmd is_admin st (Some true) args))).
Proof.
  intros I. simpl in I.
  repeat (destruct I as [<- | I]); [..|destruct I];
    unfold add_word, del_word, list_words, add_reply, del_reply, list_replies,
      set_links_command, set_mentions_command, admin_only;
    cbn [negb fst].
  - destruct args as [|c rest]; [apply persisted_refl|].
    destruct (PyStr.to_int c) as [n|]; [|apply persisted_refl].
    destruct (is_admin n); [apply add_banned_word_persisted | apply persisted_refl].
  - destruct args as [|c rest]; [apply persisted_refl|].
    destruct (PyStr.to_int c) as [n|]; [|apply persisted_refl].
    destruct (is_admin n); [apply remove_banned_word_persisted | apply persisted_refl].
  - destruct args as [|c rest]; [apply persisted_refl|].
    destruct (PyStr.to_int c) as [n|]; [|apply persisted_refl].
    destruct (is_admin n); apply persisted_refl.
  - destruct (PyStr.split_once " " (join " " args)) as [[c rest]|]; [|apply persisted_refl].
    destruct (negb (PyStr.has_char "|" rest)); [apply persisted_refl|].
    destruct (PyStr.split_once "|" rest) as [[t r]|]; [|apply persisted_refl].
    destruct (PyStr.to_int c) as [n|]; [|apply persisted_refl].
    destruct (is_admin n); [apply persisted_saved | apply persisted_refl].
  - destruct args as [|c rest]; [apply persisted_refl|].
    destruct (PyStr.to_int c) as [n|]; [|apply persisted_refl].
    destruct (is_admin n); [apply remove_auto_reply_persisted | apply persisted_refl].
  - destruct args as [|c rest]; [apply persisted_refl|].
    destruct (PyStr.to_int c) as [n|]; [|apply persisted_refl].
    destruct (is_admin n); apply persisted_refl.
  - destruct args as [|c [|t rest]]; try apply persisted_refl.
    destruct (PyStr.to_int c) as [n|]; [|apply persisted_refl].
    destruct (is_admin n); [apply persisted_saved | apply persisted_refl].
  - destruct args as [|c [|t rest]]; try apply persisted_refl.
    destruct (PyStr.to_int c) as [n|]; [|apply persisted_refl].
    destruct (is_admin n); [apply persisted_saved | apply persisted_refl].
Qed.

Lemma commands_persisted (is_admin : Z -> bool) (st : BotStorage) (message : option bool)
    (args : list string)
    (cmd : (Z -> bool) -> BotStorage -> option bool -> list string -> CommandRun) :
  In cmd [add_word; del_word; list_words; add_reply; del_reply; list_replies;
          set_links_command; set_mentions_command] ->
  persisted st (fst (fst (cmd is_admin st message args))).
Proof.
  intros I. rewrite (command_storage is_admin st message args cmd I).
  destruct message as [[|]|];
    [now apply commands_persisted_private | apply persisted_refl
    | now apply commands_persisted_private].
Qed.

Lemma confirm_save_persisted (b : Bot) (u : Z) :
  persisted (storage b) (storage (fst (confirm_save_message b u))).
Proof.
  unfold confirm_save_message. destruct (get_session b u); [|apply persisted_refl].
  now right.
Qed.

Lemma button_callback_persisted (b : Bot) (user_id : Z) (data : string) :
  persisted (storage b) (storage (fst (fst (button_callback b user_id data)))).
Proof.
  unfold button_callback. cbv zeta.
  repeat match goal with
         | |- context [if ?c then _ else _] => destruct c
         end;
    cbn [fst snd show_recurring_menu storage with_storage];
    try apply persisted_refl;
    try apply confirm_save_persisted;
    try (now right);
    try (eapply persisted_frame; apply recurring_add_frame);
    try (eapply persisted_frame; apply option_handlers_frame).
  - destruct (get_session b user_id); apply persisted_refl.
  - unfold delete_recurring_from_button.
    destruct (PyStr.split "_" data) as [|p0 [|c [|i ps]]]; try apply persisted_refl.
    destruct (PyStr.to_int i); [apply remove_recurring_persisted | apply persisted_refl].
Qed.

(** X19. No change of the configuration is left unsaved: after a
    button, a text, a media, any of the eight commands or a run of the
    scheduler, either the configuration and the file are what they were
    or the file holds the configuration. So a file that holds the
    configuration holds it after every step. *)
Theorem X19_changes_are_saved (is_admin : Z -> bool) (b : Bot) (private : bool)
    (command_message : option bool) (user_id : Z) (text data0 : string)
    (message : Message) (args : list string) (current_time : Z) (env : TickEnv) :
  persisted (storage b) (storage (fst (fst (button_callback b user_id data0))))
  /\ persisted (storage b) (storage (fst (handle_text_input is_admin b private user_id text)))
  /\ persisted (storage b) (storage (fst (handle_media_input b private user_id message)))
  /\ persisted (storage b) (fst (fst (send_recurring_messages current_time env (storage b))))
  /\ (forall cmd,
        In cmd [add_word; del_word; list_words; add_reply; del_reply; list_replies;
                set_links_command; set_mentions_command] ->
        persisted (storage b)
          (fst (fst (cmd is_admin (storage b) command_message args))))
  /\ (forall st',
        persisted (storage b) st' ->
        file (storage b) = Some (data (storage b)) -> file st' = Some (data st')).
Proof.
  split; [apply button_callback_persisted|].
  split; [eapply persisted_frame; apply handle_text_input_frame|].
  split; [eapply persisted_frame; apply handle_media_input_frame|].
  split; [apply tick_persisted|].
  split; [intros cmd I; now apply commands_persisted|].
  intros st' [[D F] | S] Sync; [|exact S]. now rewrite D, F.
Qed.

(** ** The filter as a whole *)

(** X18. What the filter never does: for an admin it only replies; a
    warning is sent only after a deletion that did not raise, for a
    sender who is not an admin, in the chat of the message and with the
    reason the checks gave; a message is deleted at most once and
    answered at most twice (the second time without Markdown); a sender
    whose membership cannot be read is handled like any sender who is not
    an admin; in a private chat nothing is done. *)
Theorem X18_filter_limits (st : BotStorage) (env : FilterEnv) (update : Update) :
  let trace := fst (filter_message st env update) in
  (is_admin_user env = true -> forallb is_reply trace = true)
  /\ (forall c r, In (FWarning c r) trace ->
        fe_delete_ok env = true
        /\ is_admin_user env = false
        /\ c = PyStr.of_Z (effective_chat update)
        /\ deletion_check st c
             (match upd_message update with
              | Some message => message_body message
              | None => ""
              end) = Some r)
  /\ (List.length (filter is_delete trace) <= 1)%nat
  /\ (List.length (filter is_reply trace) <= 2)%nat
  /\ (fe_chat_member env = None ->
      forall s, is_admin_status s = false ->
        filter_message st env update = filter_message st (with_member env (Some s)) update)
  /\ (forall message, upd_message update = Some message -> chat_private message = true ->
        filter_message st env update = ([], false)).
Proof.
  intros trace. subst trace. unfold filter_message.
  destruct (upd_message update) as [message|].
  2:{ cbn [fst]. split; [reflexivity|]. split; [intros c r []|].
      split; [simpl; lia|]. split; [simpl; lia|]. split; [reflexivity | discriminate]. }
  destruct (chat_private message) eqn:Priv.
  { cbn [fst]. split; [reflexivity|]. split; [intros c r []|].
    split; [simpl; lia|]. split; [simpl; lia|]. split; reflexivity. }
  cbv zeta.
  pose proof (auto_reply_step_replies env
                (get_auto_replies st (PyStr.of_Z (effective_chat update)))
                (PyStr.lower (message_body message))) as Rep.
  assert (forall s, auto_reply_step (with_member env s)
            (get_auto_replies st (PyStr.of_Z (effective_chat update)))
            (PyStr.lower (message_body message))
          = auto_reply_step env
              (get_auto_replies st (PyStr.of_Z (effective_chat update)))
              (PyStr.lower (message_body message))) as Same by reflexivity.
  assert (List.length (fst (auto_reply_step env
            (get_auto_replies st (PyStr.of_Z (effective_chat update)))
            (PyStr.lower (message_body message)))) <= 2)%nat as Two.
  { unfold auto_reply_step. destruct (first_auto_reply _ _); [|simpl; lia].
    destruct (fe_reply_markdown_ok env); simpl; lia. }
  assert (forall s, is_admin_status s = false ->
            fe_chat_member env = None ->
            is_admin_user (with_member env (Some s)) = is_admin_user env) as Adm.
  { intros s A N. unfold is_admin_user. cbn [with_member fe_chat_member]. now rewrite N, A. }
  destruct (auto_reply_step env _ _) as [replied raised] eqn:Step.
  cbn [fst] in Rep, Two.
  pose proof (replies_hold_no_deletion _ Rep) as [ND NW].
  assert (filter is_delete replied = []) as NoDel.
  { clear - Rep. induction replied as [|e l IH]; [reflexivity|].
    simpl in Rep. apply andb_true_iff in Rep as [E Rep].
    destruct e; try discriminate. simpl. now apply IH. }
  split.
  { intros A. rewrite A. destruct raised; exact Rep. }
  split.
  { intros c r I. destruct raised; cbn [fst] in I; [now apply NW in I|].
    destruct (is_admin_user env); [now apply NW in I|].
    destruct (deletion_check st (PyStr.of_Z (effective_chat update)) (message_body message))
      as [reason|] eqn:D; cbn [fst] in I; [|now apply NW in I].
    apply in_app_or in I as [I | I]; [now apply NW in I|].
    unfold delete_with_warning in I.
    destruct (fe_delete_ok env); [|simpl in I; intuition discriminate].
    assert (FWarning c r = FWarning (PyStr.of_Z (effective_chat update)) reason) as E.
    { destruct (fe_warning_ok env); simpl in I; intuition (congruence || discriminate). }
    injection E as -> ->. auto. }
  split.
  { destruct raised; cbn [fst]; [rewrite NoDel; simpl; lia|].
    destruct (is_admin_user env); cbn [fst]; [rewrite NoDel; simpl; lia|].
    destruct (deletion_check _ _ _); cbn [fst]; [|rewrite NoDel; simpl; lia].
    rewrite filter_app, NoDel. unfold delete_with_warning.
    destruct (fe_delete_ok env), (fe_warning_ok env); simpl; lia. }
  split.
  { destruct raised; cbn [fst]; [rewrite (filter_replies_only _ Rep); exact Two|].
    destruct (is_admin_user env); cbn [fst]; [rewrite (filter_replies_only _ Rep); exact Two|].
    destruct (deletion_check _ _ _); cbn [fst];
      [|rewrite (filter_replies_only _ Rep); exact Two].
    rewrite filter_app, delete_with_warning_no_reply, app_nil_r,
      (filter_replies_only _ Rep). exact Two. }
  split.
  { intros N s A. rewrite Same, (Adm s A N). reflexivity. }
  intros m [= <-] P. congruence.
Qed.

(** ** Navigation *)

(** X20. Only the save button, the two kinds of toggle buttons and
    the delete buttons change the configuration: every other callback
    data, known or not, leaves the configuration, the file and the
    sessions and states of the other users as they are. Among them
    exactly two raise: ["edit_message"], whose handler is not defined,
    and ["recurring_list"] when some stored item has no text. *)
Theorem X20_navigation_changes_nothing (b : Bot) (user_id : Z) (data0 : string) :
  data0 <> "confirm_save" ->
  PyStr.starts_with "toggle_links_" data0 = false ->
  PyStr.starts_with "toggle_mentions_" data0 = false ->
  PyStr.starts_with "delrec_" data0 = false ->
  wizard_frame user_id b (fst (fst (button_callback b user_id data0)))
  /\ (snd (button_callback b user_id data0) = true <->
      data0 = "edit_message"
      \/ (data0 = "recurring_list" /\ has_textless (storage b) = true)).
Proof.
  intros NC TL TM DR. unfold button_callback. cbv zeta. rewrite TL, TM, DR.
  destruct (String.eqb_spec data0 "confirm_save") as [E|_]; [contradiction|].
  clear NC TL TM DR.
  repeat match goal with
         | |- context [String.eqb data0 ?s] => destruct (String.eqb data0 s) eqn:?
         | |- context [PyStr.starts_with ?p data0] =>
             destruct (PyStr.starts_with p data0) eqn:?
         | |- context [get_session b user_id] => destruct (get_session b user_id) eqn:?
         end;
    cbn [fst snd show_recurring_menu];
    (split;
     [ try apply wizard_frame_refl; try apply recurring_add_frame;
       try apply option_handlers_frame
     | split;
       [ intros Raised; try discriminate Raised;
         first
           [ left; now apply String.eqb_eq
           | right; split; [now apply String.eqb_eq|];
             unfold show_recurring_list in Raised;
             destruct (has_textless (storage b)); [reflexivity | discriminate Raised] ]
       | intros [-> | [-> T]]; simpl in *; try discriminate; try reflexivity;
         try (try unfold show_recurring_list; rewrite T; reflexivity) ] ]).
Qed.

Lemma X20_navigation_changes_nothing_witness :
  data (storage (fst (fst (button_callback bot_at_preview 7%Z "menu_links"))))
  = data (storage bot_at_preview)
  /\ snd (button_callback bot_at_preview 7%Z "edit_message") = true
  /\ snd (button_callback {| storage := sched_store; user_state := [] |} 7%Z
            "recurring_list") = true.
Proof.
  pose proof (X20_navigation_changes_nothing bot_at_preview 7%Z "menu_links"
                ltac:(discriminate) eq_refl eq_refl eq_refl) as P.
  pose proof (X20_navigation_changes_nothing bot_at_preview 7%Z "edit_message"
                ltac:(discriminate) eq_refl eq_refl eq_refl) as Q.
  pose proof (X20_navigation_changes_nothing {| storage := sched_store; user_state := [] |}
                7%Z "recurring_list" ltac:(discriminate) eq_refl eq_refl eq_refl) as R.
  destruct P as ((P & _) & _). destruct Q as (_ & Q). destruct R as (_ & R).
  split; [exact P | split; [apply Q; now left | apply R; right; split; reflexivity]].
Defined.

(** ** The wizard from end to end *)

Lemma wizard_step (b : Bot) (u : Z) (s : Session) (f : Session -> Session)
    (w : WizardState) :
  get_session b u = Some s ->
  get_session (set_state (update_session b u f) u (Some w)) u = Some (f s)
  /\ get_state (set_state (update_session b u f) u (Some w)) u = Some w
  /\ data (storage (set_state (update_session b u f) u (Some w))) = data (storage b).
Proof.
  intros G. rewrite get_session_set_state, (get_session_update b u f s G).
  split; [reflexivity | split; [apply get_state_set_state|]].
  rewrite storage_set_state. apply data_update_session.
Qed.

Lemma wizard_step_same_state (b : Bot) (u : Z) (s : Session) (f : Session -> Session)
    (w : WizardState) :
  get_session b u = Some s ->
  get_state b u = Some w ->
  get_session (update_session b u f) u = Some (f s)
  /\ get_state (update_session b u f) u = Some w
  /\ data (storage (update_session b u f)) = data (storage b).
Proof.
  intros G St. rewrite (get_session_update b u f s G).
  split; [reflexivity|].
  destruct (data_update_session b u f) as (D & _ & U).
  split; [unfold get_state; now rewrite U | exact D].
Qed.

Lemma to_int_not_cancel (text : string) (n : Z) :
  PyStr.to_int text = Some n -> text <> "/cancel".
Proof. intros E ->. vm_compute in E. discriminate. Qed.

(** The run of the wizard up to the save button, for any property of
    the bot that results. *)
Lemma wizard_run_reaches_save (is_admin : Z -> bool) (b : Bot) (user_id : Z)
    (chat text : string) (message : Message) (buttons : string) (delete pin : bool)
    (interval : string) (n i : Z) (file_id : string) (kind : MediaType)
    (P : Bot -> Prop) :
  PyStr.to_int chat = Some n ->
  is_admin n = true ->
  text <> "/cancel" ->
  media_of_message message = Some (file_id, kind) ->
  buttons <> "/cancel" ->
  PyStr.to_int interval = Some i ->
  (1 <= i)%Z ->
  (forall b8,
     get_session b8 user_id
     = Some (wizard_session (PyStr.of_Z n) text file_id kind buttons delete pin i) ->
     get_state b8 user_id = Some waiting_interval ->
     data (storage b8) = data (storage b) ->
     P (fst (confirm_save_message b8 user_id))) ->
  P (wizard_run is_admin b user_id chat text message buttons delete pin interval).
Proof.
  intros Chat Adm NT Media NB Int Pos K. unfold wizard_run.
  pose proof (to_int_not_cancel chat n Chat) as NC.
  pose proof (to_int_not_cancel interval i Int) as NI.
  (* the button that opens the wizard *)
  change (fst (fst (button_callback b user_id "recurring_add")))
    with (fst (recurring_add b user_id)).
  set (b1 := fst (recurring_add b user_id)).
  assert (get_session b1 user_id = Some fresh_session) as S1.
  { subst b1. unfold recurring_add. cbn [fst]. rewrite get_session_set_state.
    unfold get_session. simpl. apply dict_get_set_same. }
  assert (get_state b1 user_id = Some waiting_chatid) as W1
    by (subst b1; unfold recurring_add; cbn [fst]; apply get_state_set_state).
  assert (data (storage b1) = data (storage b)) as D1 by reflexivity.
  (* the chat *)
  rewrite (handle_text_input_open is_admin b1 user_id waiting_chatid _ chat W1 S1 NC).
  rewrite Chat, Adm. cbn [fst].
  destruct (wizard_step b1 user_id _ (set_tm_chat_id (Some (PyStr.of_Z n)))
              waiting_text S1) as (S2 & W2 & D2).
  set (b2 := set_state (update_session b1 user_id _) user_id (Some waiting_text)) in *.
  (* the text *)
  rewrite (handle_text_input_open is_admin b2 user_id waiting_text _ text W2 S2 NT).
  cbn [fst].
  set (b2' := if negb (String.eqb (PyStr.lower text) "skip")
              then update_session b2 user_id (set_tm_text (Some text)) else b2).
  set (s3 := if String.eqb (PyStr.lower text) "skip"
             then set_tm_chat_id (Some (PyStr.of_Z n)) fresh_session
             else set_tm_text (Some text)
                    (set_tm_chat_id (Some (PyStr.of_Z n)) fresh_session)).
  assert (get_session b2' user_id = Some s3 /\ data (storage b2') = data (storage b2))
    as (S3' & D3').
  { subst b2' s3. destruct (String.eqb (PyStr.lower text) "skip"); cbn [negb].
    - now split.
    - split; [now apply get_session_update | apply data_update_session]. }
  assert (get_session (set_state b2' user_id (Some waiting_media)) user_id = Some s3) as S3
    by now rewrite get_session_set_state.
  pose proof (get_state_set_state b2' user_id waiting_media) as W3.
  assert (data (storage (set_state b2' user_id (Some waiting_media))) = data (storage b2'))
    as D3 by reflexivity.
  set (b3 := set_state b2' user_id (Some waiting_media)) in *.
  (* the media *)
  unfold handle_media_input. cbn [negb]. rewrite W3, S3, Media. cbn [fst].
  destruct (wizard_step b3 user_id _ (set_tm_media (Some file_id) (Some kind))
              waiting_buttons S3) as (S4 & W4 & D4).
  set (b4 := set_state (update_session b3 user_id _) user_id (Some waiting_buttons)) in *.
  (* the buttons *)
  rewrite (handle_text_input_open is_admin b4 user_id waiting_buttons _ buttons W4 S4 NB).
  cbn [fst].
  destruct (wizard_step b4 user_id _
              (set_tm_buttons (if String.eqb (PyStr.lower buttons) "skip" then []
                               else parse_buttons buttons))
              waiting_delete_option S4) as (S5 & W5 & D5).
  set (b5 := set_state (update_session b4 user_id _) user_id
               (Some waiting_delete_option)) in *.
  (* the two options *)
  assert (fst (fst (button_callback b5 user_id
                      (if delete then "opt_delete_yes" else "opt_delete_no")))
          = fst (handle_delete_option b5 user_id delete)) as ->
    by (destruct delete; reflexivity).
  unfold handle_delete_option at 1. rewrite S5. cbn [fst].
  destruct (wizard_step_same_state b5 user_id _ (set_tm_delete_previous delete)
              waiting_delete_option S5 W5) as (S6 & W6 & D6).
  set (b6 := update_session b5 user_id _) in *.
  assert (fst (fst (button_callback b6 user_id
                      (if pin then "opt_pin_yes" else "opt_pin_no")))
          = fst (handle_pin_option b6 user_id pin)) as ->
    by (destruct pin; reflexivity).
  unfold handle_pin_option at 1. rewrite S6. cbn [fst].
  destruct (wizard_step b6 user_id _ (set_tm_pin_message pin) waiting_interval S6)
    as (S7 & W7 & D7).
  set (b7 := set_state (update_session b6 user_id _) user_id (Some waiting_interval)) in *.
  (* the interval *)
  rewrite (handle_text_input_open is_admin b7 user_id waiting_interval _ interval W7 S7 NI).
  rewrite Int. apply Z.ltb_ge in Pos. rewrite Pos. cbn [fst].
  destruct (wizard_step_same_state b7 user_id _ (set_tm_interval (Some i))
              waiting_interval S7 W7) as (S8 & W8 & D8).
  set (b8 := update_session b7 user_id _) in *.
  (* the save button *)
  change (fst (fst (button_callback b8 user_id "confirm_save")))
    with (fst (confirm_save_message b8 user_id)).
  apply K; [|exact W8 | congruence].
  rewrite S8. f_equal. subst s3. unfold wizard_session.
  destruct (String.eqb (PyStr.lower text) "skip"); reflexivity.
Qed.

(** X21. The wizard from end to end: for an admin of the group, the
    chat, a text (or "skip"), a photo, video or animation, the buttons (or
    "skip"), the two options and an interval of at least 1, followed by
    the save button, append to the list of the chat, stored under the
    canonical text of its identifier, exactly the item with these values,
    [last_sent = 0] and no [last_message_id]; the session and the state
    are gone and the file holds the configuration. *)
Theorem X21_wizard_builds_item (is_admin : Z -> bool) (b : Bot) (user_id : Z)
    (chat text : string) (message : Message) (buttons : string) (delete pin : bool)
    (interval : string) (n i : Z) (file_id : string) (kind : MediaType) :
  PyStr.to_int chat = Some n ->
  is_admin n = true ->
  text <> "/cancel" ->
  media_of_message message = Some (file_id, kind) ->
  buttons <> "/cancel" ->
  PyStr.to_int interval = Some i ->
  (1 <= i)%Z ->
  let b' := wizard_run is_admin b user_id chat text message buttons delete pin interval in
  let item :=
    {| rm_text := if String.eqb (PyStr.lower text) "skip" then None else Some text;
       rm_media := Some file_id;
       rm_media_type := Some kind;
       rm_buttons := if String.eqb (PyStr.lower buttons) "skip" then []
                     else parse_buttons buttons;
       rm_interval := Some i;
       rm_delete_previous := delete;
       rm_pin_message := pin;
       rm_last_sent := 0;
       rm_last_message_id := None |} in
  get_recurring_messages (storage b') (PyStr.of_Z n)
  = get_recurring_messages (storage b) (PyStr.of_Z n) ++ [item]
  /\ get_session b' user_id = None
  /\ get_state b' user_id = None
  /\ file (storage b') = Some (data (storage b')).
Proof.
  intros Chat Adm NT Media NB Int Pos b' item. subst b'.
  apply (wizard_run_reaches_save is_admin b user_id chat text message buttons delete pin
           interval n i file_id kind); try assumption.
  intros b8 S8 W8 D8. unfold confirm_save_message. rewrite S8. cbn [fst].
  split.
  { unfold get_recurring_messages.
    change (Dict.get_default (Some (PyStr.of_Z n)) []
              (recurring_messages
                 (data (add_recurring_message (storage b8) (Some (PyStr.of_Z n)) item)))
            = Dict.get_default (Some (PyStr.of_Z n)) []
                (recurring_messages (data (storage b))) ++ [item]).
    rewrite add_recurring_message_list, D8. reflexivity. }
  split; [rewrite get_session_set_state; apply get_session_delete|].
  split; [apply get_state_set_none | reflexivity].
Qed.

Lemma X21_wizard_builds_item_witness :
  get_recurring_messages
    (storage (wizard_run (fun _ => true) empty_bot 7%Z "-100123" "Hello"
                photo_message "Visit | https://x.com" true false "10")) "-100123"
  = [ {| rm_text := Some "Hello"; rm_media := Some "large-id";
         rm_media_type := Some photo;
         rm_buttons := [ {| btn_text := "Visit"; btn_url := "https://x.com" |} ];
         rm_interval := Some 10%Z; rm_delete_previous := true;
         rm_pin_message := false; rm_last_sent := 0%Z;
         rm_last_message_id := None |} ]
  /\ get_session (wizard_run (fun _ => true) empty_bot 7%Z "-100123" "Hello"
                    photo_message "Visit | https://x.com" true false "10") 7%Z = None.
Proof.
  pose proof (X21_wizard_builds_item (fun _ => true) empty_bot 7%Z "-100123" "Hello"
                photo_message "Visit | https://x.com" true false "10" (-100123)%Z 10%Z
                "large-id" photo eq_refl eq_refl ltac:(discriminate) eq_refl
                ltac:(discriminate) eq_refl ltac:(lia)) as P.
  cbv zeta in P. destruct P as (P1 & P2 & _).
  split; [exact P1 | exact P2].
Defined.

(** ** Well-formed sessions and items *)

Lemma forall_dict_set {K V} `{KeyEq K} (Q : V -> Prop) (k : K) (v : V) (d : dict K V) :
  Forall (fun e => Q (snd e)) d -> Q v -> Forall (fun e => Q (snd e)) (Dict.set k v d).
Proof.
  intros F Qv. induction F as [|[k' v'] d Qe F IH]; simpl.
  - constructor; [exact Qv | constructor].
  - destruct (keqb k k'); constructor; assumption.
Qed.

Lemma forall_dict_remove {K V} `{KeyEq K} (Q : V -> Prop) (k : K) (d : dict K V) :
  Forall (fun e => Q (snd e)) d -> Forall (fun e => Q (snd e)) (Dict.remove k d).
Proof.
  intros F. induction F as [|[k' v'] d Qe F IH]; simpl; [constructor|].
  destruct (keqb k k'); [assumption | constructor; assumption].
Qed.

Lemma forall_dict_get {K V} `{KeyEq K} (Q : V -> Prop) (k : K) (v : V) (d : dict K V) :
  Forall (fun e => Q (snd e)) d -> Dict.get k d = Some v -> Q v.
Proof.
  intros F. induction F as [|[k' v'] d Qe F IH]; simpl; [discriminate|].
  destruct (keqb k k'); [now intros [= <-] | exact IH].
Qed.

Lemma forall_list_pop {A} (Q : A -> Prop) (l : list A) :
  Forall Q l -> forall i, Forall Q (list_pop i l).
Proof.
  intros F. induction F as [|x l Qx F IH]; intros i; destruct i; simpl;
    try constructor; auto.
Qed.

Lemma update_session_ok (b : Bot) (u : Z) (f : Session -> Session) :
  (forall s, session_ok s -> session_ok (f s)) ->
  bot_ok (storage b) -> bot_ok (storage (update_session b u f)).
Proof.
  intros Hf [T R]. unfold update_session.
  destruct (get_session b u) as [s|] eqn:G; [|now split].
  split; [|exact R]. simpl. apply forall_dict_set; [exact T|].
  apply Hf. exact (forall_dict_get session_ok u s _ T G).
Qed.

Lemma delete_session_ok (b : Bot) (u : Z) :
  bot_ok (storage b) -> bot_ok (storage (delete_session b u)).
Proof. intros [T R]. split; [simpl; now apply forall_dict_remove | exact R]. Qed.

Lemma recurring_add_ok (b : Bot) (u : Z) :
  bot_ok (storage b) -> bot_ok (storage (fst (recurring_add b u))).
Proof.
  intros [T R]. split; [|exact R]. simpl. apply forall_dict_set; [exact T|].
  split; [exact I | split; reflexivity].
Qed.

Lemma handle_text_input_ok (is_admin : Z -> bool) (b : Bot) (private : bool) (u : Z)
    (text : string) :
  bot_ok (storage b) -> bot_ok (storage (fst (handle_text_input is_admin b private u text))).
Proof.
  intros Ok. unfold handle_text_input.
  destruct private; cbn [negb fst]; [|exact Ok].
  destruct (get_state b u) as [state|]; [|exact Ok].
  destruct (get_session b u) as [s|]; [|exact Ok].
  destruct (String.eqb text "/cancel"); cbn [fst].
  { rewrite storage_set_state. now apply delete_session_ok. }
  destruct state; cbn [fst]; try exact Ok.
  - destruct (PyStr.to_int text) as [n|]; [|exact Ok].
    destruct (is_admin n); cbn [fst]; [|exact Ok].
    rewrite storage_set_state. now apply update_session_ok.
  - rewrite storage_set_state.
    destruct (negb (String.eqb (PyStr.lower text) "skip")); [|exact Ok].
    now apply update_session_ok.
  - rewrite storage_set_state. now apply update_session_ok.
  - destruct (PyStr.to_int text) as [n|]; [|exact Ok].
    destruct (n <? 1)%Z eqn:L; cbn [fst]; [exact Ok|].
    apply update_session_ok; [|exact Ok].
    intros s0 [_ M]. split; [|exact M]. simpl. now apply Z.ltb_ge in L.
Qed.

Lemma handle_media_input_ok (b : Bot) (private : bool) (u : Z) (message : Message) :
  bot_ok (storage b) -> bot_ok (storage (fst (handle_media_input b private u message))).
Proof.
  intros Ok. unfold handle_media_input.
  destruct private; cbn [negb fst]; [|exact Ok].
  destruct (get_state b u) as [[]|]; try exact Ok.
  destruct (get_session b u) as [s|]; [|exact Ok].
  destruct (media_of_message message) as [[f k]|]; cbn [fst]; [|exact Ok].
  rewrite storage_set_state. apply update_session_ok; [|exact Ok].
  intros s0 [Iv _]. split; [exact Iv|]. simpl. split; discriminate.
Qed.

Lemma add_recurring_message_ok (st : BotStorage) (chat_id : option string)
    (item : RecurringItem) :
  item_ok item -> bot_ok st -> bot_ok (add_recurring_message st chat_id item).
Proof.
  intros Hi [T R]. split; [exact T|]. unfold add_recurring_message. simpl.
  assert (Forall (fun e => Forall item_ok (snd e))
            (if Dict.mem chat_id (recurring_messages (data st))
             then recurring_messages (data st)
             else Dict.set chat_id [] (recurring_messages (data st)))) as R1.
  { destruct (Dict.mem _ _); [exact R|]. apply forall_dict_set; [exact R | constructor]. }
  apply forall_dict_set; [exact R1|].
  apply Forall_app. split; [|constructor; [exact Hi | constructor]].
  unfold Dict.get_default.
  destruct (Dict.get chat_id _) as [l|] eqn:G; [|constructor].
  exact (forall_dict_get (Forall item_ok) chat_id l _ R1 G).
Qed.

Lemma confirm_save_ok (b : Bot) (u : Z) :
  bot_ok (storage b) -> bot_ok (storage (fst (confirm_save_message b u))).
Proof.
  intros Ok. unfold confirm_save_message.
  destruct (get_session b u) as [s|] eqn:G; [|exact Ok]. cbn [fst].
  rewrite storage_set_state. apply delete_session_ok. simpl.
  apply add_recurring_message_ok; [|exact Ok].
  destruct Ok as [T _]. exact (forall_dict_get session_ok u s _ T G).
Qed.

Lemma remove_recurring_message_ok (st : BotStorage) (chat_id : string) (index : Z) :
  bot_ok st -> bot_ok (remove_recurring_message st chat_id index).
Proof.
  intros [T R]. unfold remove_recurring_message.
  destruct (Dict.get (Some chat_id) (recurring_messages (data st))) as [msgs|] eqn:G;
    [|now split].
  destruct ((0 <=? index)%Z && (index <? Z.of_nat (List.length msgs))%Z); [|now split].
  split; [exact T|]. simpl. apply forall_dict_set; [exact R|].
  apply forall_list_pop. exact (forall_dict_get (Forall item_ok) _ msgs _ R G).
Qed.

Lemma option_handlers_ok (b : Bot) (u : Z) (v : bool) :
  bot_ok (storage b) ->
  bot_ok (storage (fst (handle_delete_option b u v)))
  /\ bot_ok (storage (fst (handle_pin_option b u v))).
Proof.
  intros Ok. unfold handle_delete_option, handle_pin_option.
  destruct (get_session b u); cbn [fst]; [|now split].
  split; [|rewrite storage_set_state]; now apply update_session_ok.
Qed.

Lemma button_callback_ok (b : Bot) (user_id : Z) (data0 : string) :
  bot_ok (storage b) -> bot_ok (storage (fst (fst (button_callback b user_id data0)))).
Proof.
  intros Ok. unfold button_callback. cbv zeta.
  repeat match goal with
         | |- context [if ?c then _ else _] => destruct c
         end;
    cbn [fst snd show_recurring_menu];
    try exact Ok;
    try (now apply recurring_add_ok);
    try (now apply confirm_save_ok);
    try (now apply option_handlers_ok).
  - destruct (get_session b user_id); exact Ok.
  - unfold delete_recurring_from_button.
    destruct (PyStr.split "_" data0) as [|p0 [|c [|i ps]]]; try exact Ok.
    destruct (PyStr.to_int i); [|exact Ok]. now apply remove_recurring_message_ok.
Qed.

Lemma item_ok_config (m : RecurringItem) : item_ok (item_config m) <-> item_ok m.
Proof. reflexivity. Qed.

Lemma chats_ok_config (r : dict (option string) (list RecurringItem)) :
  Forall (fun e => Forall item_ok (snd e)) (chats_config r)
  <-> Forall (fun e => Forall item_ok (snd e)) r.
Proof.
  unfold chats_config. rewrite Forall_map. apply Forall_iff_strong || idtac.
  split; intros F; induction F as [|e l Fe F IH]; constructor; auto.
  - simpl in Fe. rewrite Forall_map in Fe. exact Fe.
  - simpl. rewrite Forall_map. exact Fe.
Qed.

Lemma tick_ok (current_time : Z) (env : TickEnv) (st : BotStorage) :
  bot_ok st -> bot_ok (fst (fst (send_recurring_messages current_time env st))).
Proof.
  intros [T R]. unfold send_recurring_messages.
  pose proof (tick_chats_config current_time env (data st)
                (recurring_messages (data st)) [] (file st)) as C.
  destruct (tick_chats _ _ _ _ [] _) as [[[r f1] tr] ra]. cbn [fst snd app] in *.
  split; [exact T|]. cbn [data recurring_messages set_recurring].
  apply chats_ok_config. rewrite C. now apply chats_ok_config.
Qed.

(** ** The preview *)

(** X22. For a session whose media and media type are set together,
    as the wizard sets them, the message the scheduler sends for the
    saved item is the one the preview showed. When the scheduler sends
    nothing, the session having neither a text nor a media, the preview
    still calls [send_message], with no text. *)
Theorem X22_preview_shows_what_is_sent (s : Session) (chat_id : option string) :
  media_typed (tm_media s) (tm_media_type s) ->
  match send_call chat_id (recurring_data s) with
  | Some call => content_of call = preview_content s
  | None =>
      preview_content s
      = Some (PreviewText (tm_text s) (reply_markup_of (tm_buttons s)))
      /\ PyStr.otruthy (tm_text s) = false
  end.
Proof.
  intros [M1 M2]. unfold send_call, preview_content, recurring_data. cbn [rm_text rm_media
    rm_media_type rm_buttons]. cbv zeta.
  destruct (tm_media s) as [media|].
  - destruct (tm_media_type s) as [kind|]; [|now specialize (M2 eq_refl)].
    destruct (PyStr.truthy media); [reflexivity|].
    destruct (tm_text s) as [t|]; [|now split].
    simpl. destruct (PyStr.truthy t); [reflexivity | now split].
  - destruct (tm_media_type s) as [kind|]; [now specialize (M1 eq_refl)|].
    destruct (tm_text s) as [t|]; [|now split].
    simpl. destruct (PyStr.truthy t); [reflexivity | now split].
Qed.

Lemma X22_preview_shows_what_is_sent_witness :
  preview_content scenario_session = Some (PreviewText (Some "Hello") (Some [visit_button]))
  /\ preview_content fresh_session = Some (PreviewText None None)
  /\ send_call None (recurring_data fresh_session) = None.
Proof.
  pose proof (X22_preview_shows_what_is_sent scenario_session (Some "-100123")
                (conj (fun _ => eq_refl) (fun _ => eq_refl))) as P.
  pose proof (X22_preview_shows_what_is_sent fresh_session None
                (conj (fun _ => eq_refl) (fun _ => eq_refl))) as Q.
  cbv in P. cbv in Q. destruct Q as (Q & _).
  split; [symmetry; exact P | split; [exact Q | reflexivity]].
Defined.

(** ** The invariant under every step *)

Lemma commands_keep_items (is_admin : Z -> bool) (st : BotStorage)
    (message : option bool) (args : list string)
    (cmd : (Z -> bool) -> BotStorage -> option bool -> list string -> CommandRun) :
  In cmd [add_word; del_word; list_words; add_reply; del_reply; list_replies;
          set_links_command; set_mentions_command] ->
  recurring_messages (data (fst (fst (cmd is_admin st message args))))
  = recurring_messages (data st)
  /\ temp_messages (fst (fst (cmd is_admin st message args))) = temp_messages st.
Proof.
  intros I. rewrite (command_storage is_admin st message args cmd I).
  assert (recurring_messages (data (fst (fst (cmd is_admin st (Some true) args))))
          = recurring_messages (data st)
          /\ temp_messages (fst (fst (cmd is_admin st (Some true) args)))
             = temp_messages st) as P.
  { clear message. simpl in I.
    repeat (destruct I as [<- | I]); [..|destruct I];
      unfold add_word, del_word, list_words, add_reply, del_reply, list_replies,
        set_links_command, set_mentions_command, admin_only, add_banned_word,
        remove_banned_word, remove_auto_reply;
      cbn [negb];
      repeat match goal with
             | |- context [match ?c with _ => _ end] => destruct c
             end;
      split; reflexivity. }
  destruct message as [[|]|]; [exact P | now split | exact P].
Qed.

(** X23. An invariant of the bot: when every session and every stored
    item has an interval of at least 1 or none, and a media exactly when
    it has a media type, this still holds after a button, a text, a
    media, a run of the scheduler and any of the eight commands. It holds
    for the empty storage, so every item the bot stores has these two
    properties. *)
Theorem X23_well_formed_invariant (is_admin : Z -> bool) (b : Bot) (private : bool)
    (command_message : option bool) (user_id : Z) (text data0 : string)
    (message : Message) (args : list string) (current_time : Z) (env : TickEnv) :
  bot_ok (storage b) ->
  bot_ok (storage (fst (fst (button_callback b user_id data0))))
  /\ bot_ok (storage (fst (handle_text_input is_admin b private user_id text)))
  /\ bot_ok (storage (fst (handle_media_input b private user_id message)))
  /\ bot_ok (fst (fst (send_recurring_messages current_time env (storage b))))
  /\ (forall cmd,
        In cmd [add_word; del_word; list_words; add_reply; del_reply; list_replies;
                set_links_command; set_mentions_command] ->
        bot_ok (fst (fst (cmd is_admin (storage b) command_message args))))
  /\ (forall chat_id m,
        In m (get_recurring_messages (storage b) chat_id) ->
        (forall n, rm_interval m = Some n -> (1 <= n)%Z)
        /\ (rm_media m = None <-> rm_media_type m = None)).
Proof.
  intros Ok.
  split; [now apply button_callback_ok|].
  split; [now apply handle_text_input_ok|].
  split; [now apply handle_media_input_ok|].
  split; [now apply tick_ok|].
  split.
  { intros cmd I.
    destruct (commands_keep_items is_admin (storage b) command_message args cmd I)
      as [R T].
    destruct Ok as [OT OR]. unfold bot_ok. now rewrite R, T. }
  intros chat_id m I. destruct Ok as [_ R].
  unfold get_recurring_messages, Dict.get_default in I.
  destruct (Dict.get (Some chat_id) (recurring_messages (data (storage b))))
    as [msgs|] eqn:G; [|destruct I].
  pose proof (forall_dict_get (Forall item_ok) _ msgs _ R G) as F.
  rewrite Forall_forall in F. destruct (F m I) as [Iv M].
  split; [|exact M]. intros n E. unfold interval_ok in Iv. now rewrite E in Iv.
Qed.

Lemma bot_ok_new : bot_ok new_storage.
Proof. split; constructor. Qed.

Lemma X23_well_formed_invariant_witness :
  bot_ok (storage (fst (fst (button_callback empty_bot 7%Z "recurring_add"))))
  /\ bot_ok (fst (fst (send_recurring_messages a_time sending_env (storage empty_bot)))).
Proof.
  pose proof (X23_well_formed_invariant (fun _ => true) empty_bot true (Some true) 7%Z ""
                "recurring_add" photo_message [] a_time sending_env bot_ok_new) as P.
  destruct P as (P1 & _ & _ & P4 & _). split; [exact P1 | exact P4].
Defined.

(** ** The listing commands *)

Lemma substring_length (n : nat) (s : string) :
  (n <= String.length s)%nat -> String.length (String.substring 0 n s) = n.
Proof.
  revert s. induction n as [|n IH]; intros s L.
  - destruct s; reflexivity.
  - destruct s as [|c s]; simpl in *; [lia|]. rewrite IH; lia.
Qed.

Lemma string_length_app (a b : string) :
  String.length (a ++ b)%string = (String.length a + String.length b)%nat.
Proof. induction a as [|c a IH]; simpl; [reflexivity | now rewrite IH]. Qed.

Lemma reply_preview_length (reply : string) :
  (String.length (reply_preview reply) <= 53)%nat
  /\ ((String.length reply <= 50)%nat -> reply_preview reply = reply).
Proof.
  unfold reply_preview. destruct (50 <? String.length reply)%nat eqn:L.
  - apply Nat.ltb_lt in L. split; [|lia].
    rewrite string_length_app, substring_length by lia. simpl. lia.
  - apply Nat.ltb_ge in L. split; [lia | reflexivity].
Qed.

(** X24. The listing commands show what the other commands stored,
    under the identifier as it was typed: after [/addword] the list of
    [/listwords] holds the word up to letter case, after [/delword] it
    holds no word equal to it up to letter case; [/listreplies] shows the
    lower-cased trigger with its reply, cut to 50 characters and "..."
    when it is longer and unchanged otherwise. *)
Theorem X24_lists_show_the_store (is_admin : Z -> bool) (st : BotStorage) (c : string)
    (n : Z) (words : list string) (trigger reply : string) :
  PyStr.to_int c = Some n ->
  is_admin n = true ->
  let word := join " " words in
  let st1 := fst (fst (add_word is_admin st (Some true) (c :: words))) in
  let st2 := fst (fst (del_word is_admin st1 (Some true) (c :: words))) in
  let st3 := add_auto_reply st c trigger reply in
  (exists ws,
     list_words is_admin st1 (Some true) [c] = (st1, [CmdWords c ws], false)
     /\ exists x, In x ws /\ PyStr.lower x = PyStr.lower word)
  /\ (exists ws,
        list_words is_admin st2 (Some true) [c] = (st2, [CmdWords c ws], false)
        /\ forall x, In x ws -> PyStr.lower x <> PyStr.lower word)
  /\ (exists entries,
        list_replies is_admin st3 (Some true) [c] = (st3, [CmdReplies c entries], false)
        /\ In (PyStr.lower trigger, reply_preview reply) entries)
  /\ (String.length (reply_preview reply) <= 53)%nat
  /\ ((String.length reply <= 50)%nat -> reply_preview reply = reply).
Proof.
  intros C A word st1 st2 st3.
  assert (st1 = add_banned_word st c word) as E1.
  { subst st1. unfold add_word, admin_only. cbn [negb]. now rewrite C, A. }
  assert (st2 = remove_banned_word st1 c word) as E2.
  { subst st2. unfold del_word, admin_only. cbn [negb]. now rewrite C, A. }
  split.
  { exists (get_banned_words st1 c). split.
    - unfold list_words, admin_only. cbn [negb]. now rewrite C, A.
    - rewrite E1, get_after_add.
      destruct (str_in _ _) eqn:S0.
      + apply str_in_spec, in_map_iff in S0 as (x & Lx & I). now exists x.
      + exists (PyStr.lower word). split; [apply in_or_app; right; now left|].
        apply lower_idem. }
  split.
  { exists (get_banned_words st2 c). split.
    - unfold list_words, admin_only. cbn [negb]. now rewrite C, A.
    - rewrite E2, get_after_remove. intros x I. apply filter_In in I as [_ I].
      apply negb_true_iff, String.eqb_neq in I. exact I. }
  split.
  { exists (map (fun e => (fst e, reply_preview (snd e))) (get_auto_replies st3 c)). split.
    - unfold list_replies, admin_only. cbn [negb]. now rewrite C, A.
    - subst st3. rewrite get_replies_after_add, String.eqb_refl.
      apply (in_map (fun e : string * string => (fst e, reply_preview (snd e)))
               _ (PyStr.lower trigger, reply)).
      apply dict_set_in. }
  apply reply_preview_length.
Qed.

Lemma X24_lists_show_the_store_witness :
  list_words (fun _ => true)
    (fst (fst (add_word (fun _ => true) new_storage (Some true) ["-100123"; "Buy"; "NOW"])))
    (Some true) ["-100123"]
  = (fst (fst (add_word (fun _ => true) new_storage (Some true) ["-100123"; "Buy"; "NOW"])),
     [CmdWords "-100123" ["buy now"]], false).
Proof.
  pose proof (X24_lists_show_the_store (fun _ => true) new_storage "-100123" (-100123)%Z
                ["Buy"; "NOW"] "price" "It is free" eq_refl eq_refl) as P.
  cbv zeta in P. destruct P as ((ws & P & _) & _).
  rewrite P. vm_compute in P. injection P as <-. reflexivity.
Defined.

(** ** Deleting the previous message and pinning *)

(** X25. For a due item with [delete_previous] set and a previous
    message: the deletion of that message is the first call, before the
    send; when the send then raises the item stays as it is, the previous
    message included, and nothing is saved. A pin call is made only for
    the message that was just sent, in the chat of the item, when
    [pin_message] is set. Whether the deletion or the pin raises changes
    neither the item nor whether it is saved. *)
Theorem X25_delete_and_pin (current_time : Z) (o : ItemOutcome)
    (chat_id : option string) (m : RecurringItem) (n id0 : Z) :
  rm_interval m = Some n ->
  is_due current_time m n = true ->
  rm_delete_previous m = true ->
  rm_last_message_id m = Some id0 ->
  id0 <> 0%Z ->
  exists r,
    send_recurring_item current_time o chat_id m = Some r
    /\ (exists rest, run_trace r = SDeleteMessage chat_id id0 :: rest)
    /\ (forall call, send_call chat_id m = Some call -> send_result o = None ->
          run_item r = m /\ run_saved r = false)
    /\ (forall c id, In (SPinMessage c id) (run_trace r) <->
          c = chat_id /\ send_result o = Some id /\ rm_pin_message m = true
          /\ exists call, send_call chat_id m = Some call)
    /\ (forall o', send_result o' = send_result o ->
          exists r', send_recurring_item current_time o' chat_id m = Some r'
                     /\ run_item r' = run_item r /\ run_saved r' = run_saved r).
Proof.
  intros Iv Due Del Last Nz. apply Z.eqb_neq in Nz.
  unfold send_recurring_item, delete_previous_step.
  rewrite Iv, Due, Del, Last, Nz. cbn [andb negb].
  destruct (send_call chat_id m) as [call|] eqn:Call.
  - assert (forall c id, call <> SPinMessage c id) as NP.
    { intros c id ->. pose proof (send_call_is_send chat_id m _ Call). discriminate. }
    destruct (send_result o) as [id|] eqn:Res.
    + eexists. split; [reflexivity|]. cbn [run_trace run_item run_saved].
      split; [eexists; reflexivity|].
      split; [discriminate|].
      split.
      * intros c id'. split.
        -- intros I. cbn [app] in I. destruct I as [I | I]; [discriminate|].
           apply in_app_or in I as [I | I].
           { destruct (delete_previous_ok o); simpl in I; intuition discriminate. }
           destruct I as [I | I]; [now apply NP in I|].
           apply in_app_or in I as [I | I]; [|simpl in I; intuition discriminate].
           destruct (rm_pin_message m); [|destruct I].
           destruct I as [I | I].
           ++ injection I as <- <-. repeat split. now exists call.
           ++ destruct (pin_ok o); simpl in I; intuition discriminate.
        -- intros (-> & [= ->] & Pin & _). rewrite Pin. right.
           apply in_or_app. right. right. now left.
      * intros o' ->. eexists. split; [reflexivity | split; reflexivity].
    + eexists. split; [reflexivity|]. cbn [run_trace run_item run_saved].
      split; [eexists; reflexivity|].
      split; [now split|].
      split.
      * intros c id'. split.
        -- intros I. cbn [app] in I. destruct I as [I | I]; [discriminate|].
           apply in_app_or in I as [I | I].
           { destruct (delete_previous_ok o); simpl in I; intuition discriminate. }
           destruct I as [I | [I | []]]; [now apply NP in I | discriminate].
        -- intros (_ & [=] & _).
      * intros o' ->. eexists. split; [reflexivity | split; reflexivity].
  - eexists. split; [reflexivity|]. cbn [run_trace run_item run_saved].
    split; [eexists; reflexivity|].
    split; [discriminate|].
    split.
    + intros c id'. split.
      * intros I. cbn [app] in I. destruct I as [I | I]; [discriminate|].
        apply in_app_or in I as [I | I].
        { destruct (delete_previous_ok o); simpl in I; intuition discriminate. }
        simpl in I; intuition discriminate.
      * intros (_ & _ & _ & call & [=]).
    + intros o' _. eexists. split; [reflexivity | split; reflexivity].
Qed.

Lemma X25_delete_and_pin_witness :
  send_recurring_item a_time (failing_env 0%nat 0%nat) (Some "-100123")
    (set_sent hello_item 0 (Some 41%Z))
  = Some {| run_item := set_sent hello_item 0 (Some 41%Z);
            run_trace := [SDeleteMessage (Some "-100123") 41%Z; hello_call; SPrintError];
            run_saved := false |}.
Proof.
  destruct (X25_delete_and_pin a_time (failing_env 0%nat 0%nat) (Some "-100123")
              (set_sent hello_item 0 (Some 41%Z)) 10%Z 41%Z eq_refl eq_refl eq_refl eq_refl
              ltac:(discriminate)) as (r & E & _).
  rewrite E. vm_compute in E. injection E as <-. reflexivity.
Defined.
